(** * dursgo: the SQL injection scanner (internal/scanner/sqli/sqli.go)

    A shallow embedding of the scanner's dispatcher [Scan], its five probes
    and its helpers, with the properties of the detection core proved over
    it.  Go's [string] is a byte string (Rocq's [string]), [len] is
    [String.length], [int] and [time.Duration] are [Z] with the 64-bit
    wrap-around written out where the code adds, [float64] is IEEE 754
    binary64 ([spec_float] at precision 53, [emax] 1024), [url.Values] is a
    finite map from names to value lists, and every HTTP exchange threads
    the state of the outside world through a small state monad.  The calls
    to the logger have no effect on what the scanner returns and are left
    out, as are the deferred [Body.Close] calls. *)

From Stdlib Require Import ZArith QArith Lia Bool List String Ascii.
From Stdlib Require Import Floats.SpecFloat.
From stdpp Require Import base option list strings gmap fin_maps.

Local Open Scope string_scope.
Local Open Scope list_scope.
Local Open Scope Z_scope.

(** ** Go strings *)

Module GoStrings.

(** [strings.HasPrefix]. *)
Fixpoint HasPrefix (s prefix : string) : bool :=
match prefix, s with
| EmptyString, _ => true
| String _ _, EmptyString => false
| String c p, String d t => if Ascii.eqb c d then HasPrefix t p else false
end.

(** [strings.Contains]: [substr] occurs somewhere in [s]. *)
Fixpoint Contains (s substr : string) : bool :=
HasPrefix s substr ||
match s with
| EmptyString => false
| String _ t => Contains t substr
end.

(** The scan of [strings.Replace s old new (-1)] for a non-empty [old]:
  [skip] counts the bytes of a match that are still to be dropped. *)
Fixpoint replaceFrom (old new : string) (skip : nat) (s : string) : string :=
match s with
| EmptyString => EmptyString
| String c t =>
    match skip with
    | S k => replaceFrom old new k t
    | O =>
        if HasPrefix s old
        then String.append new (replaceFrom old new (String.length old - 1)%nat t)
        else String c (replaceFrom old new 0 t)
    end
end.

(** [strings.Replace s old new (-1)], every non-overlapping instance from the
  left; the empty [old] (a match before every rune) is not used by the
  scanner and is left as the identity here. *)
Definition ReplaceAll (s old new : string) : string :=
match old with
| EmptyString => s
| _ => replaceFrom old new 0 s
end.

End GoStrings.

(** ** 64-bit integers and durations *)

Definition min_int64 : Z := - 2 ^ 63.
Definition max_int64 : Z := 2 ^ 63 - 1.

(** Two's complement wrap-around of Go's [int64] arithmetic. *)
Definition wrap64 (z : Z) : Z := (z + 2 ^ 63) mod 2 ^ 64 - 2 ^ 63.

(** [time.Duration] is an [int64] count of nanoseconds. *)
Definition Duration := Z.
Definition Second : Duration := 1000000000.

Definition duration_add (a b : Duration) : Duration := wrap64 (a + b).
Definition duration_mul (a b : Duration) : Duration := wrap64 (a * b).

(** [t.Sub u] saturates at the ends of the [Duration] range. *)
Definition saturate64 (z : Z) : Duration :=
  if z <? min_int64 then min_int64
  else if max_int64 <? z then max_int64 else z.

(** ** float64 *)

Definition float64 : Type := spec_float.

Definition prec64 : Z := 53.
Definition emax64 : Z := 1024.

(** The conversion [float64(n)] of an [int]: round to nearest, ties to even. *)
Definition float64_of_int (n : Z) : float64 :=
  binary_normalize prec64 emax64 n 0 false.

Definition f64_mul : float64 -> float64 -> float64 := SFmul prec64 emax64.
Definition f64_div : float64 -> float64 -> float64 := SFdiv prec64 emax64.
Definition f64_sub : float64 -> float64 -> float64 := SFsub prec64 emax64.
Definition f64_lt : float64 -> float64 -> bool := SFltb.

(** The decimal constants of the source, each the binary64 number nearest to
    its decimal value (the correctly rounded quotient of two small
    integers). *)
Definition f64_1_0 : float64 :=
  Eval vm_compute in float64_of_int 1.
Definition f64_0_95 : float64 :=
  Eval vm_compute in f64_div (float64_of_int 95) (float64_of_int 100).
Definition f64_1_1 : float64 :=
  Eval vm_compute in f64_div (float64_of_int 11) (float64_of_int 10).
Definition f64_1e9 : float64 :=
  Eval vm_compute in float64_of_int 1000000000.

(** [d.Seconds()]: whole seconds plus the fraction, as the time package
    computes it (Go's [/] and [%] truncate toward zero). *)
Definition Duration_Seconds (d : Duration) : float64 :=
  SFadd prec64 emax64
    (float64_of_int (Z.quot d Second))
    (f64_div (float64_of_int (Z.rem d Second)) f64_1e9).

(** *** Vocabulary of binary64 rounding *)

(** The position of the rational [N/D] between the integers around it. *)
Definition locate (N D : Z) : location :=
  if N mod D =? 0 then loc_Exact else loc_Inexact (2 * (N mod D) ?= D).

(** A shift record stands for the rational [N/D]: its mantissa is the
    integer part and its two bits locate the fraction. *)
Definition represents (mrs : shr_record) (N D : Z) : Prop :=
  shr_m mrs = N / D /\ loc_of_shr_record mrs = locate N D.

(** The integer nearest to [N/D], the even one at a tie. *)
Definition rne (N D : Z) : Z := round_nearest_even (N / D) (locate N D).

(** The binary64 number with mantissa [R] in [2^52, 2^53] at exponent [E]:
    a full carry moves to the next exponent, and an exponent above the
    largest one gives infinity. *)
Definition rounded (sx : bool) (R E : Z) : spec_float :=
  if R =? 2 ^ 53
  then (if E + 1 <=? 971
        then S754_finite sx (Z.to_pos (2 ^ 52)) (E + 1)
        else S754_infinity sx)
  else (if E <=? 971
        then S754_finite sx (Z.to_pos R) E
        else S754_infinity sx).

(** A positive float: finite or infinite, with the sign bit clear. *)
Definition is_positive (f : float64) : Prop :=
  match f with
  | S754_finite false _ _ | S754_infinity false => True
  | _ => False
  end.

(** ** Errors and results *)

(** A Go [error] value; only its presence matters to the scanner. *)
Definition error : Type := string.

Inductive result (A : Type) : Type :=
  | Ok (a : A)
  | Err (e : error).
Arguments Ok {A} a.
Arguments Err {A} e.

(** ** url.Values *)

Abbreviation Values := (gmap string (list string)).

(** [v.Get(key)]: the first value of the key, or the empty string. *)
Definition Values_Get (v : Values) (key : string) : string :=
  match v !! key with
  | Some (x :: _) => x
  | _ => EmptyString
  end.

(** [v.Set(key, value)] replaces the values of the key by the one value. *)
Definition Values_Set (v : Values) (key value : string) : Values :=
  <[ key := [value] ]> v.

(** [copyParams]: a new map that receives every entry of the original. *)
Definition copyParams (original : Values) : Values :=
  map_fold (fun k v (newParams : Values) => <[ k := v ]> newParams) ∅ original.

(** ** The packages the scanner is written against *)

Module crawler.
Record ParameterizedRequest : Type := {
  Method : string;
  URL : string;
  FormPostData : string;
  ParamNames : list string
}.
End crawler.

Module scanner.
(** The field [Param] is the source's [Parameter], a reserved word here. *)
Record VulnerabilityResult : Type := {
  VulnerabilityType : string;
  URL : string;
  Param : string;
  Payload : string;
  Details : string;
  Severity : string;
  Evidence : string;
  Location : string;
  Remediation : string;
  ScannerName : string
}.
End scanner.

Module payloads.
Record TimeBasedSQLiTest : Type := { PayloadTemplate : string }.
Record BooleanSQLiTest : Type := { TruePayload : string; FalsePayload : string }.
End payloads.

Module http.
Record Cookie : Type := { Name : string; Value : string }.

(** What the scanner reads of an [*http.Response]: the status, the result
    of [resp.Location()] (already printed with [String()]), the cookies
    the response sets, and the outcome of [io.ReadAll(resp.Body)], which
    returns the bytes read so far together with the read error. *)
Record Response : Type := {
  StatusCode : Z;
  Location : result string;
  Cookies : list Cookie;
  Body : string;
  BodyErr : option error
}.
End http.

(** Arguments of a [fmt.Sprintf] call. *)
Inductive fmt_arg : Type :=
  | ArgString (s : string)
  | ArgInt (n : Z)
  | ArgFloat (f : float64)
  | ArgDuration (d : Duration).

(** The libraries, the payload catalog and the network.  [World] is the
    state of everything outside the process (servers, connections, clock);
    a client call maps a world to its outcome and the next world, with the
    response body already transferred. *)
Class Platform : Type := {
  World : Type;
  (* net/url *)
  url_URL : Type;
  url_Parse : string -> result url_URL;
  URL_Query : url_URL -> Values;
  URL_setRawQuery : url_URL -> string -> url_URL;
  URL_String : url_URL -> string;
  url_ParseQuery : string -> result Values;
  Values_Encode : Values -> string;
  (* net/http *)
  http_Request : Type;
  http_NewRequest : string -> string -> option string -> result http_Request;
  Header_Set : http_Request -> string -> string -> http_Request;
  (* internal/httpclient *)
  Client_Do : http_Request -> World -> result http.Response * World;
  NoRedirects_Do : http_Request -> World -> result http.Response * World;
  Client_GetWithCookies :
    string -> list http.Cookie -> World -> result http.Response * World;
  (* time: the monotonic clock reading, in nanoseconds *)
  time_Now : World -> Z;
  (* regexp, on patterns that compile *)
  regexp_MatchString : string -> string -> bool;
  regexp_FindString : string -> string -> string;
  (* strings.ToLower (Unicode aware) and fmt.Sprintf *)
  strings_ToLower : string -> string;
  fmt_Sprintf : string -> list fmt_arg -> string;
  (* github.com/agext/levenshtein, default parameters *)
  levenshtein_Distance : string -> string -> Z;
  (* internal/payloads *)
  SQLiPayloads : list string;
  SQLiErrorPatterns : list string;
  TimeBasedSQLiTests : list payloads.TimeBasedSQLiTest;
  BooleanSQLiTests : list payloads.BooleanSQLiTest
}.

(** ** The monad of HTTP exchanges *)

Definition IO `{Platform} (A : Type) : Type := World -> A * World.

Definition ret `{Platform} {A : Type} (a : A) : IO A := fun w => (a, w).

Definition bind `{Platform} {A B : Type} (m : IO A) (k : A -> IO B) : IO B :=
  fun w => let (a, w') := m w in k a w'.

Declare Scope io_scope.
Delimit Scope io_scope with io.
Notation "'let*' x ':=' m 'in' k" := (bind m (fun x => k))
  (at level 10, x pattern, m at level 100, k at level 200) : io_scope.

(** A [for ... range] loop whose body either returns a finding from the
    enclosing function or moves on to the next element ([continue], or the
    end of the body); after the last element the function returns no
    finding. *)
Fixpoint firstHit `{Platform} {A R : Type} (body : A -> IO (option R))
    (xs : list A) : IO (option R) :=
  match xs with
  | [] => ret None
  | x :: rest =>
      fun w =>
        match body x w with
        | (Some r, w') => (Some r, w')
        | (None, w') => firstHit body rest w'
        end
  end.

(** ** The scanner *)

Section SQLiScanner.
Context `{P : Platform}.
Local Open Scope io_scope.

Import crawler.

(** Parameters that are never probed. *)
Definition ignoredParams : gmap string bool :=
  list_to_map
    [ ("_csrf_token", true); ("csrf_token", true); ("csrf", true);
      ("token", true); ("_token", true) ].

(** Paths that are never scanned. *)
Definition specialPaths : list string := [ "/comment"; "/register" ].

Definition Name : string := "Advanced SQL Injection Scanner".

(** *** Helper functions *)

Definition getOriginalParams (req : ParameterizedRequest) : result Values :=
  if String.eqb (Method req) "GET" then
    match url_Parse (URL req) with
    | Err e => Err e
    | Ok u => Ok (URL_Query u)
    end
  else url_ParseQuery (FormPostData req).

Definition buildRequestComponents (req : ParameterizedRequest)
    (params : Values) : result (string * option string) :=
  if String.eqb (Method req) "GET" then
    match url_Parse (URL req) with
    | Err e => Err e
    | Ok u => Ok (URL_String (URL_setRawQuery u (Values_Encode params)), None)
    end
  else Ok (URL req, Some (Values_Encode params)).

Definition sendRequest (req : ParameterizedRequest) (params : Values)
    : IO (result (Z * string)) :=
  match buildRequestComponents req params with
  | Err e => ret (Err e)
  | Ok (testURL, reqBody) =>
      match http_NewRequest (Method req) testURL reqBody with
      | Err e => ret (Err e)
      | Ok httpReq =>
          let httpReq :=
            if String.eqb (Method req) "POST"
            then Header_Set httpReq "Content-Type"
                   "application/x-www-form-urlencoded"
            else httpReq in
          let* r := Client_Do httpReq in
          match r with
          | Err e => ret (Err e)
          | Ok resp =>
              match http.BodyErr resp with
              | Some e => ret (Err e)
              | None => ret (Ok (http.StatusCode resp, http.Body resp))
              end
          end
      end
  end.

(** [time.Since(startTime)] read in world [w]. *)
Definition time_Since (startTime : Z) (w : World) : Duration :=
  saturate64 (time_Now w - startTime).

(** [params = None] is the source's [nil] argument. *)
Definition measureRequestDuration (req : ParameterizedRequest)
    (params : option Values) : IO (result Duration) :=
  match
    match params with
    | None => getOriginalParams req
    | Some params => Ok params
    end
  with
  | Err e => ret (Err e)
  | Ok params =>
      match buildRequestComponents req params with
      | Err e => ret (Err e)
      | Ok (testURL, reqBody) =>
          match http_NewRequest (Method req) testURL reqBody with
          | Err e => ret (Err e)
          | Ok httpReq =>
              let httpReq :=
                if String.eqb (Method req) "POST"
                then Header_Set httpReq "Content-Type"
                       "application/x-www-form-urlencoded"
                else httpReq in
              fun w =>
                let startTime := time_Now w in
                match Client_Do httpReq w with
                | (Err e, w') => (Err e, w')
                | (Ok resp, w') => (Ok (time_Since startTime w'), w')
                end
          end
      end
  end.

Definition getParamLocation (req : ParameterizedRequest) : string :=
  if String.eqb (Method req) "GET" then "query" else "body".

(** The URL of a finding: [testURL, _, _ := buildRequestComponents(...)],
    the empty string when the components cannot be built. *)
Definition testURLOf (req : ParameterizedRequest) (params : Values) : string :=
  match buildRequestComponents req params with
  | Ok (testURL, _) => testURL
  | Err _ => ""
  end.

Definition len (s : string) : Z := Z.of_nat (String.length s).

Definition isDifferentResponse (original modified : string) : bool :=
  let distance := levenshtein_Distance original modified in
  let maxLen := len original in
  let maxLen := if maxLen <? len modified then len modified else maxLen in
  if maxLen =? 0 then false
  else
    let similarity :=
      f64_sub f64_1_0
        (f64_div (float64_of_int distance) (float64_of_int maxLen)) in
    f64_lt similarity f64_0_95.

(** *** 1. Error-based probe *)

(** One pass of the payload loop of [testErrorBased]. *)
Definition errorAttempt (req : ParameterizedRequest) (paramName : string)
    (payload : string) : IO (option scanner.VulnerabilityResult) :=
  match getOriginalParams req with
  | Err _ => ret None
  | Ok testParams =>
      let originalValue := Values_Get testParams paramName in
      let testParams := Values_Set testParams paramName (originalValue +:+ payload) in
      let* r := sendRequest req testParams in
      match r with
      | Err _ => ret None
      | Ok (_, body) =>
          match List.find (fun pattern => regexp_MatchString pattern body)
                  SQLiErrorPatterns with
          | Some pattern =>
              ret (Some {|
                scanner.VulnerabilityType := "SQL Injection (Error-Based)";
                scanner.URL := testURLOf req testParams;
                scanner.Param := paramName;
                scanner.Payload := payload;
                scanner.Details := "A database error message was detected in the response, indicating a potential SQL injection vulnerability.";
                scanner.Severity := "High";
                scanner.Evidence := regexp_FindString pattern body;
                scanner.Location := getParamLocation req;
                scanner.Remediation := "Use parameterized queries (prepared statements).";
                scanner.ScannerName := Name
              |})
          | None => ret None
          end
      end
  end.

Definition testErrorBased (req : ParameterizedRequest) (paramName : string)
    : IO (option scanner.VulnerabilityResult) :=
  firstHit (errorAttempt req paramName) SQLiPayloads.

(** *** 2. Time-based probe *)

(** One pass of the payload loop of [testTimeBased]. *)
Definition timeAttempt (req : ParameterizedRequest) (paramName : string)
    (baselineDuration : Duration) (payload : payloads.TimeBasedSQLiTest)
    : IO (option scanner.VulnerabilityResult) :=
  match getOriginalParams req with
  | Err _ => ret None
  | Ok testParams =>
      let originalValue := Values_Get testParams paramName in
      let payloadStr :=
        GoStrings.ReplaceAll (payloads.PayloadTemplate payload) "{DELAY}" "5" in
      let testParams := Values_Set testParams paramName (originalValue +:+ payloadStr) in
      let* r := measureRequestDuration req (Some testParams) in
      match r with
      | Err _ => ret None
      | Ok testDuration =>
          if duration_add baselineDuration (4 * Second) <? testDuration then
            ret (Some {|
              scanner.VulnerabilityType := "SQL Injection (Time-Based)";
              scanner.URL := testURLOf req testParams;
              scanner.Param := paramName;
              scanner.Payload := payloadStr;
              scanner.Details :=
                fmt_Sprintf "A time delay of %.2f seconds was detected (baseline: %.2f seconds)."
                  [ ArgFloat (Duration_Seconds testDuration);
                    ArgFloat (Duration_Seconds baselineDuration) ];
              scanner.Severity := "High";
              scanner.Evidence :=
                fmt_Sprintf "Response time: %s" [ ArgDuration testDuration ];
              scanner.Location := getParamLocation req;
              scanner.Remediation := "Use parameterized queries (prepared statements).";
              scanner.ScannerName := Name
            |})
          else ret None
      end
  end.

Definition testTimeBased (req : ParameterizedRequest) (paramName : string)
    : IO (option scanner.VulnerabilityResult) :=
  let* r := measureRequestDuration req None in
  match r with
  | Err _ => ret None
  | Ok baselineDuration =>
      firstHit (timeAttempt req paramName baselineDuration) TimeBasedSQLiTests
  end.

(** *** 3. Boolean-based probe *)

(** One pass of the loop of [testBooleanBased] over the TRUE/FALSE pairs. *)
Definition booleanAttempt (req : ParameterizedRequest) (paramName : string)
    (originalParams : Values) (originalBody : string)
    (test : payloads.BooleanSQLiTest)
    : IO (option scanner.VulnerabilityResult) :=
  let trueParams := copyParams originalParams in
  let trueParams :=
    Values_Set trueParams paramName
      (Values_Get trueParams paramName +:+ payloads.TruePayload test) in
  let* r := sendRequest req trueParams in
  match r with
  | Err _ => ret None
  | Ok (_, trueBody) =>
      let falseParams := copyParams originalParams in
      let falseParams :=
        Values_Set falseParams paramName
          (Values_Get falseParams paramName +:+ payloads.FalsePayload test) in
      let* r := sendRequest req falseParams in
      match r with
      | Err _ => ret None
      | Ok (_, falseBody) =>
          if negb (isDifferentResponse originalBody trueBody)
             && isDifferentResponse originalBody falseBody
          then
            ret (Some {|
              scanner.VulnerabilityType := "SQL Injection (Boolean-Based)";
              scanner.URL := testURLOf req trueParams;
              scanner.Param := paramName;
              scanner.Payload := payloads.TruePayload test;
              scanner.Details := "The application's response was different when a logically false SQL condition was injected compared to a true one.";
              scanner.Severity := "High";
              scanner.Evidence := "Response for TRUE condition was similar to original, while response for FALSE was different.";
              scanner.Location := getParamLocation req;
              scanner.Remediation := "Use parameterized queries (prepared statements).";
              scanner.ScannerName := Name
            |})
          else ret None
      end
  end.

Definition testBooleanBased (req : ParameterizedRequest) (paramName : string)
    : IO (option scanner.VulnerabilityResult) :=
  match getOriginalParams req with
  | Err _ => ret None
  | Ok originalParams =>
      let* r := sendRequest req originalParams in
      match r with
      | Err _ => ret None
      | Ok (_, originalBody) =>
          firstHit (booleanAttempt req paramName originalParams originalBody)
            BooleanSQLiTests
      end
  end.

(** *** 4. Content-based probe *)

Definition bypassPayloads : list string :=
  [ "' OR 1=1--"; "' OR '1'='1'--"; " OR 1=1--"; "') OR 1=1--";
    " OR 1=1#"; "' OR 1=1#" ].

(** The length comparison of [testContentBased]. *)
Definition lengthIncreased (originalLength modifiedLength : Z) : bool :=
  (originalLength <? modifiedLength)
  && f64_lt (f64_mul (float64_of_int originalLength) f64_1_1)
            (float64_of_int modifiedLength).

(** One pass of the payload loop of [testContentBased]. *)
Definition contentAttempt (req : ParameterizedRequest) (paramName : string)
    (originalParams : Values) (originalLength : Z) (payload : string)
    : IO (option scanner.VulnerabilityResult) :=
  let testParams := copyParams originalParams in
  let originalValue := Values_Get testParams paramName in
  let testParams := Values_Set testParams paramName (originalValue +:+ payload) in
  let* r := sendRequest req testParams in
  match r with
  | Err _ => ret None
  | Ok (_, modifiedBody) =>
      let modifiedLength := len modifiedBody in
      if lengthIncreased originalLength modifiedLength then
        ret (Some {|
          scanner.VulnerabilityType := "SQL Injection (Content-Based)";
          scanner.URL := testURLOf req testParams;
          scanner.Param := paramName;
          scanner.Payload := payload;
          scanner.Details :=
            fmt_Sprintf "The response length increased significantly (from %d to %d bytes) after injecting a bypass payload, suggesting the query returned additional data."
              [ ArgInt originalLength; ArgInt modifiedLength ];
          scanner.Severity := "High";
          scanner.Evidence :=
            fmt_Sprintf "Original Length: %d, Injected Length: %d"
              [ ArgInt originalLength; ArgInt modifiedLength ];
          scanner.Location := getParamLocation req;
          scanner.Remediation := "Use parameterized queries (prepared statements).";
          scanner.ScannerName := Name
        |})
      else ret None
  end.

Definition testContentBased (req : ParameterizedRequest) (paramName : string)
    : IO (option scanner.VulnerabilityResult) :=
  match getOriginalParams req with
  | Err _ => ret None
  | Ok originalParams =>
      let* r := sendRequest req originalParams in
      match r with
      | Err _ => ret None
      | Ok (_, originalBody) =>
          let originalLength := len originalBody in
          firstHit (contentAttempt req paramName originalParams originalLength)
            bypassPayloads
      end
  end.

(** *** 5. Authentication bypass probe *)

Definition loginUserParams : gmap string bool :=
  list_to_map
    [ ("username", true); ("user", true); ("email", true); ("login", true) ].

(** The loop [for key := range params] that overwrites every parameter
    whose lowercased name contains [password]. *)
Definition setPasswords (params : Values) (value : string) : Values :=
  map_imap
    (fun key v =>
       Some (if GoStrings.Contains (strings_ToLower key) "password"
             then [value] else v))
    params.

Definition authBypassPayloads : list string :=
  [ "admin'--"; "administrator'--"; "' OR 1=1--" ].

(** Keywords looked for on the page reached after the redirect. *)
Definition redirectSuccessKeywords : list string :=
  [ "logout"; "my account"; "log out"; "sign out" ].

(** Keywords looked for in the body of the injected response itself. *)
Definition bodySuccessKeywords : list string :=
  [ "logout"; "my account"; "log out"; "sign out"; "welcome" ].

(** The second check of an attempt: the body of the injected response
    differs from the failed-login baseline and holds a success keyword. *)
Definition contentChangeCheck (req : ParameterizedRequest)
    (paramName failureBaselineBody payload : string) (resp : http.Response)
    : option scanner.VulnerabilityResult :=
  match http.BodyErr resp with
  | Some _ => None
  | None =>
      let bodyStr := http.Body resp in
      if isDifferentResponse failureBaselineBody bodyStr then
        match List.find
                (fun keyword =>
                   GoStrings.Contains (strings_ToLower bodyStr) keyword)
                bodySuccessKeywords with
        | Some keyword =>
            Some {|
              scanner.VulnerabilityType := "SQL Injection (Auth Bypass)";
              scanner.URL := URL req;
              scanner.Param := paramName;
              scanner.Payload := payload;
              scanner.Details :=
                fmt_Sprintf "The response body was different from a normal failed login and contained a success keyword ('%s') after injecting a bypass payload."
                  [ ArgString keyword ];
              scanner.Severity := "High";
              scanner.Evidence :=
                fmt_Sprintf "Found keyword: '%s' in a modified response."
                  [ ArgString keyword ];
              scanner.Location := getParamLocation req;
              scanner.Remediation := "Use parameterized queries for all database interactions.";
              scanner.ScannerName := Name
            |}
        | None => None
        end
      else None
  end.

(** One pass of the payload loop of [testAuthBypass]. *)
Definition authAttempt (req : ParameterizedRequest)
    (paramName failureBaselineBody payload : string)
    : IO (option scanner.VulnerabilityResult) :=
  match getOriginalParams req with
  | Err _ => ret None
  | Ok testParams =>
      let testParams := Values_Set testParams paramName payload in
      let testParams := setPasswords testParams "password" in
      match buildRequestComponents req testParams with
      | Err _ => ret None
      | Ok (testURL, reqBody) =>
          match http_NewRequest (Method req) testURL reqBody with
          | Err _ => ret None
          | Ok httpReq =>
              let httpReq :=
                if String.eqb (Method req) "POST"
                then Header_Set httpReq "Content-Type"
                       "application/x-www-form-urlencoded"
                else httpReq in
              let* r := NoRedirects_Do httpReq in
              match r with
              | Err _ => ret None
              | Ok resp =>
                  if (300 <=? http.StatusCode resp)
                     && (http.StatusCode resp <? 400)
                  then
                    match http.Location resp with
                    | Err _ => ret None
                    | Ok locationURL =>
                        let sessionCookies := http.Cookies resp in
                        match sessionCookies with
                        | [] => ret None
                        | firstCookie :: _ =>
                            let* fr :=
                              Client_GetWithCookies locationURL sessionCookies in
                            match fr with
                            | Err _ => ret None
                            | Ok finalResp =>
                                let finalBodyStr := http.Body finalResp in
                                match List.find
                                        (fun keyword =>
                                           GoStrings.Contains
                                             (strings_ToLower finalBodyStr) keyword)
                                        redirectSuccessKeywords with
                                | Some keyword =>
                                    ret (Some {|
                                      scanner.VulnerabilityType := "SQL Injection (Auth Bypass)";
                                      scanner.URL := URL req;
                                      scanner.Param := paramName;
                                      scanner.Payload := payload;
                                      scanner.Details :=
                                        fmt_Sprintf "The application redirected to %s and a valid session was established after injecting a login bypass payload. The final page contained the keyword '%s'."
                                          [ ArgString locationURL; ArgString keyword ];
                                      scanner.Severity := "High";
                                      scanner.Evidence :=
                                        fmt_Sprintf "Redirect Location: %s, Session Cookie: %s"
                                          [ ArgString locationURL;
                                            ArgString (http.Name firstCookie) ];
                                      scanner.Location := getParamLocation req;
                                      scanner.Remediation := "Use parameterized queries for all database interactions.";
                                      scanner.ScannerName := Name
                                    |})
                                | None =>
                                    ret (contentChangeCheck req paramName
                                           failureBaselineBody payload resp)
                                end
                            end
                        end
                    end
                  else
                    ret (contentChangeCheck req paramName
                           failureBaselineBody payload resp)
              end
          end
      end
  end.

Definition testAuthBypass (req : ParameterizedRequest) (paramName : string)
    : IO (option scanner.VulnerabilityResult) :=
  if negb (default false (loginUserParams !! strings_ToLower paramName)) then
    ret None
  else
    match getOriginalParams req with
    | Err _ => ret None
    | Ok baseParams =>
        let baseParams := Values_Set baseParams paramName "dursgo-test-user" in
        let baseParams := setPasswords baseParams "dursgo-test-pass" in
        let* r := sendRequest req baseParams in
        match r with
        | Err _ => ret None
        | Ok (_, failureBaselineBody) =>
            firstHit (authAttempt req paramName failureBaselineBody)
              authBypassPayloads
        end
    end.

(** *** The dispatcher *)

(** The probes of one parameter in their fixed order; the first hit is
    the parameter's finding ([continue ParamLoop]). *)
Definition probeParam (req : ParameterizedRequest) (paramName : string)
    : IO (option scanner.VulnerabilityResult) :=
  let* errorVuln := testErrorBased req paramName in
  match errorVuln with
  | Some v => ret (Some v)
  | None =>
      let* timeVuln := testTimeBased req paramName in
      match timeVuln with
      | Some v => ret (Some v)
      | None =>
          let* booleanVuln := testBooleanBased req paramName in
          match booleanVuln with
          | Some v => ret (Some v)
          | None =>
              let* contentVuln := testContentBased req paramName in
              match contentVuln with
              | Some v => ret (Some v)
              | None => testAuthBypass req paramName
              end
          end
      end
  end.

(** The loop labelled [ParamLoop], with the findings collected so far. *)
Fixpoint ParamLoop (req : ParameterizedRequest) (paramNames : list string)
    (findings : list scanner.VulnerabilityResult)
    : IO (list scanner.VulnerabilityResult) :=
  match paramNames with
  | [] => ret findings
  | paramName :: rest =>
      match ignoredParams !! strings_ToLower paramName with
      | Some _ => ParamLoop req rest findings
      | None =>
          let* found := probeParam req paramName in
          match found with
          | Some vuln => ParamLoop req rest (findings ++ [vuln])
          | None => ParamLoop req rest findings
          end
      end
  end.

(** [Scan] returns the findings and the error; the [nil] slice is the
    empty list and the [nil] error is [None]. *)
Definition Scan (req : ParameterizedRequest)
    : IO (list scanner.VulnerabilityResult * option error) :=
  if negb (String.eqb (Method req) "GET") && negb (String.eqb (Method req) "POST")
  then ret ([], None)
  else if existsb (fun path => GoStrings.Contains (URL req) path) specialPaths
  then ret ([], None)
  else
    let* findings := ParamLoop req (ParamNames req) [] in
    ret (findings, None).

(** *** Vocabulary of the properties *)

(** The parameters with [payload] appended to the value of [paramName]:
    [params.Set(paramName, params.Get(paramName)+payload)]. *)
Definition withPayload (params : Values) (paramName payload : string) : Values :=
  Values_Set params paramName (Values_Get params paramName +:+ payload).

(** The parameters that [ParamLoop] probes: the names outside the ignore
    list, in the order of the request. *)
Definition probedNames (paramNames : list string) : list string :=
  List.filter
    (fun paramName =>
       match ignoredParams !! strings_ToLower paramName with
       | Some _ => false
       | None => true
       end)
    paramNames.

(** The status test of [testAuthBypass]: a redirect. *)
Definition isRedirect (resp : http.Response) : bool :=
  (300 <=? http.StatusCode resp) && (http.StatusCode resp <? 400).

(** The first success keyword found on the page reached after a redirect. *)
Definition redirectKeyword (finalResp : http.Response) : option string :=
  List.find
    (fun keyword =>
       GoStrings.Contains (strings_ToLower (http.Body finalResp)) keyword)
    redirectSuccessKeywords.

(** The request that [testAuthBypass] sends for a payload. *)
Definition authParams (originalParams : Values) (paramName payload : string)
    : Values :=
  setPasswords (Values_Set originalParams paramName payload) "password".

(** The request with another list of parameter names. *)
Definition withParamNames (req : ParameterizedRequest) (names : list string)
    : ParameterizedRequest :=
  {| Method := Method req; URL := URL req;
     FormPostData := FormPostData req; ParamNames := names |}.

End SQLiScanner.

(** ** A scripted platform

    A small concrete platform on which the scanner runs by evaluation: the
    network answers from a script of exchanges (each with its outcome and
    the time it takes), URLs are split at [?], [&] and [=], patterns match
    as literal substrings, lowering is ASCII lowering, and the edit distance
    is the byte-wise Levenshtein distance. *)

Module Scripted.

Record Exchange : Type := {
  outcome : result http.Response;
  took : Z
}.

Record ScriptedWorld : Type := {
  pending : list Exchange;
  clock : Z
}.

Definition exchange (w : ScriptedWorld) : result http.Response * ScriptedWorld :=
  match pending w with
  | [] => (Err "connection refused", w)
  | x :: rest => (outcome x, {| pending := rest; clock := clock w + took x |})
  end.

Fixpoint splitOn (sep : ascii) (s : string) : list string :=
  match s with
  | EmptyString => [EmptyString]
  | String c t =>
      if Ascii.eqb c sep then EmptyString :: splitOn sep t
      else
        match splitOn sep t with
        | h :: r => String c h :: r
        | [] => [String c EmptyString]
        end
  end.

(** The part before the first [sep] and the part after it. *)
Fixpoint cut (sep : ascii) (s : string) : string * string :=
  match s with
  | EmptyString => (EmptyString, EmptyString)
  | String c t =>
      if Ascii.eqb c sep then (EmptyString, t)
      else let (a, b) := cut sep t in (String c a, b)
  end.

Definition parseQuery (q : string) : Values :=
  fold_right
    (fun kv (m : Values) =>
       let (k, v) := cut "=" kv in
       if String.eqb k "" then m else <[ k := v :: default [] (m !! k) ]> m)
    ∅ (splitOn "&" q).

Definition encodePair (kv : string * list string) : string :=
  fst kv +:+ "=" +:+ match snd kv with v :: _ => v | [] => "" end.

Definition encode (v : Values) : string :=
  String.concat "&" (map encodePair (map_to_list v)).

Record Request : Type := {
  reqMethod : string;
  reqURL : string;
  reqBody : option string;
  reqContentType : option string
}.

Definition lowerAscii (c : ascii) : ascii :=
  let n := nat_of_ascii c in
  if ((65 <=? n) && (n <=? 90))%nat then ascii_of_nat (n + 32) else c.

Fixpoint toLower (s : string) : string :=
  match s with
  | EmptyString => EmptyString
  | String c t => String (lowerAscii c) (toLower t)
  end.

(** One row of the Wagner-Fischer table: [up] runs over the previous row,
    [diag] and [left] are the neighbours of the cell being filled. *)
Fixpoint levRow (c : ascii) (t : list ascii) (prev : list nat)
    (diag left : nat) : list nat :=
  match t, prev with
  | tc :: t', up :: prev' =>
      let cost := if Ascii.eqb c tc then 0%nat else 1%nat in
      let v := Nat.min (Nat.min (up + 1) (left + 1)) (diag + cost) in
      v :: levRow c t' prev' up v
  | _, _ => []
  end.

Definition levStep (t : list ascii) (prev : list nat) (c : ascii) : list nat :=
  match prev with
  | [] => []
  | p0 :: prev' => (p0 + 1)%nat :: levRow c t prev' p0 (p0 + 1)%nat
  end.

Definition levenshtein (s t : string) : nat :=
  let t' := list_ascii_of_string t in
  List.last
    (fold_left (levStep t') (list_ascii_of_string s)
       (seq 0 (length t' + 1)))
    0%nat.

#[export] Instance platform : Platform := {|
  World := ScriptedWorld;
  url_URL := string * Values;
  url_Parse := fun s => let (base, q) := cut "?" s in Ok (base, parseQuery q);
  URL_Query := snd;
  URL_setRawQuery := fun u raw => (fst u, parseQuery raw);
  URL_String := fun u => fst u +:+ "?" +:+ encode (snd u);
  url_ParseQuery := fun s => Ok (parseQuery s);
  Values_Encode := encode;
  http_Request := Request;
  http_NewRequest := fun m u b =>
    Ok {| reqMethod := m; reqURL := u; reqBody := b; reqContentType := None |};
  Header_Set := fun r _ v =>
    {| reqMethod := reqMethod r; reqURL := reqURL r; reqBody := reqBody r;
       reqContentType := Some v |};
  Client_Do := fun _ => exchange;
  NoRedirects_Do := fun _ => exchange;
  Client_GetWithCookies := fun _ _ => exchange;
  time_Now := clock;
  regexp_MatchString := fun pattern body => GoStrings.Contains body pattern;
  regexp_FindString := fun pattern body =>
    if GoStrings.Contains body pattern then pattern else "";
  strings_ToLower := toLower;
  fmt_Sprintf := fun format _ => format;
  levenshtein_Distance := fun a b => Z.of_nat (levenshtein a b);
  SQLiPayloads := [ "'" ];
  SQLiErrorPatterns := [ "error in your SQL syntax" ];
  TimeBasedSQLiTests :=
    [ {| payloads.PayloadTemplate := "' AND SLEEP({DELAY})--" |} ];
  BooleanSQLiTests :=
    [ {| payloads.TruePayload := " AND 1=1";
         payloads.FalsePayload := " AND 1=2" |} ]
|}.

(** A response with status 200, no redirect and no cookie. *)
Definition page (body : string) : Exchange :=
  {| outcome :=
       Ok {| http.StatusCode := 200; http.Location := Err "no Location header";
             http.Cookies := []; http.Body := body; http.BodyErr := None |};
     took := 1000000 |}.

(** A response that takes [took] nanoseconds. *)
Definition answer (status : Z) (location : result string)
    (cookies : list http.Cookie) (body : string) (took : Z) : Exchange :=
  {| outcome :=
       Ok {| http.StatusCode := status; http.Location := location;
             http.Cookies := cookies; http.Body := body;
             http.BodyErr := None |};
     took := took |}.

Definition start (script : list Exchange) : ScriptedWorld :=
  {| pending := script; clock := 0 |}.

(** The world after [n] more exchanges. *)
Definition after (n : nat) (w : ScriptedWorld) : ScriptedWorld :=
  Nat.iter n (fun w => snd (exchange w)) w.

Definition getRequest (url : string) (names : list string)
    : crawler.ParameterizedRequest :=
  {| crawler.Method := "GET"; crawler.URL := url;
     crawler.FormPostData := ""; crawler.ParamNames := names |}.

Definition loginRequest : crawler.ParameterizedRequest :=
  {| crawler.Method := "POST"; crawler.URL := "http://h/login";
     crawler.FormPostData := "username=x&password=y";
     crawler.ParamNames := [ "username"; "password" ] |}.

Definition profileRequest : crawler.ParameterizedRequest :=
  getRequest "http://h/profile?uid=7" ["uid"].

Definition searchRequest : crawler.ParameterizedRequest :=
  getRequest "http://h/search?q=abc" ["q"].

Definition listingRequest : crawler.ParameterizedRequest :=
  getRequest "http://h/list?cat=1" ["cat"].

(** The request that [testAuthBypass] builds from [loginRequest] for the
    payload [admin'--]. *)
Definition bypassRequest : Request :=
  {| reqMethod := "POST"; reqURL := "http://h/login";
     reqBody := Some "username=admin'--&password=password";
     reqContentType := Some "application/x-www-form-urlencoded" |}.

(** A server that leaks a database error on every request. *)
Definition errorPage : Exchange :=
  page "You have an error in your SQL syntax; check the manual".

(** A profile page that honours the injected condition. *)
Definition profileScript : list Exchange :=
  [ page "<h1>Alice</h1>"; page "<h1>Alice</h1>"; page "<h1>Not Found</h1>" ].

(** A search that sleeps when told to. *)
Definition searchScript : list Exchange :=
  [ answer 200 (Err "no Location header") [] "results" 1000000;
    answer 200 (Err "no Location header") [] "results" 5500000000 ].

(** A listing that returns every row under [OR 1=1]. *)
Definition listingScript : list Exchange :=
  [ page "<li>one</li>"; page "<li>one</li><li>two</li><li>three</li>" ].

(** A listing that is empty until the filter is bypassed. *)
Definition emptyListingScript : list Exchange :=
  [ page ""; page ""; page "<li>one</li>" ].

(** A login that answers the bypass payload with a redirect that carries
    no session cookie, on a page that already greets the user. *)
Definition bareRedirect : http.Response :=
  {| http.StatusCode := 302; http.Location := Ok "http://h/dashboard";
     http.Cookies := []; http.Body := "Welcome back, admin - logout";
     http.BodyErr := None |}.

Definition bareRedirectScript : list Exchange :=
  [ page "Invalid username or password";
    {| outcome := Ok bareRedirect; took := 1000000 |};
    {| outcome := Ok bareRedirect; took := 1000000 |};
    {| outcome := Ok bareRedirect; took := 1000000 |} ].

(** A login that answers with a redirect and a session cookie, then
    serves the dashboard. *)
Definition sessionRedirect : http.Response :=
  {| http.StatusCode := 302; http.Location := Ok "http://h/dashboard";
     http.Cookies := [ {| http.Name := "SID"; http.Value := "abc" |} ];
     http.Body := ""; http.BodyErr := None |}.

Definition sessionScript : list Exchange :=
  [ {| outcome := Ok sessionRedirect; took := 1000000 |};
    page "Dashboard - Logout" ].

End Scripted.

(** ** More fixtures

    A second platform whose parser can fail, and scripts of a server that
    answers every request alike. *)

Module Fixtures.
Import Scripted.

(** The scripted platform with a parser that can fail, as Go's does:
    [url.Parse] refuses a URL with an ASCII control character and
    [url.ParseQuery] refuses a semicolon separator. *)
Definition hasControl (s : string) : bool :=
  existsb (fun c => (nat_of_ascii c <? 32)%nat || (nat_of_ascii c =? 127)%nat)
    (list_ascii_of_string s).

Definition strictPlatform : Platform := {|
  World := ScriptedWorld;
  url_URL := string * Values;
  url_Parse := fun s =>
    if hasControl s then Err "net/url: invalid control character in URL"
    else let (base, q) := cut "?" s in Ok (base, parseQuery q);
  URL_Query := snd;
  URL_setRawQuery := fun u raw => (fst u, parseQuery raw);
  URL_String := fun u => fst u +:+ "?" +:+ encode (snd u);
  url_ParseQuery := fun s =>
    if GoStrings.Contains s ";" then Err "invalid semicolon separator in query"
    else Ok (parseQuery s);
  Values_Encode := encode;
  http_Request := Request;
  http_NewRequest := fun m u b =>
    Ok {| reqMethod := m; reqURL := u; reqBody := b; reqContentType := None |};
  Header_Set := fun r _ v =>
    {| reqMethod := reqMethod r; reqURL := reqURL r; reqBody := reqBody r;
       reqContentType := Some v |};
  Client_Do := fun _ => exchange;
  NoRedirects_Do := fun _ => exchange;
  Client_GetWithCookies := fun _ _ => exchange;
  time_Now := clock;
  regexp_MatchString := fun pattern body => GoStrings.Contains body pattern;
  regexp_FindString := fun pattern body =>
    if GoStrings.Contains body pattern then pattern else "";
  strings_ToLower := toLower;
  fmt_Sprintf := fun format _ => format;
  levenshtein_Distance := fun a b => Z.of_nat (levenshtein a b);
  SQLiPayloads := [ "'" ];
  SQLiErrorPatterns := [ "error in your SQL syntax" ];
  TimeBasedSQLiTests :=
    [ {| payloads.PayloadTemplate := "' AND SLEEP({DELAY})--" |} ];
  BooleanSQLiTests :=
    [ {| payloads.TruePayload := " AND 1=1";
         payloads.FalsePayload := " AND 1=2" |} ]
|}.

(** A form whose data uses a semicolon separator. *)
Definition semicolonForm : crawler.ParameterizedRequest :=
  {| crawler.Method := "POST"; crawler.URL := "http://h/search";
     crawler.FormPostData := "q=abc;page=2";
     crawler.ParamNames := [ "q"; "page" ] |}.

(** A world in which every exchange still to come is answered with the
    one page, within four seconds. *)
Definition steadyWorld (body : string) (w : ScriptedWorld) : Prop :=
  Forall
    (fun x => outcome x = outcome (page body) /\ 0 <= took x <= 4 * Second)
    (pending w).

(** A profile page that leaks no error, does not sleep, and honours the
    injected condition. *)
Definition blindProfileScript : list Exchange :=
  [ page "<h1>Alice</h1>";
    page "<h1>Alice</h1>"; page "<h1>Alice</h1>";
    page "<h1>Alice</h1>"; page "<h1>Alice</h1>"; page "<h1>Not Found</h1>" ].

End Fixtures.

(** * Properties *)

(** ** Loops, maps and strings *)

Section Loops.
Context `{P : Platform}.

Lemma firstHit_app {A R : Type} (body : A -> IO (option R)) (pre post : list A) (w : World) :
  firstHit body (pre ++ post) w =
  match firstHit body pre w with
  | (Some r, w') => (Some r, w')
  | (None, w') => firstHit body post w'
  end.
Proof.
  revert w. induction pre as [|x pre IH]; intros w; simpl.
  - reflexivity.
  - destruct (body x w) as [[r|] w']; [reflexivity | apply IH].
Qed.

Lemma firstHit_cons_hit {A R : Type} (body : A -> IO (option R)) x rest w r w' :
  body x w = (Some r, w') -> firstHit body (x :: rest) w = (Some r, w').
Proof. intros E. simpl. rewrite E. reflexivity. Qed.

Lemma firstHit_cons_miss {A R : Type} (body : A -> IO (option R)) x rest w w' :
  body x w = (None, w') -> firstHit body (x :: rest) w = firstHit body rest w'.
Proof. intros E. simpl. rewrite E. reflexivity. Qed.

(** Whatever a loop returns was returned by one pass of its body. *)
Lemma firstHit_some {A R : Type} (body : A -> IO (option R)) (Q : R -> Prop) :
  (forall x w r w', body x w = (Some r, w') -> Q r) ->
  forall xs w r w', firstHit body xs w = (Some r, w') -> Q r.
Proof.
  intros Hbody xs. induction xs as [|x xs IH]; intros w r w' E; simpl in E.
  - discriminate.
  - destruct (body x w) as [[r0|] w0] eqn:Ex.
    + inversion E; subst. eapply Hbody; eauto.
    + eapply IH; eauto.
Qed.
End Loops.

(** [copyParams] returns a map equal to its argument: later [Set] calls on
    the copy leave the original as it was. *)
Lemma copyParams_id (original : Values) : copyParams original = original.
Proof.
  unfold copyParams.
  apply (map_fold_weak_ind (fun (r m : Values) => r = m)).
  - reflexivity.
  - intros i x m r _ ->. reflexivity.
Qed.

(** * Binary64 arithmetic *)

(** ** Binary digits *)

Lemma digits2_pos_size (p : positive) : digits2_pos p = Pos.size p.
Proof. induction p; simpl; congruence. Qed.

Lemma digits2_pos_bounds (p : positive) :
  2 ^ (Z.pos (digits2_pos p) - 1) <= Z.pos p < 2 ^ Z.pos (digits2_pos p).
Proof.
  rewrite digits2_pos_size. split.
  - pose proof (Pos.size_le p) as H.
    assert (H2 : 2 ^ Z.pos (Pos.size p) <= 2 * Z.pos p).
    { rewrite <- Pos2Z.inj_pow. change (2 * Z.pos p) with (Z.pos p~0). lia. }
    replace (Z.pos (Pos.size p)) with (Z.succ (Z.pos (Pos.size p) - 1)) in H2 by lia.
    rewrite Z.pow_succ_r in H2 by lia. lia.
  - pose proof (Pos.size_gt p) as H. rewrite <- Pos2Z.inj_pow. lia.
Qed.

Lemma Zdigits2_bounds (z : Z) :
  0 < z -> 2 ^ (Zdigits2 z - 1) <= z < 2 ^ Zdigits2 z.
Proof. destruct z; try lia. intros _. apply digits2_pos_bounds. Qed.

Lemma Zdigits2_pos (z : Z) : 0 < z -> 0 < Zdigits2 z.
Proof. destruct z; simpl; lia. Qed.

(** The number of digits is the only [k] with [2^(k-1) <= z < 2^k]. *)
Lemma Zdigits2_unique (z k : Z) :
  2 ^ (k - 1) <= z < 2 ^ k -> 0 < z -> Zdigits2 z = k.
Proof.
  intros Hk Hz. pose proof (Zdigits2_bounds z Hz) as Hd.
  pose proof (Zdigits2_pos z Hz) as Hp.
  destruct Hk as [Hk1 Hk2].
  assert (0 < k).
  { destruct (Z.lt_trichotomy k 0) as [Hn | [-> | ?]]; [| |lia].
    - rewrite (Z.pow_neg_r 2 k) in Hk2 by lia. lia.
    - simpl in Hk2. lia. }
  destruct (Z.lt_trichotomy (Zdigits2 z) k) as [Hlt | [Heq | Hgt]]; [|done|].
  - assert (2 ^ Zdigits2 z <= 2 ^ (k - 1)) by (apply Z.pow_le_mono_r; lia). lia.
  - assert (2 ^ k <= 2 ^ (Zdigits2 z - 1)) by (apply Z.pow_le_mono_r; lia). lia.
Qed.

(** ** Shifting with round and sticky bits *)

Lemma shr_record_of_loc_represents (N D : Z) :
  represents (shr_record_of_loc (N / D) (locate N D)) N D.
Proof.
  unfold represents. destruct (locate N D) as [|[| |]]; simpl; auto.
Qed.

Lemma shr_1_represents (mrs : shr_record) (N D : Z) :
  0 <= N -> 0 < D -> represents mrs N D -> represents (shr_1 mrs) N (2 * D).
Proof.
  intros HN HD [Hm Hl].
  assert (Hq : 0 <= N / D) by (apply Z.div_pos; lia).
  assert (Hf : 0 <= N mod D < D) by (apply Z.mod_pos_bound; lia).
  assert (Hdiv : N / (2 * D) = N / D / 2).
  { rewrite (Z.mul_comm 2 D). rewrite Z.div_div by lia. reflexivity. }
  assert (Hmod : N mod (2 * D) = N mod D + D * ((N / D) mod 2)).
  { rewrite (Z.mul_comm 2 D). apply Z.rem_mul_r; lia. }
  unfold represents, locate in *. rewrite Hdiv, Hmod.
  destruct mrs as [m r s]. simpl in Hm, Hl. rewrite <- Hm in *.
  assert (Hshr : shr_1 {| shr_m := m; shr_r := r; shr_s := s |} =
                 {| shr_m := m / 2; shr_r := Z.odd m; shr_s := orb r s |}).
  { destruct m as [|[p|p|]|p]; try lia; cbn [shr_1];
      f_equal; try reflexivity; try lia.
    - rewrite Pos2Z.inj_xI. apply Z.div_unique with 1; lia.
    - rewrite Pos2Z.inj_xO. apply Z.div_unique with 0; lia. }
  assert (Hs : orb r s = negb (N mod D =? 0)).
  { destruct (Z.eqb_spec (N mod D) 0); destruct r, s; simpl in *;
      try reflexivity; discriminate. }
  rewrite Hshr, Hs. simpl. split; [reflexivity|].
  rewrite Zmod_odd.
  destruct (Z.odd m); destruct (Z.eqb_spec (N mod D) 0) as [Hz|Hnz]; simpl.
  - destruct (Z.eqb_spec (N mod D + D * 1) 0); [lia|].
    destruct (Z.compare_spec (2 * (N mod D + D * 1)) (2 * D)); try lia; reflexivity.
  - destruct (Z.eqb_spec (N mod D + D * 1) 0); [lia|].
    destruct (Z.compare_spec (2 * (N mod D + D * 1)) (2 * D)); try lia; reflexivity.
  - destruct (Z.eqb_spec (N mod D + D * 0) 0); [reflexivity | lia].
  - destruct (Z.eqb_spec (N mod D + D * 0) 0); [lia|].
    destruct (Z.compare_spec (2 * (N mod D + D * 0)) (2 * D)); try lia; reflexivity.
Qed.

Lemma iter_pos_nat {A : Type} (f : A -> A) (p : positive) (x : A) :
  SpecFloat.iter_pos f p x = Nat.iter (Pos.to_nat p) f x.
Proof.
  revert x. induction p as [p IH | p IH |]; intros x; cbn [SpecFloat.iter_pos].
  - rewrite !IH, Pos2Nat.inj_xI.
    replace (S (2 * Pos.to_nat p)) with (Pos.to_nat p + (Pos.to_nat p + 1))%nat by lia.
    rewrite !Nat.iter_add. reflexivity.
  - rewrite !IH, Pos2Nat.inj_xO.
    replace (2 * Pos.to_nat p)%nat with (Pos.to_nat p + Pos.to_nat p)%nat by lia.
    rewrite Nat.iter_add. reflexivity.
  - reflexivity.
Qed.

Lemma iter_shr_1_represents (k : nat) (mrs : shr_record) (N D : Z) :
  0 <= N -> 0 < D -> represents mrs N D ->
  represents (Nat.iter k shr_1 mrs) N (D * 2 ^ Z.of_nat k).
Proof.
  intros HN HD Hrep. induction k as [|k IH].
  - simpl. rewrite Z.mul_1_r. exact Hrep.
  - rewrite Nat2Z.inj_succ, Z.pow_succ_r by lia. simpl.
    replace (D * (2 * 2 ^ Z.of_nat k)) with (2 * (D * 2 ^ Z.of_nat k)) by lia.
    apply shr_1_represents; [lia | | exact IH].
    apply Z.mul_pos_pos; [lia | apply Z.pow_pos_nonneg; lia].
Qed.

(** [shr] by [n] bits divides the rational by [2^n]. *)
Lemma shr_represents (mrs : shr_record) (e n N D : Z) :
  0 <= N -> 0 < D -> 0 <= n -> represents mrs N D ->
  represents (fst (shr mrs e n)) N (D * 2 ^ n) /\ snd (shr mrs e n) = e + n.
Proof.
  intros HN HD Hn Hrep. destruct n as [|p|p]; [| |lia].
  - simpl. rewrite Z.mul_1_r, Z.add_0_r. auto.
  - cbn [shr fst snd]. split; [|reflexivity].
    rewrite iter_pos_nat. rewrite <- (positive_nat_Z p).
    apply iter_shr_1_represents; auto.
Qed.

(** ** Rounding to nearest, ties to even *)

Lemma rne_cases (N D : Z) :
  0 < D ->
  (2 * (N mod D) < D /\ rne N D = N / D) \/
  (2 * (N mod D) = D /\ Z.even (N / D) = true /\ rne N D = N / D) \/
  (2 * (N mod D) = D /\ Z.even (N / D) = false /\ rne N D = N / D + 1) \/
  (2 * (N mod D) > D /\ rne N D = N / D + 1).
Proof.
  intros HD. pose proof (Z.mod_pos_bound N D HD) as Hf.
  unfold rne, locate, round_nearest_even.
  destruct (Z.eqb_spec (N mod D) 0) as [Hz|Hnz].
  - left. split; [lia | reflexivity].
  - destruct (Z.compare_spec (2 * (N mod D)) D) as [He|Hl|Hg].
    + destruct (Z.even (N / D)) eqn:Ev; [right; left | right; right; left]; auto.
    + left. auto.
    + right; right; right. split; [lia | reflexivity].
Qed.

Lemma rne_exact (N D : Z) : 0 < D -> N mod D = 0 -> rne N D = N / D.
Proof.
  intros HD Hz. unfold rne, locate. rewrite Hz. reflexivity.
Qed.

Lemma rne_floor (N D : Z) : 0 < D -> N / D <= rne N D <= N / D + 1.
Proof.
  intros HD. destruct (rne_cases N D HD) as [[_ ->]|[(_ & _ & ->)|[(_ & _ & ->)|[_ ->]]]]; lia.
Qed.

(** When the rounded value reaches an integer [k]. *)
Lemma rne_ge (N D k : Z) :
  0 < D ->
  (k <= rne N D <->
   (2 * k - 1) * D < 2 * N \/ ((2 * k - 1) * D = 2 * N /\ Z.even k = true)).
Proof.
  intros HD.
  pose proof (Z.div_mod N D ltac:(lia)) as Hdm.
  pose proof (Z.mod_pos_bound N D HD) as Hf.
  set (q := N / D) in *. set (f := N mod D) in *.
  assert (Hcases : k <= q \/ k = q + 1 \/ q + 2 <= k) by lia.
  destruct (rne_cases N D HD) as [[H1 H2]|[(H1 & Hev & H2)|[(H1 & Hev & H2)|[H1 H2]]]];
    fold q f in H1, H2; try fold q in Hev; rewrite H2; clear H2.
  all: destruct Hcases as [Hk | [Hk | Hk]].
  all: try (subst k; rewrite Z.even_add, Hev; simpl).
  all: split; [intros Hle | intros [Hlt | [Heq Hevk]]]; try lia; try nia.
  all: try (left; nia).
  all: try (right; split; [nia | try reflexivity; try assumption]).
Qed.

(** ** Rounding to binary64 *)

Lemma pow2_pos (n : Z) : 0 <= n -> 0 < 2 ^ n.
Proof. intros. apply Z.pow_pos_nonneg; lia. Qed.

(** [binary_round_aux] in the normal range: a mantissa of at least 53
    digits that stands for [N/D] is shifted down to 53 digits and rounded
    to nearest even; a carry into the 54th digit costs one more shift. *)
Lemma binary_round_aux_normal (sx : bool) (mx ex : Z) (lx : location)
    (N D n R : Z) :
  0 <= N -> 0 < D -> mx = N / D -> lx = locate N D ->
  n = Zdigits2 mx - 53 -> 0 <= n ->
  -1074 <= ex + n ->
  R = rne N (D * 2 ^ n) ->
  2 ^ 52 <= N / (D * 2 ^ n) < 2 ^ 53 /\
  2 ^ 52 <= R <= 2 ^ 53 /\
  binary_round_aux prec64 emax64 sx mx ex lx = rounded sx R (ex + n).
Proof.
  intros HN HD Hmx Hlx Hndef Hn Hnormal HRdef.
  assert (Hmx0 : 0 <= mx) by (rewrite Hmx; apply Z.div_pos; lia).
  assert (Hmxpos : 0 < mx) by (destruct mx; simpl in Hndef; lia).
  pose proof (Zdigits2_bounds mx Hmxpos) as Hb.
  pose proof (pow2_pos n Hn) as Hpn.
  assert (Hfloor : N / (D * 2 ^ n) = mx / 2 ^ n).
  { rewrite Hmx. rewrite Z.div_div by lia. reflexivity. }
  assert (Hrange : 2 ^ 52 <= mx / 2 ^ n < 2 ^ 53).
  { assert (E1 : 2 ^ (Zdigits2 mx - 1) = 2 ^ 52 * 2 ^ n).
    { rewrite <- Z.pow_add_r by lia. f_equal. lia. }
    assert (E2 : 2 ^ Zdigits2 mx = 2 ^ 53 * 2 ^ n).
    { rewrite <- Z.pow_add_r by lia. f_equal. lia. }
    rewrite E1, E2 in Hb. split.
    - apply Z.div_le_lower_bound; lia.
    - apply Z.div_lt_upper_bound; lia. }
  assert (HR : 2 ^ 52 <= R <= 2 ^ 53).
  { pose proof (rne_floor N (D * 2 ^ n) ltac:(lia)) as Hfl. rewrite <- HRdef in Hfl.
    rewrite Hfloor in Hfl. lia. }
  split; [rewrite Hfloor; exact Hrange|]. split; [exact HR|].
  unfold binary_round_aux, rounded.
  (* first shift *)
  assert (Hfexp1 : fexp prec64 emax64 (Zdigits2 mx + ex) - ex = n).
  { unfold fexp, emin, prec64, emax64. lia. }
  replace (shr_fexp prec64 emax64 mx ex lx)
    with (shr (shr_record_of_loc mx lx) ex n)
    by (unfold shr_fexp; rewrite Hfexp1; reflexivity).
  pose proof (shr_represents (shr_record_of_loc mx lx) ex n N D HN HD Hn) as Hshr.
  rewrite Hmx, Hlx in Hshr. specialize (Hshr (shr_record_of_loc_represents N D)).
  rewrite <- Hmx, <- Hlx in Hshr.
  destruct (shr (shr_record_of_loc mx lx) ex n) as [mrs' e'].
  simpl in Hshr. destruct Hshr as [[Hm' Hl'] He']. subst e'.
  rewrite Hm', Hl'. fold (rne N (D * 2 ^ n)). rewrite <- HRdef.
  (* second shift *)
  unfold shr_fexp, shr_record_of_loc.
  destruct (Z.eqb_spec R (2 ^ 53)) as [HR53 | HR53].
  - assert (Hd : Zdigits2 R = 54) by (rewrite HR53; reflexivity).
    rewrite Hd.
    replace (fexp prec64 emax64 (54 + (ex + n)) - (ex + n)) with 1
      by (unfold fexp, emin, prec64, emax64; lia).
    rewrite HR53. reflexivity.
  - assert (Hd : Zdigits2 R = 53).
    { apply Zdigits2_unique; [|lia]. change (53 - 1) with 52. lia. }
    rewrite Hd.
    replace (fexp prec64 emax64 (53 + (ex + n)) - (ex + n)) with 0
      by (unfold fexp, emin, prec64, emax64; lia).
    cbn [shr shr_m]. unfold prec64, emax64.
    destruct R as [|r|r]; try lia. reflexivity.
Qed.

Lemma locate_exact (N : Z) : locate N 1 = loc_Exact.
Proof. unfold locate. rewrite Z.mod_1_r. reflexivity. Qed.

Lemma Pos_iter_xO (d p : positive) :
  Z.pos (Pos.iter xO p d) = Z.pos p * 2 ^ Z.pos d.
Proof.
  induction d as [|d IH] using Pos.peano_ind.
  - simpl. lia.
  - rewrite Pos.iter_succ, Pos2Z.inj_succ, Z.pow_succ_r by lia.
    rewrite Pos2Z.inj_xO, IH. lia.
Qed.

(** A mantissa of exactly 53 digits is kept as it is. *)
Lemma binary_round_aux_exact (sx : bool) (m : positive) (e : Z) :
  2 ^ 52 <= Z.pos m < 2 ^ 53 -> -1074 <= e <= 971 ->
  binary_round_aux prec64 emax64 sx (Z.pos m) e loc_Exact = S754_finite sx m e.
Proof.
  intros Hm He.
  assert (Hdg : Zdigits2 (Z.pos m) = 53).
  { apply Zdigits2_unique; [|lia]. change (53 - 1) with 52. lia. }
  destruct (binary_round_aux_normal sx (Z.pos m) e loc_Exact (Z.pos m) 1 0 (Z.pos m))
    as (_ & _ & ->); try lia.
  - rewrite Z.div_1_r. reflexivity.
  - rewrite locate_exact. reflexivity.
  - change (1 * 2 ^ 0) with 1. rewrite rne_exact by (rewrite ?Z.mod_1_r; lia).
    rewrite Z.div_1_r. reflexivity.
  - unfold rounded.
    destruct (Z.eqb_spec (Z.pos m) (2 ^ 53)) as [E|E]; [lia|].
    rewrite Z.add_0_r.
    replace (e <=? 971) with true by (symmetry; apply Z.leb_le; lia).
    reflexivity.
Qed.

(** [binary_round] of a positive integer mantissa at exponent 0. *)
Lemma binary_round_int (p : positive) :
  let dg := Z.pos (digits2_pos p) in
  (dg <= 53 ->
   binary_round prec64 emax64 false p 0 =
   S754_finite false (Z.to_pos (Z.pos p * 2 ^ (53 - dg))) (dg - 53)) /\
  is_positive (binary_round prec64 emax64 false p 0).
Proof.
  intros dg. unfold binary_round.
  assert (Hfexp : fexp prec64 emax64 (Z.pos (digits2_pos p) + 0) = dg - 53).
  { unfold fexp, emin, prec64, emax64. fold dg. lia. }
  rewrite Hfexp. unfold shl_align.
  pose proof (digits2_pos_bounds p) as Hb. fold dg in Hb.
  destruct (dg - 53 - 0) as [|d|d] eqn:Ed.
  - (* exactly 53 digits *)
    assert (Hdg : dg = 53) by lia.
    rewrite Hdg in Hb. change (53 - 1) with 52 in Hb.
    rewrite binary_round_aux_exact by lia.
    rewrite Hdg. change (53 - 53) with 0. change (2 ^ 0) with 1.
    rewrite Z.mul_1_r. split; [intros _; reflexivity | exact I].
  - (* more than 53 digits *)
    assert (Hdg : 53 < dg) by lia.
    destruct (binary_round_aux_normal false (Z.pos p) 0 loc_Exact (Z.pos p) 1
                (dg - 53) (rne (Z.pos p) (1 * 2 ^ (dg - 53))))
      as (_ & _ & ->); try lia; try reflexivity.
    + rewrite Z.div_1_r. reflexivity.
    + rewrite locate_exact. reflexivity.
    + split; [intros; lia|]. unfold rounded.
      destruct (_ =? _); destruct (_ <=? _); exact I.
  - (* fewer than 53 digits: the mantissa is first shifted left *)
    assert (Hdg : dg < 53) by lia.
    assert (Hd : Z.pos d = 53 - dg) by lia.
    pose proof (Pos_iter_xO d p) as Hit. rewrite Hd in Hit.
    assert (Hpow : 0 < 2 ^ (53 - dg)) by (apply pow2_pos; lia).
    assert (Hb' : 2 ^ 52 <= Z.pos (Pos.iter xO p d) < 2 ^ 53).
    { rewrite Hit.
      replace (2 ^ 52) with (2 ^ (dg - 1) * 2 ^ (53 - dg))
        by (rewrite <- Z.pow_add_r by lia; f_equal; lia).
      replace (2 ^ 53) with (2 ^ dg * 2 ^ (53 - dg))
        by (rewrite <- Z.pow_add_r by lia; f_equal; lia).
      nia. }
    rewrite binary_round_aux_exact by lia.
    rewrite <- Hit. rewrite Pos2Z.id.
    split; [intros _; reflexivity | exact I].
Qed.

Lemma float64_of_int_small (n : Z) :
  0 < n < 2 ^ 53 ->
  float64_of_int n =
  S754_finite false (Z.to_pos (n * 2 ^ (53 - Zdigits2 n))) (Zdigits2 n - 53).
Proof.
  intros [Hn Hlt]. destruct n as [|p|p]; try lia.
  unfold float64_of_int, binary_normalize.
  apply (proj1 (binary_round_int p)).
  pose proof (digits2_pos_bounds p) as Hb.
  destruct (Z.le_gt_cases (Z.pos (digits2_pos p)) 53) as [H|H]; [exact H|].
  assert (2 ^ 53 <= 2 ^ (Z.pos (digits2_pos p) - 1)) by (apply Z.pow_le_mono_r; lia).
  lia.
Qed.

Lemma float64_of_int_positive (n : Z) : 0 < n -> is_positive (float64_of_int n).
Proof.
  intros Hn. destruct n as [|p|p]; try lia.
  apply (proj2 (binary_round_int p)).
Qed.

(** ** Order of binary64 numbers *)

(** Two positive numbers with full mantissas compare as their values do;
    [K] only lifts both exponents above zero. *)
Lemma SFltb_finite (m1 m2 : positive) (e1 e2 K : Z) :
  2 ^ 52 <= Z.pos m1 < 2 ^ 53 -> 2 ^ 52 <= Z.pos m2 < 2 ^ 53 ->
  0 <= e1 + K -> 0 <= e2 + K ->
  SFltb (S754_finite false m1 e1) (S754_finite false m2 e2) =
  (Z.pos m1 * 2 ^ (e1 + K) <? Z.pos m2 * 2 ^ (e2 + K)).
Proof.
  intros H1 H2 HK1 HK2. unfold SFltb, SFcompare.
  pose proof (pow2_pos (e1 + K) HK1) as Hp1.
  pose proof (pow2_pos (e2 + K) HK2) as Hp2.
  destruct (Z.compare_spec e1 e2) as [He|He|He].
  - subst e2. fold (Pos.compare m1 m2).
    destruct (Pos.compare_spec m1 m2) as [Hc|Hc|Hc]; symmetry.
    + subst. apply Z.ltb_irrefl.
    + apply Z.ltb_lt. apply Z.mul_lt_mono_pos_r; lia.
    + apply Z.ltb_ge. apply Z.mul_le_mono_nonneg_r; lia.
  - symmetry. apply Z.ltb_lt.
    replace (e2 + K) with (e1 + K + (e2 - e1)) by lia.
    rewrite (Z.pow_add_r 2 (e1 + K) (e2 - e1)) by lia.
    assert (Hc : 2 <= 2 ^ (e2 - e1)).
    { change 2 with (2 ^ 1) at 1. apply Z.pow_le_mono_r; lia. }
    assert (Hm : 2 ^ 52 * 2 <= Z.pos m2 * 2 ^ (e2 - e1))
      by (apply Z.mul_le_mono_nonneg; lia).
    apply Z.lt_le_trans with (2 ^ 53 * 2 ^ (e1 + K)).
    + apply Z.mul_lt_mono_pos_r; lia.
    + rewrite (Z.mul_comm (2 ^ (e1 + K))), Z.mul_assoc.
      apply Z.mul_le_mono_nonneg_r; lia.
  - symmetry. apply Z.ltb_ge.
    replace (e1 + K) with (e2 + K + (e1 - e2)) by lia.
    rewrite (Z.pow_add_r 2 (e2 + K) (e1 - e2)) by lia.
    assert (Hc : 2 <= 2 ^ (e1 - e2)).
    { change 2 with (2 ^ 1) at 1. apply Z.pow_le_mono_r; lia. }
    assert (Hm : 2 ^ 52 * 2 <= Z.pos m1 * 2 ^ (e1 - e2))
      by (apply Z.mul_le_mono_nonneg; lia).
    apply Z.le_trans with (2 ^ 53 * 2 ^ (e2 + K)).
    + apply Z.mul_le_mono_nonneg_r; lia.
    + rewrite (Z.mul_comm (2 ^ (e2 + K))), Z.mul_assoc.
      apply Z.mul_le_mono_nonneg_r; lia.
Qed.

(** A rounded mantissa below the overflow threshold is a positive number
    with a full mantissa and the value [R * 2^E]. *)
Lemma rounded_finite (R E : Z) :
  2 ^ 52 <= R <= 2 ^ 53 -> E + 1 <= 971 ->
  exists (m : positive) (e : Z),
    rounded false R E = S754_finite false m e /\
    2 ^ 52 <= Z.pos m < 2 ^ 53 /\
    E <= e <= E + 1 /\
    forall K, 0 <= E + K -> Z.pos m * 2 ^ (e + K) = R * 2 ^ (E + K).
Proof.
  intros HR HE. unfold rounded.
  destruct (Z.eqb_spec R (2 ^ 53)) as [E53|E53].
  - replace (E + 1 <=? 971) with true by (symmetry; apply Z.leb_le; lia).
    exists (Z.to_pos (2 ^ 52)), (E + 1). split; [reflexivity|].
    split; [simpl; lia|]. split; [lia|].
    intros K HK. rewrite E53.
    replace (E + 1 + K) with (Z.succ (E + K)) by lia.
    rewrite Z.pow_succ_r by lia. simpl. lia.
  - replace (E <=? 971) with true by (symmetry; apply Z.leb_le; lia).
    exists (Z.to_pos R), E. split; [reflexivity|].
    rewrite Z2Pos.id by lia. split; [lia|]. split; [lia|]. reflexivity.
Qed.

Lemma rne_half (N D : Z) :
  0 < D -> 2 * (rne N D * D) <= 2 * N + D /\ 2 * N <= 2 * (rne N D * D) + D.
Proof.
  intros HD.
  pose proof (Z.div_mod N D ltac:(lia)) as Hdm.
  pose proof (Z.mod_pos_bound N D HD) as Hf.
  destruct (rne_cases N D HD) as [[H1 ->]|[(H1 & _ & ->)|[(H1 & _ & ->)|[H1 ->]]]]; nia.
Qed.

(** ** The length comparison *)

Lemma lengthIncreased_zero (modifiedLength : Z) :
  lengthIncreased 0 modifiedLength = (0 <? modifiedLength).
Proof.
  unfold lengthIncreased.
  destruct (Z.ltb_spec 0 modifiedLength) as [H|H]; [|reflexivity].
  pose proof (float64_of_int_positive modifiedLength H) as Hp.
  change (f64_mul (float64_of_int 0) f64_1_1) with (S754_zero false).
  destruct (float64_of_int modifiedLength) as [s|[|]| |[|] m e]; simpl in Hp;
    try contradiction; reflexivity.
Qed.

(** Scaling an integer to a full mantissa. *)
Lemma scaled_mantissa (n : Z) :
  0 < n < 2 ^ 53 ->
  2 ^ 52 <= n * 2 ^ (53 - Zdigits2 n) < 2 ^ 53 /\
  1 <= Zdigits2 n <= 53.
Proof.
  intros Hn. pose proof (Zdigits2_bounds n ltac:(lia)) as Hb.
  pose proof (Zdigits2_pos n ltac:(lia)) as Hp.
  assert (Hd : Zdigits2 n <= 53).
  { destruct (Z.le_gt_cases (Zdigits2 n) 53) as [H|H]; [exact H|].
    assert (2 ^ 53 <= 2 ^ (Zdigits2 n - 1)) by (apply Z.pow_le_mono_r; lia). lia. }
  split; [|lia].
  assert (Hpow : 0 < 2 ^ (53 - Zdigits2 n)) by (apply pow2_pos; lia).
  replace (2 ^ 52) with (2 ^ (Zdigits2 n - 1) * 2 ^ (53 - Zdigits2 n))
    by (rewrite <- Z.pow_add_r by lia; f_equal; lia).
  replace (2 ^ 53) with (2 ^ Zdigits2 n * 2 ^ (53 - Zdigits2 n))
    by (rewrite <- Z.pow_add_r by lia; f_equal; lia).
  nia.
Qed.

(** On lengths below [2^48] the binary64 comparison with [1.1] agrees with
    the comparison in exact arithmetic. *)
Lemma f64_growth_exact (orig modl : Z) :
  0 < orig < 2 ^ 48 -> orig < modl < 2 ^ 48 ->
  f64_lt (f64_mul (float64_of_int orig) f64_1_1) (float64_of_int modl) =
  (11 * orig <? 10 * modl).
Proof.
  intros Ho Hm.
  rewrite (float64_of_int_small orig), (float64_of_int_small modl) by lia.
  destruct (scaled_mantissa orig ltac:(lia)) as [Hoa Hdo].
  destruct (scaled_mantissa modl ltac:(lia)) as [Hma Hdm].
  set (dO := Zdigits2 orig) in *. set (dM := Zdigits2 modl) in *.
  assert (HdO : dO <= 48).
  { pose proof (Zdigits2_bounds orig ltac:(lia)) as Hb. fold dO in Hb.
    destruct (Z.le_gt_cases dO 48) as [H|H]; [exact H|].
    assert (2 ^ 48 <= 2 ^ (dO - 1)) by (apply Z.pow_le_mono_r; lia). lia. }
  set (A := 2 ^ (53 - dO)) in *. set (B := 2 ^ (53 - dM)) in *.
  assert (HA : 32 <= A).
  { unfold A. change 32 with (2 ^ 5). apply Z.pow_le_mono_r; lia. }
  (* the product *)
  unfold f64_mul, f64_1_1, SFmul. cbn [xorb].
  rewrite (Pos2Z.inj_mul (Z.to_pos (orig * A)) 4953959590107546).
  rewrite (Z2Pos.id (orig * A)) by lia.
  set (M := 4953959590107546) in *.
  set (Pr := orig * A * M).
  assert (HPr : 2 ^ 104 <= Pr < 2 ^ 106) by (unfold Pr, M; nia).
  set (n := Zdigits2 Pr - 53).
  assert (Hn : n = 52 \/ n = 53).
  { unfold n.
    destruct (Z.lt_ge_cases Pr (2 ^ 105)) as [H|H].
    - left. rewrite (Zdigits2_unique Pr 105); [reflexivity | | lia].
      change (105 - 1) with 104. lia.
    - right. rewrite (Zdigits2_unique Pr 106); [reflexivity | | lia].
      change (106 - 1) with 105. lia. }
  destruct (binary_round_aux_normal false Pr (dO - 53 + -52) loc_Exact Pr 1 n
              (rne Pr (1 * 2 ^ n))) as (Hfl & HR & ->); try lia; try reflexivity.
  { rewrite Z.div_1_r. reflexivity. }
  { rewrite locate_exact. reflexivity. }
  rewrite Z.mul_1_l in *.
  set (R := rne Pr (2 ^ n)) in *.
  destruct (rounded_finite R (dO - 53 + -52 + n) HR ltac:(lia))
    as (m & e & -> & Hmc & He & Hval).
  unfold f64_lt.
  rewrite (SFltb_finite m (Z.to_pos (modl * B)) e (dM - 53) 105);
    rewrite ?Z2Pos.id; try lia.
  rewrite Hval by lia.
  (* both sides as integers *)
  set (T := 2 ^ (105 - dO - n)).
  assert (HT : T * 2 ^ n = A * 2 ^ 52).
  { unfold T, A. rewrite <- !Z.pow_add_r by lia. f_equal. lia. }
  assert (HTpos : 0 < T) by (apply pow2_pos; lia).
  assert (HB : modl * B * 2 ^ (dM - 53 + 105) = modl * T * 2 ^ (dO + n)).
  { unfold T, B. rewrite <- !Z.mul_assoc. f_equal.
    rewrite <- !Z.pow_add_r by lia. f_equal. lia. }
  rewrite HB.
  replace (dO - 53 + -52 + n + 105) with (dO + n) by lia.
  assert (Hs : 0 < 2 ^ (dO + n)) by (apply pow2_pos; lia).
  assert (Hpn : 0 < 2 ^ n) by (apply pow2_pos; lia).
  pose proof (rne_half Pr (2 ^ n) Hpn) as [Hup Hlo].
  fold R in Hup, Hlo.
  pose proof (rne_floor Pr (2 ^ n) Hpn) as [Hfloor _].
  fold R in Hfloor.
  set (oa := orig * A) in *. set (ma := modl * A).
  assert (HPM : 10 * Pr = oa * (11 * 2 ^ 52 + 4)) by (unfold Pr, M; fold oa; lia).
  assert (HmT : modl * T * 2 ^ n = ma * 2 ^ 52).
  { unfold ma. rewrite <- !Z.mul_assoc. f_equal. exact HT. }
  destruct (Z.ltb_spec (11 * orig) (10 * modl)) as [Hc|Hc].
  - (* growth above ten percent *)
    apply Z.ltb_lt. apply Z.mul_lt_mono_pos_r; [exact Hs|].
    assert (Hca : 11 * oa + A <= 10 * ma) by (unfold oa, ma; nia).
    apply (Z.mul_lt_mono_pos_r (2 ^ n)); [exact Hpn|].
    rewrite HmT.
    destruct Hn as [Hn|Hn]; rewrite Hn in *; lia.
  - (* growth of at most ten percent *)
    apply Z.ltb_ge. apply Z.mul_le_mono_nonneg_r; [lia|].
    assert (Hca : 10 * ma <= 11 * oa) by (unfold oa, ma; nia).
    apply Z.le_trans with (Pr / 2 ^ n); [|exact Hfloor].
    apply Z.div_le_lower_bound; [exact Hpn|].
    rewrite (Z.mul_comm (2 ^ n)), HmT. lia.
Qed.

(** ** Rounding is monotone against binary64 numbers *)

Section RoundMonotone.
Variables (mx ex N D n K : Z).
Hypothesis HN : 0 <= N.
Hypothesis HD : 0 < D.
Hypothesis Hmx : mx = N / D.
Hypothesis Hn : n = Zdigits2 mx - 53.
Hypothesis Hn0 : 0 <= n.
Hypothesis Hlo : -1074 <= ex + n.
Hypothesis Hhi : ex + n + 1 <= 971.
Hypothesis HKx : 0 <= ex + K.

Let R := rne N (D * 2 ^ n).

Lemma round_setup :
  2 ^ 52 <= N / (D * 2 ^ n) < 2 ^ 53 /\
  N / (D * 2 ^ n) <= R <= 2 ^ 53 /\
  0 < D * 2 ^ n /\
  2 ^ (ex + n + K) = 2 ^ n * 2 ^ (ex + K) /\
  exists (m : positive) (e : Z),
    binary_round_aux prec64 emax64 false mx ex (locate N D) =
      S754_finite false m e /\
    2 ^ 52 <= Z.pos m < 2 ^ 53 /\
    ex + n <= e /\
    Z.pos m * 2 ^ (e + K) = R * 2 ^ (ex + n + K).
Proof.
  destruct (binary_round_aux_normal false mx ex (locate N D) N D n R)
    as (Hfl & HR & Heq); auto.
  assert (HDn : 0 < D * 2 ^ n).
  { apply Z.mul_pos_pos; [lia | apply pow2_pos; lia]. }
  pose proof (rne_floor N (D * 2 ^ n) HDn) as [Hfloor _]. fold R in Hfloor.
  split; [exact Hfl|]. split; [lia|]. split; [exact HDn|].
  split.
  { replace (ex + n + K) with (n + (ex + K)) by lia.
    apply Z.pow_add_r; lia. }
  destruct (rounded_finite R (ex + n) HR Hhi) as (m & e & Hr & Hm & He & Hval).
  exists m, e. rewrite Heq, Hr. split; [reflexivity|]. split; [exact Hm|].
  split; [lia|]. apply Hval. lia.
Qed.

(** A value at or above a binary64 number rounds to that number or
    above. *)
Lemma rounded_value_ge (mc : positive) (ec : Z) :
  2 ^ 52 <= Z.pos mc < 2 ^ 53 -> 0 <= ec + K ->
  Z.pos mc * 2 ^ (ec + K) * D <= N * 2 ^ (ex + K) ->
  Z.pos mc * 2 ^ (ec + K) <= R * 2 ^ (ex + n + K).
Proof.
  intros Hmc HKc Hle.
  destruct round_setup as (Hfl & HR & HDn & Hpow & _).
  pose proof (pow2_pos (ex + K) HKx) as Hu.
  pose proof (pow2_pos n Hn0) as Hpn.
  destruct (Z.lt_ge_cases ec (ex + n)) as [Hec|Hec].
  - (* the number lies a whole binade below *)
    apply Z.le_trans with (2 ^ 53 * 2 ^ (ec + K)).
    + apply Z.mul_le_mono_nonneg_r; [apply Z.pow_nonneg|]; lia.
    + apply Z.le_trans with (2 ^ 52 * 2 ^ (ex + n + K)).
      * replace (ex + n + K) with (ec + K + (ex + n - ec)) by lia.
        rewrite (Z.pow_add_r 2 (ec + K) (ex + n - ec)) by lia.
        assert (2 <= 2 ^ (ex + n - ec)).
        { change 2 with (2 ^ 1) at 1. apply Z.pow_le_mono_r; lia. }
        pose proof (pow2_pos (ec + K) HKc). nia.
      * apply Z.mul_le_mono_nonneg_r; [apply Z.pow_nonneg|]; lia.
  - (* the number is a multiple of the rounding unit *)
    set (k := Z.pos mc * 2 ^ (ec - (ex + n))).
    assert (Hk : Z.pos mc * 2 ^ (ec + K) = k * 2 ^ (ex + n + K)).
    { unfold k. rewrite <- Z.mul_assoc. f_equal.
      rewrite <- Z.pow_add_r by lia. f_equal. lia. }
    rewrite Hk. apply Z.mul_le_mono_nonneg_r; [apply Z.pow_nonneg; lia|].
    apply Z.le_trans with (N / (D * 2 ^ n)); [|lia].
    apply Z.div_le_lower_bound; [exact HDn|].
    rewrite Hk, Hpow in Hle.
    apply (Z.mul_le_mono_pos_r _ _ (2 ^ (ex + K))); [exact Hu|].
    lia.
Qed.

(** A value at or below a binary64 number rounds to that number or
    below. *)
Lemma rounded_value_le (mc : positive) (ec : Z) :
  2 ^ 52 <= Z.pos mc < 2 ^ 53 -> 0 <= ec + K ->
  N * 2 ^ (ex + K) <= Z.pos mc * 2 ^ (ec + K) * D ->
  R * 2 ^ (ex + n + K) <= Z.pos mc * 2 ^ (ec + K).
Proof.
  intros Hmc HKc Hle.
  destruct round_setup as (Hfl & HR & HDn & Hpow & _).
  pose proof (pow2_pos (ex + K) HKx) as Hu.
  pose proof (pow2_pos n Hn0) as Hpn.
  pose proof (Z.mul_div_le N (D * 2 ^ n) HDn) as Hfloor.
  destruct (Z.lt_ge_cases ec (ex + n)) as [Hec|Hec].
  - (* impossible: the value would exceed the number *)
    exfalso.
    assert (H1 : Z.pos mc * 2 ^ (ec + K) * D < 2 ^ 53 * 2 ^ (ec + K) * D).
    { apply Z.mul_lt_mono_pos_r; [lia|].
      apply Z.mul_lt_mono_pos_r; [apply pow2_pos|]; lia. }
    assert (H2 : 2 ^ 53 * 2 ^ (ec + K) <= 2 ^ 52 * 2 ^ (ex + n + K)).
    { replace (ex + n + K) with (ec + K + (ex + n - ec)) by lia.
      rewrite (Z.pow_add_r 2 (ec + K) (ex + n - ec)) by lia.
      assert (2 <= 2 ^ (ex + n - ec)).
      { change 2 with (2 ^ 1) at 1. apply Z.pow_le_mono_r; lia. }
      pose proof (pow2_pos (ec + K) HKc). nia. }
    assert (H3 : 2 ^ 52 * 2 ^ (ex + n + K) * D <= N * 2 ^ (ex + K)).
    { rewrite Hpow.
      replace (2 ^ 52 * (2 ^ n * 2 ^ (ex + K)) * D)
        with (2 ^ 52 * (D * 2 ^ n) * 2 ^ (ex + K)) by lia.
      apply Z.mul_le_mono_nonneg_r; [lia|].
      apply Z.le_trans with (D * 2 ^ n * (N / (D * 2 ^ n))); [|exact Hfloor].
      rewrite (Z.mul_comm (2 ^ 52)).
      apply Z.mul_le_mono_nonneg_l; lia. }
    assert (H4 : 2 ^ 53 * 2 ^ (ec + K) * D <= 2 ^ 52 * 2 ^ (ex + n + K) * D).
    { apply Z.mul_le_mono_nonneg_r; lia. }
    lia.
  - set (k := Z.pos mc * 2 ^ (ec - (ex + n))).
    assert (Hk : Z.pos mc * 2 ^ (ec + K) = k * 2 ^ (ex + n + K)).
    { unfold k. rewrite <- Z.mul_assoc. f_equal.
      rewrite <- Z.pow_add_r by lia. f_equal. lia. }
    rewrite Hk. apply Z.mul_le_mono_nonneg_r; [apply Z.pow_nonneg; lia|].
    rewrite Hk, Hpow in Hle.
    assert (HNk : N <= k * (D * 2 ^ n)).
    { apply (Z.mul_le_mono_pos_r _ _ (2 ^ (ex + K))); [exact Hu|]. lia. }
    destruct (Z.le_gt_cases R k) as [Hok|Hbad]; [exact Hok|exfalso].
    assert (Hge : k + 1 <= R) by lia.
    apply (rne_ge N (D * 2 ^ n) (k + 1) HDn) in Hge.
    destruct Hge as [Hge | [Hge _]]; lia.
Qed.

(** The rounded result is a positive number with a full mantissa whose
    value stays on the same side of every binary64 number as the exact
    value [N/D * 2^ex]. *)
Lemma binary_round_aux_sandwich :
  exists (m : positive) (e : Z),
    binary_round_aux prec64 emax64 false mx ex (locate N D) =
      S754_finite false m e /\
    2 ^ 52 <= Z.pos m < 2 ^ 53 /\
    ex + n <= e /\
    (forall (mc : positive) (ec : Z),
        2 ^ 52 <= Z.pos mc < 2 ^ 53 -> 0 <= ec + K ->
        Z.pos mc * 2 ^ (ec + K) * D <= N * 2 ^ (ex + K) ->
        Z.pos mc * 2 ^ (ec + K) <= Z.pos m * 2 ^ (e + K)) /\
    (forall (mc : positive) (ec : Z),
        2 ^ 52 <= Z.pos mc < 2 ^ 53 -> 0 <= ec + K ->
        N * 2 ^ (ex + K) <= Z.pos mc * 2 ^ (ec + K) * D ->
        Z.pos m * 2 ^ (e + K) <= Z.pos mc * 2 ^ (ec + K)).
Proof.
  destruct round_setup as (_ & _ & _ & _ & m & e & Heq & Hm & He & Hval).
  exists m, e. split; [exact Heq|]. split; [exact Hm|]. split; [exact He|].
  rewrite Hval. split; intros mc ec Hmc HKc Hle.
  - apply rounded_value_ge; assumption.
  - apply rounded_value_le; assumption.
Qed.
End RoundMonotone.

(** ** Division and subtraction *)

Lemma new_location_locate (N D : Z) :
  0 < D -> new_location D (N mod D) = locate N D.
Proof.
  intros HD. pose proof (Z.mod_pos_bound N D HD) as Hr.
  unfold new_location, new_location_even, new_location_odd, locate.
  destruct (Z.even D) eqn:Ev; [reflexivity|].
  destruct (Z.eqb_spec (N mod D) 0); [reflexivity|]. f_equal.
  assert (Hodd : exists h, D = 2 * h + 1).
  { exists (D / 2). pose proof (Zmod_odd D) as Ho.
    rewrite <- Z.negb_even, Ev in Ho. simpl in Ho.
    pose proof (Z.div_mod D 2 ltac:(lia)). lia. }
  destruct Hodd as [h Hh].
  set (r := N mod D) in *. clearbody r.
  destruct (Z.compare_spec (2 * r + 1) D) as [H|H|H];
    destruct (Z.compare_spec (2 * r) D) as [H'|H'|H']; try reflexivity; lia.
Qed.

Lemma full_mantissa_digits (m : positive) :
  2 ^ 52 <= Z.pos m < 2 ^ 53 -> Z.pos (digits2_pos m) = 53.
Proof.
  intros Hm. change (Z.pos (digits2_pos m)) with (Zdigits2 (Z.pos m)).
  apply Zdigits2_unique; [|lia]. change (53 - 1) with 52. lia.
Qed.

(** The quotient of two positive numbers with full mantissas. *)
Lemma f64_div_finite (mx my : positive) (ex ey : Z) :
  2 ^ 52 <= Z.pos mx < 2 ^ 53 -> 2 ^ 52 <= Z.pos my < 2 ^ 53 ->
  -1021 <= ex - ey ->
  f64_div (S754_finite false mx ex) (S754_finite false my ey) =
  binary_round_aux prec64 emax64 false
    (Z.pos mx * 2 ^ 53 / Z.pos my) (ex - ey - 53)
    (locate (Z.pos mx * 2 ^ 53) (Z.pos my)).
Proof.
  intros Hx Hy He.
  unfold f64_div, SFdiv, SFdiv_core_binary. cbn [xorb].
  cbn [Zdigits2]. rewrite (full_mantissa_digits mx Hx), (full_mantissa_digits my Hy).
  replace (Z.min (fexp prec64 emax64 (53 + ex - (53 + ey))) (ex - ey))
    with (ex - ey - 53) by (unfold fexp, emin, prec64, emax64; lia).
  replace (ex - ey - (ex - ey - 53)) with 53 by lia.
  cbv iota beta.
  rewrite Z.shiftl_mul_pow2 by lia.
  pose proof (new_location_locate (Z.pos mx * 2 ^ 53) (Z.pos my) ltac:(lia)) as Hloc.
  unfold Z.modulo, Z.div in *.
  destruct (Z.div_eucl (Z.pos mx * 2 ^ 53) (Z.pos my)) as [q r].
  cbn [fst snd] in *. rewrite Hloc. reflexivity.
Qed.

(** One minus a positive number below one with a full mantissa. *)
Lemma f64_sub_one (mq : positive) (eq : Z) :
  eq <= -53 ->
  f64_sub f64_1_0 (S754_finite false mq eq) =
  binary_normalize prec64 emax64 (2 ^ (- eq) - Z.pos mq) eq false.
Proof.
  intros He. unfold f64_sub, f64_1_0, SFsub.
  rewrite Z.min_r by lia. unfold shl_align.
  replace (eq - eq) with 0 by lia. cbn [fst cond_Zopp].
  destruct (eq - -52) as [|d|d] eqn:Ed; try lia.
  cbn [fst]. rewrite Pos_iter_xO.
  replace (Z.pos d) with (- eq - 52) by lia.
  change (Z.pos 4503599627370496) with (2 ^ 52).
  rewrite <- Z.pow_add_r by lia.
  replace (52 + (- eq - 52)) with (- eq) by lia. reflexivity.
Qed.

(** [binary_round] is [binary_round_aux] on a mantissa of at least 53
    digits with the same value. *)
Lemma binary_round_as_aux (p : positive) (e : Z) :
  -1074 <= e + Z.pos (digits2_pos p) - 53 ->
  exists mx' ex',
    binary_round prec64 emax64 false p e =
      binary_round_aux prec64 emax64 false mx' ex' (locate mx' 1) /\
    0 < mx' /\
    0 <= Zdigits2 mx' - 53 /\
    ex' + (Zdigits2 mx' - 53) = e + Z.pos (digits2_pos p) - 53 /\
    e - 52 <= ex' <= e /\
    (forall K, 0 <= ex' + K -> mx' * 2 ^ (ex' + K) = Z.pos p * 2 ^ (e + K)) /\
    (53 <= Z.pos (digits2_pos p) -> mx' = Z.pos p /\ ex' = e).
Proof.
  intros Hlo. set (dg := Z.pos (digits2_pos p)) in *.
  unfold binary_round. fold dg.
  assert (Hfexp : fexp prec64 emax64 (dg + e) = dg + e - 53).
  { unfold fexp, emin, prec64, emax64. lia. }
  rewrite Hfexp. unfold shl_align.
  pose proof (digits2_pos_bounds p) as Hb. fold dg in Hb.
  destruct (dg + e - 53 - e) as [|d|d] eqn:Ed.
  - exists (Z.pos p), e. rewrite locate_exact.
    change (Zdigits2 (Z.pos p)) with dg.
    repeat split; try lia; reflexivity.
  - exists (Z.pos p), e. rewrite locate_exact.
    change (Zdigits2 (Z.pos p)) with dg.
    repeat split; try lia; reflexivity.
  - assert (Hd : Z.pos d = 53 - dg) by lia.
    pose proof (Pos_iter_xO d p) as Hit. rewrite Hd in Hit.
    assert (Hpow : 0 < 2 ^ (53 - dg)) by (apply pow2_pos; lia).
    assert (Hb' : 2 ^ 52 <= Z.pos (Pos.iter xO p d) < 2 ^ 53).
    { rewrite Hit.
      replace (2 ^ 52) with (2 ^ (dg - 1) * 2 ^ (53 - dg))
        by (rewrite <- Z.pow_add_r by lia; f_equal; lia).
      replace (2 ^ 53) with (2 ^ dg * 2 ^ (53 - dg))
        by (rewrite <- Z.pow_add_r by lia; f_equal; lia).
      nia. }
    exists (Z.pos (Pos.iter xO p d)), (dg + e - 53). rewrite locate_exact.
    cbn [Zdigits2]. rewrite (full_mantissa_digits _ Hb').
    repeat split; try lia.
    intros K HK. rewrite Hit, <- Z.mul_assoc. f_equal.
    rewrite <- Z.pow_add_r by lia. f_equal. lia.
Qed.

(** ** Values of numbers with full mantissas *)

Lemma full_mantissa_exponent_le (m1 m2 : positive) (e1 e2 K : Z) :
  2 ^ 52 <= Z.pos m1 < 2 ^ 53 -> 2 ^ 52 <= Z.pos m2 < 2 ^ 53 ->
  0 <= e1 + K -> 0 <= e2 + K ->
  Z.pos m1 * 2 ^ (e1 + K) <= Z.pos m2 * 2 ^ (e2 + K) ->
  e1 <= e2.
Proof.
  intros H1 H2 HK1 HK2 Hle.
  destruct (Z.le_gt_cases e1 e2) as [H|H]; [exact H|exfalso].
  pose proof (SFltb_finite m2 m1 e2 e1 K H2 H1 HK2 HK1) as Hlt.
  unfold SFltb, SFcompare in Hlt.
  destruct (Z.compare_spec e2 e1); lia.
Qed.

Lemma full_mantissa_unique (m1 m2 : positive) (e1 e2 K : Z) :
  2 ^ 52 <= Z.pos m1 < 2 ^ 53 -> 2 ^ 52 <= Z.pos m2 < 2 ^ 53 ->
  0 <= e1 + K -> 0 <= e2 + K ->
  Z.pos m1 * 2 ^ (e1 + K) = Z.pos m2 * 2 ^ (e2 + K) ->
  m1 = m2 /\ e1 = e2.
Proof.
  intros H1 H2 HK1 HK2 Heq.
  assert (e1 <= e2) by (eapply (full_mantissa_exponent_le m1 m2); eauto; lia).
  assert (e2 <= e1) by (eapply (full_mantissa_exponent_le m2 m1); eauto; lia).
  assert (e1 = e2) by lia. subst e2. split; [|reflexivity].
  pose proof (pow2_pos (e1 + K) HK1).
  apply Z.mul_cancel_r in Heq; [|lia]. congruence.
Qed.

(** ** Sandwiches for the operations of the scanner *)

(** [binary_normalize] of a positive integer mantissa. *)
Lemma binary_normalize_sandwich (z e K : Z) :
  0 < z ->
  -1074 <= e + Zdigits2 z - 53 -> e + Zdigits2 z - 53 + 1 <= 971 ->
  0 <= e - 52 + K ->
  exists (m : positive) (e' : Z),
    binary_normalize prec64 emax64 z e false = S754_finite false m e' /\
    2 ^ 52 <= Z.pos m < 2 ^ 53 /\
    e + Zdigits2 z - 53 <= e' /\
    (forall (mc : positive) (ec : Z),
        2 ^ 52 <= Z.pos mc < 2 ^ 53 -> 0 <= ec + K ->
        Z.pos mc * 2 ^ (ec + K) <= z * 2 ^ (e + K) ->
        Z.pos mc * 2 ^ (ec + K) <= Z.pos m * 2 ^ (e' + K)) /\
    (forall (mc : positive) (ec : Z),
        2 ^ 52 <= Z.pos mc < 2 ^ 53 -> 0 <= ec + K ->
        z * 2 ^ (e + K) <= Z.pos mc * 2 ^ (ec + K) ->
        Z.pos m * 2 ^ (e' + K) <= Z.pos mc * 2 ^ (ec + K)).
Proof.
  intros Hz Hlo Hhi HK. destruct z as [|p|p]; try lia.
  cbn [binary_normalize Zdigits2] in *.
  destruct (binary_round_as_aux p e Hlo)
    as (mx' & ex' & -> & Hmx' & Hdg' & Hex' & Hle' & Hval & _).
  destruct (binary_round_aux_sandwich mx' ex' mx' 1 (Zdigits2 mx' - 53) K)
    as (m & e' & Heq & Hm & He' & Hge & Hle); try lia.
  { rewrite Z.div_1_r. reflexivity. }
  exists m, e'. split; [exact Heq|]. split; [exact Hm|]. split; [lia|].
  rewrite <- (Hval K) by lia.
  split; intros mc ec Hmc HKc Hv.
  - apply Hge; [exact Hmc | exact HKc | lia].
  - apply Hle; [exact Hmc | exact HKc | lia].
Qed.

(** The quotient of two positive integers below [2^53]: a positive number
    with a full mantissa on the same side of every binary64 number as
    the exact quotient [d/m]. *)
Lemma f64_div_sandwich (d m K : Z) :
  0 < d < 2 ^ 53 -> 0 < m < 2 ^ 53 -> 105 <= K ->
  exists (mq : positive) (eq : Z),
    f64_div (float64_of_int d) (float64_of_int m) = S754_finite false mq eq /\
    2 ^ 52 <= Z.pos mq < 2 ^ 53 /\
    0 <= eq + K /\
    (forall (mc : positive) (ec : Z),
        2 ^ 52 <= Z.pos mc < 2 ^ 53 -> 0 <= ec + K ->
        Z.pos mc * 2 ^ (ec + K) * m <= d * 2 ^ K ->
        Z.pos mc * 2 ^ (ec + K) <= Z.pos mq * 2 ^ (eq + K)) /\
    (forall (mc : positive) (ec : Z),
        2 ^ 52 <= Z.pos mc < 2 ^ 53 -> 0 <= ec + K ->
        d * 2 ^ K <= Z.pos mc * 2 ^ (ec + K) * m ->
        Z.pos mq * 2 ^ (eq + K) <= Z.pos mc * 2 ^ (ec + K)).
Proof.
  intros Hd Hm HK.
  rewrite (float64_of_int_small d), (float64_of_int_small m) by lia.
  destruct (scaled_mantissa d Hd) as [Hda HdD].
  destruct (scaled_mantissa m Hm) as [Hmb HdM].
  set (dD := Zdigits2 d) in *. set (dM := Zdigits2 m) in *.
  set (A := 2 ^ (53 - dD)) in *. set (B := 2 ^ (53 - dM)) in *.
  rewrite f64_div_finite by (rewrite ?Z2Pos.id; lia).
  rewrite !Z2Pos.id by lia.
  set (N := d * A * 2 ^ 53). set (D := m * B).
  assert (HBpos : 0 < B) by (apply pow2_pos; lia).
  assert (HDpos : 0 < D) by (unfold D; lia).
  assert (HNpos : 0 <= N) by (unfold N; lia).
  assert (Hq : 2 ^ 52 <= N / D).
  { apply Z.div_le_lower_bound; [exact HDpos|]. unfold N, D. nia. }
  assert (Hdg : 53 <= Zdigits2 (N / D)).
  { pose proof (Zdigits2_bounds (N / D) ltac:(lia)) as Hb.
    destruct (Z.le_gt_cases 53 (Zdigits2 (N / D))) as [H|H]; [exact H|].
    assert (2 ^ Zdigits2 (N / D) <= 2 ^ 52) by (apply Z.pow_le_mono_r; lia). lia. }
  assert (Hq2 : N / D < 2 ^ 54).
  { apply Z.div_lt_upper_bound; [exact HDpos|]. unfold N, D. nia. }
  assert (Hdg2 : Zdigits2 (N / D) <= 54).
  { pose proof (Zdigits2_bounds (N / D) ltac:(lia)) as Hb.
    destruct (Z.le_gt_cases (Zdigits2 (N / D)) 54) as [H|H]; [exact H|].
    assert (2 ^ 54 <= 2 ^ (Zdigits2 (N / D) - 1)) by (apply Z.pow_le_mono_r; lia). lia. }
  destruct (binary_round_aux_sandwich (N / D) (dD - 53 - (dM - 53) - 53) N D
              (Zdigits2 (N / D) - 53) K)
    as (mq & eq & Heq & Hmq & Heqlo & Hge & Hle); try lia.
  exists mq, eq. split; [exact Heq|]. split; [exact Hmq|]. split; [lia|].
  assert (Hscale : N * 2 ^ (dD - 53 - (dM - 53) - 53 + K) = d * 2 ^ K * B).
  { unfold N, A, B. rewrite <- !Z.mul_assoc. f_equal.
    rewrite <- !Z.pow_add_r by lia. f_equal. lia. }
  split; intros mc ec Hmc HKc Hv.
  - apply Hge; [exact Hmc | exact HKc |]. rewrite Hscale. unfold D.
    rewrite Z.mul_assoc. apply Z.mul_le_mono_nonneg_r; lia.
  - apply Hle; [exact Hmc | exact HKc |]. rewrite Hscale. unfold D.
    rewrite Z.mul_assoc. apply Z.mul_le_mono_nonneg_r; lia.
Qed.

Lemma Zdigits2_le (z k : Z) : 0 < z -> z < 2 ^ k -> Zdigits2 z <= k.
Proof.
  intros Hz Hlt. pose proof (Zdigits2_bounds z Hz) as Hb.
  destruct (Z.le_gt_cases (Zdigits2 z) k) as [H|H]; [exact H|].
  assert (2 ^ k <= 2 ^ (Zdigits2 z - 1)).
  { destruct (Z.le_gt_cases 0 k).
    - apply Z.pow_le_mono_r; lia.
    - rewrite (Z.pow_neg_r 2 k) by lia. apply Z.pow_nonneg. lia. }
  lia.
Qed.

(** The similarity [1 - q] falls below [0.95] exactly when the quotient [q]
    lies above the binary64 number [7205759403792808 * 2^-57], the
    largest one whose complement to one still rounds to [0.95]. *)
Lemma f64_similarity_threshold (mq : positive) (eq : Z) :
  2 ^ 52 <= Z.pos mq < 2 ^ 53 -> -110 <= eq <= -53 ->
  f64_lt (f64_sub f64_1_0 (S754_finite false mq eq)) f64_0_95 =
  SFltb (S754_finite false 7205759403792808 (-57)) (S754_finite false mq eq).
Proof.
  intros Hmq Heq. rewrite f64_sub_one by lia.
  set (Dz := 2 ^ (- eq) - Z.pos mq).
  assert (Hpow : 2 ^ 53 <= 2 ^ (- eq)) by (apply Z.pow_le_mono_r; lia).
  assert (HDz : 0 < Dz) by (unfold Dz; lia).
  assert (HDzhi : Dz < 2 ^ 110).
  { assert (2 ^ (- eq) <= 2 ^ 110) by (apply Z.pow_le_mono_r; lia). unfold Dz. lia. }
  pose proof (Zdigits2_le Dz 110 HDz HDzhi) as Hdg.
  pose proof (Zdigits2_pos Dz HDz) as Hdg0.
  set (u := 2 ^ (eq + 200)).
  assert (Hu : 2 ^ (- eq) * u = 2 ^ 200).
  { unfold u. rewrite <- Z.pow_add_r by lia. f_equal. lia. }
  assert (HDzu : Dz * u = 2 ^ 200 - Z.pos mq * u) by (unfold Dz; lia).
  unfold f64_lt, f64_0_95.
  unfold SFltb at 2. unfold SFcompare.
  destruct (Z.compare_spec (-57) eq) as [He|He|He].
  - (* the quotient lies in the binade of the threshold *)
    clear Hu HDzu. clear u. subst eq. change (- -57) with 57 in *.
    assert (Hd57 : Zdigits2 Dz = 57).
    { apply Zdigits2_unique; [|lia]. change (57 - 1) with 56. unfold Dz. lia. }
    destruct Dz as [|p|p] eqn:EDz; try lia.
    cbn [binary_normalize]. cbn [Zdigits2] in Hd57.
    destruct (binary_round_as_aux p (-57) ltac:(lia))
      as (mx' & ex' & -> & _ & _ & _ & _ & _ & Hsame).
    destruct (Hsame ltac:(lia)) as [-> ->].
    destruct (binary_round_aux_normal false (Z.pos p) (-57) (locate (Z.pos p) 1)
                (Z.pos p) 1 4 (rne (Z.pos p) (1 * 2 ^ 4)))
      as (_ & HR & ->); try lia; try reflexivity.
    { rewrite Z.div_1_r. reflexivity. }
    { cbn [Zdigits2]. lia. }
    change (1 * 2 ^ 4) with 16 in *. change (-57 + 4) with (-53).
    set (R := rne (Z.pos p) 16) in *.
    destruct (rounded_finite R (-53) HR ltac:(lia)) as (m & e & -> & Hm & He & Hval).
    rewrite (SFltb_finite m 8556839292003942 e (-53) 53) by lia.
    rewrite (Hval 53) by lia. change (-53 + 53) with 0. rewrite !Z.mul_1_r.
    pose proof (rne_ge (Z.pos p) 16 8556839292003942 ltac:(lia)) as Hth. fold R in Hth.
    fold (Pos.compare 7205759403792808 mq).
    destruct (Pos.compare_spec 7205759403792808 mq) as [Hc|Hc|Hc];
      [apply (f_equal Z.pos) in Hc | apply Pos2Z.pos_lt_pos in Hc
       | apply Pos2Z.pos_lt_pos in Hc].
    + apply Z.ltb_ge. apply Hth. right. split; [lia | reflexivity].
    + apply Z.ltb_lt.
      destruct (Z.lt_ge_cases R 8556839292003942) as [H|H]; [exact H|].
      apply Hth in H. destruct H as [H|[H _]]; lia.
    + apply Z.ltb_ge. apply Hth. left. lia.
  - (* the quotient is at least 1/16 *)
    destruct (binary_normalize_sandwich Dz eq 200 HDz ltac:(lia) ltac:(lia) ltac:(lia))
      as (m & e' & -> & Hm & He' & _ & Hle).
    specialize (Hle 8444249301319680%positive (-53) ltac:(lia) ltac:(lia)).
    rewrite (SFltb_finite m 8556839292003942 e' (-53) 200) by lia.
    apply Z.ltb_lt.
    assert (Hub : Dz * 2 ^ (eq + 200) <= 8444249301319680 * 2 ^ (-53 + 200)).
    { fold u. rewrite HDzu.
      assert (2 ^ 144 <= u) by (apply Z.pow_le_mono_r; lia).
      assert (2 ^ 52 * 2 ^ 144 <= Z.pos mq * u) by (apply Z.mul_le_mono_nonneg; lia).
      change (-53 + 200) with 147. lia. }
    specialize (Hle Hub).
    change (-53 + 200) with 147 in *. lia.
  - (* the quotient is below 1/32 *)
    destruct (binary_normalize_sandwich Dz eq 200 HDz ltac:(lia) ltac:(lia) ltac:(lia))
      as (m & e' & -> & Hm & He' & Hge & _).
    specialize (Hge 8556839292003942%positive (-53) ltac:(lia) ltac:(lia)).
    rewrite (SFltb_finite m 8556839292003942 e' (-53) 200) by lia.
    apply Z.ltb_ge. apply Hge.
    fold u. rewrite HDzu.
    assert (0 < u) by (apply pow2_pos; lia).
    assert (u <= 2 ^ 142) by (apply Z.pow_le_mono_r; lia).
    assert (Z.pos mq * u <= 2 ^ 53 * 2 ^ 142) by (apply Z.mul_le_mono_nonneg; lia).
    change (-53 + 200) with 147. lia.
Qed.

(** On bodies shorter than [2^48] bytes the binary64 similarity test agrees
    with the test in exact arithmetic: [1 - d/m < 0.95] iff [m < 20 d]. *)
Lemma f64_similarity_exact (d m : Z) :
  0 <= d <= m -> 0 < m < 2 ^ 48 ->
  f64_lt (f64_sub f64_1_0 (f64_div (float64_of_int d) (float64_of_int m)))
         f64_0_95 = (m <? 20 * d).
Proof.
  intros Hd Hm.
  destruct (Z.eq_dec d 0) as [Hd0|Hd0].
  { (* no edit at all *)
    subst d. rewrite (float64_of_int_small m) by lia.
    replace (m <? 20 * 0) with false by (symmetry; apply Z.ltb_ge; lia).
    reflexivity. }
  destruct (f64_div_sandwich d m 200 ltac:(lia) ltac:(lia) ltac:(lia))
    as (mq & eq & -> & Hmq & HK & Hge & Hle).
  destruct (Z.eq_dec d m) as [Hdm|Hdm].
  { (* every byte edited: the quotient is one *)
    subst d.
    pose proof (Hge 4503599627370496%positive (-52) ltac:(lia) ltac:(lia) ltac:(lia)) as H1.
    pose proof (Hle 4503599627370496%positive (-52) ltac:(lia) ltac:(lia) ltac:(lia)) as H2.
    destruct (full_mantissa_unique mq 4503599627370496 eq (-52) 200) as [-> ->];
      try lia.
    replace (m <? 20 * m) with true by (symmetry; apply Z.ltb_lt; lia).
    reflexivity. }
  (* a proper fraction *)
  assert (Heqhi : eq <= -53).
  { apply (full_mantissa_exponent_le mq 9007199254740991 eq (-53) 200); try lia.
    apply Hle; try lia; change (-53 + 200) with 147; lia. }
  assert (Heqlo : -100 <= eq).
  { apply (full_mantissa_exponent_le 4503599627370496 mq (-100) eq 200); try lia.
    apply Hge; try lia; change (-100 + 200) with 100; lia. }
  rewrite f64_similarity_threshold by lia.
  rewrite (SFltb_finite 7205759403792808 mq (-57) eq 200) by lia.
  change (-57 + 200) with 143.
  destruct (Z.ltb_spec m (20 * d)) as [Hc|Hc].
  - apply Z.ltb_lt.
    pose proof (Hge 7205759403792809%positive (-57) ltac:(lia) ltac:(lia)) as H.
    change (-57 + 200) with 143 in H.
    assert (Hpre : 7205759403792809 * 2 ^ 143 * m <= d * 2 ^ 200) by lia.
    specialize (H Hpre). lia.
  - apply Z.ltb_ge.
    apply (Hle 7205759403792808%positive (-57)); try lia;
      change (-57 + 200) with 143; lia.
Qed.


(** * The scanner's properties *)

(** ** The dispatcher *)

Section Dispatcher.
Context `{P : Platform}.
Import crawler.

(** Unfolds one pass of a probe and splits on everything it inspects. *)
Ltac crunch_attempt :=
  unfold ret, bind in *;
  repeat (case_match; simplify_eq; try discriminate);
  simplify_eq; try reflexivity.

Lemma errorAttempt_param req paramName payload w v w' :
  errorAttempt req paramName payload w = (Some v, w') -> scanner.Param v = paramName.
Proof. unfold errorAttempt. intros E. crunch_attempt. Qed.

Lemma timeAttempt_param req paramName baseline payload w v w' :
  timeAttempt req paramName baseline payload w = (Some v, w') ->
  scanner.Param v = paramName.
Proof. unfold timeAttempt. intros E. crunch_attempt. Qed.

Lemma booleanAttempt_param req paramName params body test w v w' :
  booleanAttempt req paramName params body test w = (Some v, w') ->
  scanner.Param v = paramName.
Proof. unfold booleanAttempt. intros E. crunch_attempt. Qed.

Lemma contentAttempt_param req paramName params n payload w v w' :
  contentAttempt req paramName params n payload w = (Some v, w') ->
  scanner.Param v = paramName.
Proof. unfold contentAttempt. intros E. crunch_attempt. Qed.

Lemma contentChangeCheck_param req paramName baseline payload resp v :
  contentChangeCheck req paramName baseline payload resp = Some v ->
  scanner.Param v = paramName.
Proof. unfold contentChangeCheck. intros E. crunch_attempt. Qed.

Lemma authAttempt_param req paramName baseline payload w v w' :
  authAttempt req paramName baseline payload w = (Some v, w') ->
  scanner.Param v = paramName.
Proof.
  unfold authAttempt. intros E. crunch_attempt;
    eauto using contentChangeCheck_param.
Qed.

Lemma testErrorBased_param req paramName w v w' :
  testErrorBased req paramName w = (Some v, w') -> scanner.Param v = paramName.
Proof.
  unfold testErrorBased.
  apply (firstHit_some _ (fun v => scanner.Param v = paramName)).
  intros; eauto using errorAttempt_param.
Qed.

Lemma testTimeBased_param req paramName w v w' :
  testTimeBased req paramName w = (Some v, w') -> scanner.Param v = paramName.
Proof.
  unfold testTimeBased, bind, ret. intros E.
  destruct (measureRequestDuration req None w) as [[b|e] w0]; [|discriminate].
  revert E. apply (firstHit_some _ (fun v => scanner.Param v = paramName)).
  intros; eauto using timeAttempt_param.
Qed.

Lemma testBooleanBased_param req paramName w v w' :
  testBooleanBased req paramName w = (Some v, w') -> scanner.Param v = paramName.
Proof.
  unfold testBooleanBased, bind, ret. intros E.
  destruct (getOriginalParams req) as [params|e]; [|discriminate].
  destruct (sendRequest req params w) as [[[st body]|e] w0]; [|discriminate].
  revert E. apply (firstHit_some _ (fun v => scanner.Param v = paramName)).
  intros; eauto using booleanAttempt_param.
Qed.

Lemma testContentBased_param req paramName w v w' :
  testContentBased req paramName w = (Some v, w') -> scanner.Param v = paramName.
Proof.
  unfold testContentBased, bind, ret. intros E.
  destruct (getOriginalParams req) as [params|e]; [|discriminate].
  destruct (sendRequest req params w) as [[[st body]|e] w0]; [|discriminate].
  revert E. apply (firstHit_some _ (fun v => scanner.Param v = paramName)).
  intros; eauto using contentAttempt_param.
Qed.

Lemma testAuthBypass_param req paramName w v w' :
  testAuthBypass req paramName w = (Some v, w') -> scanner.Param v = paramName.
Proof.
  unfold testAuthBypass, bind, ret. intros E.
  destruct (negb _); [discriminate|].
  destruct (getOriginalParams req) as [params|e]; [|discriminate].
  destruct (sendRequest req _ w) as [[[st body]|e] w0]; [|discriminate].
  revert E. apply (firstHit_some _ (fun v => scanner.Param v = paramName)).
  intros; eauto using authAttempt_param.
Qed.

(** A finding of a parameter names that parameter. *)
Lemma probeParam_param req paramName w v w' :
  probeParam req paramName w = (Some v, w') -> scanner.Param v = paramName.
Proof.
  unfold probeParam, bind, ret. intros E.
  destruct (testErrorBased req paramName w) as [[v1|] w1] eqn:E1.
  { inversion E; subst. eauto using testErrorBased_param. }
  destruct (testTimeBased req paramName w1) as [[v2|] w2] eqn:E2.
  { inversion E; subst. eauto using testTimeBased_param. }
  destruct (testBooleanBased req paramName w2) as [[v3|] w3] eqn:E3.
  { inversion E; subst. eauto using testBooleanBased_param. }
  destruct (testContentBased req paramName w3) as [[v4|] w4] eqn:E4.
  { inversion E; subst. eauto using testContentBased_param. }
  eauto using testAuthBypass_param.
Qed.

(** The loop only appends, and what it appends names, in order, some of
    the probed parameters, each occurrence at most once. *)
Lemma ParamLoop_findings req paramNames :
  forall findings w out w',
    ParamLoop req paramNames findings w = (out, w') ->
    exists new,
      out = findings ++ new /\
      sublist (map scanner.Param new) (probedNames paramNames).
Proof.
  induction paramNames as [|paramName rest IH]; intros findings w out w' E;
    simpl in E.
  - inversion E; subst. exists []. split; [by rewrite app_nil_r | constructor].
  - unfold probedNames in *. simpl.
    destruct (ignoredParams !! strings_ToLower paramName) as [b|] eqn:Ei.
    + eauto.
    + unfold bind in E.
      destruct (probeParam req paramName w) as [[vuln|] w0] eqn:Ep.
      * apply IH in E as (new & -> & Hsub).
        exists (vuln :: new). split; [by rewrite <- app_assoc|].
        simpl. rewrite (probeParam_param _ _ _ _ _ Ep).
        by apply sublist_skip.
      * apply IH in E as (new & -> & Hsub).
        exists new. split; [done | by apply sublist_cons].
Qed.

Lemma Scan_findings req w :
  sublist (map scanner.Param (fst (fst (Scan req w)))) (probedNames (ParamNames req)).
Proof.
  unfold Scan, ret, bind.
  destruct (negb _ && negb _); [apply sublist_nil_l|].
  destruct (existsb _ specialPaths); [apply sublist_nil_l|].
  destruct (ParamLoop req (ParamNames req) [] w) as [out w'] eqn:E.
  apply ParamLoop_findings in E as (new & -> & Hsub). exact Hsub.
Qed.

Lemma probedNames_sublist paramNames : sublist (probedNames paramNames) paramNames.
Proof.
  unfold probedNames. induction paramNames as [|x l IH]; simpl.
  - constructor.
  - destruct (ignoredParams !! strings_ToLower x); by constructor.
Qed.

Lemma probedNames_not_ignored paramNames paramName :
  In paramName (probedNames paramNames) ->
  ignoredParams !! strings_ToLower paramName = None.
Proof.
  unfold probedNames. rewrite filter_In. intros [_ H].
  destruct (ignoredParams !! strings_ToLower paramName); [discriminate | done].
Qed.

(** C3, as amended: the parameters of the findings of one [Scan] call
    form a subsequence of the request's parameter names, so a name gets
    at most one finding for each time the request lists it; when the
    request lists no name twice, no two findings share a parameter. *)
Theorem Scan_one_finding_per_listed_name req w :
  sublist (map scanner.Param (fst (fst (Scan req w)))) (ParamNames req) /\
  (NoDup (ParamNames req) ->
   NoDup (map scanner.Param (fst (fst (Scan req w))))).
Proof.
  assert (Hsub : sublist (map scanner.Param (fst (fst (Scan req w))))
                   (ParamNames req)).
  { etransitivity; [apply Scan_findings | apply probedNames_sublist]. }
  split; [exact Hsub|].
  intros Hnd. eapply sublist_NoDup; eauto.
Qed.

(** C7: a request whose method is neither GET nor POST, or whose URL
    contains [/comment] or [/register], gets the empty findings list, and
    no request is sent for it (the world is left as it was). *)
Theorem Scan_unsupported_input req w :
  (Method req <> "GET" /\ Method req <> "POST") \/
  GoStrings.Contains (URL req) "/comment" = true \/
  GoStrings.Contains (URL req) "/register" = true ->
  Scan req w = ([], None, w).
Proof.
  intros H. unfold Scan, ret.
  destruct (negb (String.eqb (Method req) "GET") && negb (String.eqb (Method req) "POST"))
    eqn:Em; [reflexivity|].
  destruct H as [[Hg Hp] | H].
  - apply String.eqb_neq in Hg, Hp. rewrite Hg, Hp in Em. discriminate.
  - unfold specialPaths. simpl.
    destruct H as [-> | ->]; [reflexivity|].
    rewrite orb_true_r. reflexivity.
Qed.

(** C8: whatever the request and whatever the network does, the error
    returned by [Scan] is nil. *)
Theorem Scan_returns_nil_error req w :
  snd (fst (Scan req w)) = None.
Proof.
  unfold Scan, ret, bind.
  destruct (negb _ && negb _); [reflexivity|].
  destruct (existsb _ specialPaths); [reflexivity|].
  destruct (ParamLoop req (ParamNames req) [] w). reflexivity.
Qed.

(** C9: a parameter whose lowercased name is one of csrf, token, _token,
    csrf_token, _csrf_token is passed over by the loop without any probe
    (the loop goes on from the same findings and the same world), and no
    finding of [Scan] names it. *)
Theorem Scan_skips_ignored_parameters paramName :
  In (strings_ToLower paramName)
     [ "csrf"; "token"; "_token"; "csrf_token"; "_csrf_token" ] ->
  (forall req rest findings w,
      ParamLoop req (paramName :: rest) findings w =
      ParamLoop req rest findings w) /\
  (forall req w v,
      In v (fst (fst (Scan req w))) -> scanner.Param v <> paramName).
Proof.
  intros Hin.
  assert (Hig : exists b, ignoredParams !! strings_ToLower paramName = Some b).
  { simpl in Hin.
    destruct Hin as [<-|[<-|[<-|[<-|[<-|[]]]]]]; exists true; reflexivity. }
  destruct Hig as [b Hig]. split.
  - intros req rest findings w. simpl. rewrite Hig. reflexivity.
  - intros req w v Hv Heq.
    pose proof (Scan_findings req w) as Hsub.
    assert (Hp : In paramName (probedNames (ParamNames req))).
    { apply list_elem_of_In. eapply elem_of_sublist; [| exact Hsub].
      apply list_elem_of_In. rewrite <- Heq. apply in_map, Hv. }
    apply probedNames_not_ignored in Hp. congruence.
Qed.

End Dispatcher.

(** ** The boolean-differential probe *)

Section BooleanProbe.
Context `{P : Platform}.
Import crawler.

(** One pass of the pair loop, once both injected requests have
    succeeded. *)
Lemma booleanAttempt_both_sent req paramName originalParams originalBody test
    w0 w1 w2 st1 trueBody st2 falseBody :
  sendRequest req (withPayload originalParams paramName (payloads.TruePayload test)) w0
    = (Ok (st1, trueBody), w1) ->
  sendRequest req (withPayload originalParams paramName (payloads.FalsePayload test)) w1
    = (Ok (st2, falseBody), w2) ->
  exists vuln,
    scanner.Payload vuln = payloads.TruePayload test /\
    scanner.VulnerabilityType vuln = "SQL Injection (Boolean-Based)" /\
    booleanAttempt req paramName originalParams originalBody test w0 =
    (if negb (isDifferentResponse originalBody trueBody)
        && isDifferentResponse originalBody falseBody
     then Some vuln else None, w2).
Proof.
  intros Et Ef. unfold booleanAttempt, bind, ret, withPayload in *.
  rewrite copyParams_id, Et, Ef.
  destruct (negb _ && _).
  - eexists. split; [|split]. 3: reflexivity. all: reflexivity.
  - exists {| scanner.VulnerabilityType := "SQL Injection (Boolean-Based)";
              scanner.URL := ""; scanner.Param := paramName;
              scanner.Payload := payloads.TruePayload test;
              scanner.Details := ""; scanner.Severity := "";
              scanner.Evidence := ""; scanner.Location := "";
              scanner.Remediation := ""; scanner.ScannerName := "" |}.
    repeat split.
Qed.

(** C1: for a TRUE/FALSE pair whose two injected requests both succeed,
    the pair is a hit exactly when the TRUE body is not different from
    the original body and the FALSE body is; on a hit the probe ends there
    (no later pair is sent) with the pair's TRUE payload as the reported
    payload, and otherwise the probe goes on with the pairs that follow. *)
Theorem testBooleanBased_pair_decision
    req paramName originalParams st0 originalBody pre test post
    wi w w0 w1 w2 st1 trueBody st2 falseBody :
  BooleanSQLiTests = pre ++ test :: post ->
  getOriginalParams req = Ok originalParams ->
  sendRequest req originalParams wi = (Ok (st0, originalBody), w) ->
  firstHit (booleanAttempt req paramName originalParams originalBody) pre w
    = (None, w0) ->
  sendRequest req (withPayload originalParams paramName (payloads.TruePayload test)) w0
    = (Ok (st1, trueBody), w1) ->
  sendRequest req (withPayload originalParams paramName (payloads.FalsePayload test)) w1
    = (Ok (st2, falseBody), w2) ->
  ((exists vuln,
       fst (booleanAttempt req paramName originalParams originalBody test w0)
       = Some vuln) <->
   (isDifferentResponse originalBody trueBody = false /\
    isDifferentResponse originalBody falseBody = true)) /\
  (isDifferentResponse originalBody trueBody = false /\
   isDifferentResponse originalBody falseBody = true ->
   exists vuln,
     testBooleanBased req paramName wi = (Some vuln, w2) /\
     scanner.Payload vuln = payloads.TruePayload test /\
     scanner.Param vuln = paramName /\
     scanner.VulnerabilityType vuln = "SQL Injection (Boolean-Based)") /\
  (~ (isDifferentResponse originalBody trueBody = false /\
      isDifferentResponse originalBody falseBody = true) ->
   testBooleanBased req paramName wi =
   firstHit (booleanAttempt req paramName originalParams originalBody) post w2).
Proof.
  intros Htests Hparams Hbase Hpre Et Ef.
  destruct (booleanAttempt_both_sent req paramName originalParams originalBody
              test w0 w1 w2 st1 trueBody st2 falseBody Et Ef)
    as (vuln & Hpay & Hty & Hstep).
  assert (Hprobe : testBooleanBased req paramName wi =
            match booleanAttempt req paramName originalParams originalBody test w0 with
            | (Some r, w') => (Some r, w')
            | (None, w') =>
                firstHit (booleanAttempt req paramName originalParams originalBody)
                  post w'
            end).
  { unfold testBooleanBased, bind. rewrite Hparams, Hbase, Htests.
    rewrite firstHit_app, Hpre. reflexivity. }
  rewrite Hstep in Hprobe. rewrite Hstep. simpl.
  destruct (isDifferentResponse originalBody trueBody);
    destruct (isDifferentResponse originalBody falseBody); simpl in *.
  - split; [|split].
    + split; [intros [? ?]; discriminate | intros [? _]; discriminate].
    + intros [? _]; discriminate.
    + intros _. exact Hprobe.
  - split; [|split].
    + split; [intros [? ?]; discriminate | intros [? _]; discriminate].
    + intros [? _]; discriminate.
    + intros _. exact Hprobe.
  - split; [|split].
    + split; [intros _; done | intros _; eauto].
    + intros _. exists vuln. repeat split; try done.
      pose proof Hstep as Hs. simpl in Hs.
      eapply (booleanAttempt_param req paramName originalParams originalBody test w0 vuln w2).
      rewrite Hstep. reflexivity.
    + intros Hn. exfalso. apply Hn. done.
  - split; [|split].
    + split; [intros [? ?]; discriminate | intros [_ ?]; discriminate].
    + intros [_ ?]; discriminate.
    + intros _. exact Hprobe.
Qed.

End BooleanProbe.

(** ** The authentication bypass probe *)

Section AuthBypassProbe.
Context `{P : Platform}.
Import crawler.

(** C2, as amended: for an attempt whose injected request succeeds, the
    differential check on the response body (changed from the failure
    baseline and holding a success keyword) decides the attempt when the
    response is not a redirect, and when it is a redirect whose
    verification ran to the end (a Location, at least one cookie, a
    follow-up answer) without finding a keyword; a verified redirect is a
    hit by itself; and a redirect that cannot be verified (no Location,
    no cookie, or a failed follow-up request) ends the attempt with no
    hit and without the differential check. *)
Theorem authAttempt_acceptance_paths
    req paramName failureBaselineBody payload originalParams
    testURL reqBody httpReq w resp w' :
  getOriginalParams req = Ok originalParams ->
  buildRequestComponents req (authParams originalParams paramName payload)
    = Ok (testURL, reqBody) ->
  http_NewRequest (Method req) testURL reqBody = Ok httpReq ->
  NoRedirects_Do
    (if String.eqb (Method req) "POST"
     then Header_Set httpReq "Content-Type" "application/x-www-form-urlencoded"
     else httpReq) w = (Ok resp, w') ->
  (isRedirect resp = false ->
   authAttempt req paramName failureBaselineBody payload w =
   (contentChangeCheck req paramName failureBaselineBody payload resp, w')) /\
  (isRedirect resp = true ->
   forall locationURL finalResp w'',
     http.Location resp = Ok locationURL ->
     http.Cookies resp <> [] ->
     Client_GetWithCookies locationURL (http.Cookies resp) w' = (Ok finalResp, w'') ->
     (redirectKeyword finalResp = None ->
      authAttempt req paramName failureBaselineBody payload w =
      (contentChangeCheck req paramName failureBaselineBody payload resp, w'')) /\
     (redirectKeyword finalResp <> None ->
      exists vuln,
        authAttempt req paramName failureBaselineBody payload w = (Some vuln, w'') /\
        scanner.Payload vuln = payload /\
        scanner.URL vuln = URL req /\
        scanner.VulnerabilityType vuln = "SQL Injection (Auth Bypass)")) /\
  (isRedirect resp = true ->
   (exists e, http.Location resp = Err e) \/
   http.Cookies resp = [] \/
   (exists locationURL e w'',
       http.Location resp = Ok locationURL /\
       Client_GetWithCookies locationURL (http.Cookies resp) w' = (Err e, w'')) ->
   fst (authAttempt req paramName failureBaselineBody payload w) = None).
Proof.
  intros Hparams Hbuild Hnew Hdo.
  unfold authAttempt, authParams, isRedirect, redirectKeyword, bind, ret in *.
  rewrite Hparams, Hbuild, Hnew, Hdo.
  split; [|split].
  - intros ->. reflexivity.
  - intros -> locationURL finalResp w'' Hloc Hcookies Hget.
    rewrite Hloc. destruct (http.Cookies resp) as [|c cs] eqn:Ec; [done|].
    rewrite Hget. split.
    + intros ->. reflexivity.
    + intros Hk. destruct (List.find _ redirectSuccessKeywords) as [kw|]; [|done].
      eexists. split; [reflexivity|]. repeat split.
  - intros -> [[e He] | [Hc | (locationURL & e & w'' & Hloc & Hget)]].
    + rewrite He. reflexivity.
    + destruct (http.Location resp); [|reflexivity]. rewrite Hc. reflexivity.
    + rewrite Hloc. destruct (http.Cookies resp) as [|c cs] eqn:Ec; [reflexivity|].
      rewrite Hget. reflexivity.
Qed.

End AuthBypassProbe.

(** ** The time-delay probe *)

Section TimeProbe.
Context `{P : Platform}.
Import crawler.

Lemma saturate64_range z : min_int64 <= saturate64 z <= max_int64.
Proof.
  unfold saturate64, min_int64, max_int64.
  destruct (Z.ltb_spec z (- 2 ^ 63)); [lia|].
  destruct (Z.ltb_spec (2 ^ 63 - 1) z); lia.
Qed.

Lemma wrap64_id z : min_int64 <= z <= max_int64 -> wrap64 z = z.
Proof.
  unfold wrap64, min_int64, max_int64. intros H.
  rewrite Z.mod_small; lia.
Qed.

(** A measured duration is an [int64]. *)
Lemma measureRequestDuration_range req params w d w' :
  measureRequestDuration req params w = (Ok d, w') ->
  min_int64 <= d <= max_int64.
Proof.
  unfold measureRequestDuration, ret, time_Since. intros E.
  repeat (case_match; simplify_eq; try discriminate).
  all: apply saturate64_range.
Qed.

(** Left of its first [{], a template is copied byte for byte. *)
Lemma replaceFrom_no_brace (a rest old' new : string) :
  (forall c, In c (list_ascii_of_string a) -> c <> "{"%char) ->
  GoStrings.replaceFrom (String "{" old') new 0 (a +:+ rest) =
  a +:+ GoStrings.replaceFrom (String "{" old') new 0 rest.
Proof.
  induction a as [|c a IH]; intros Hno.
  - reflexivity.
  - assert (Hc : c <> "{"%char) by (apply Hno; simpl; auto).
    change (String c a +:+ rest) with (String c (a +:+ rest)).
    change (String c a +:+ ?x) with (String c (a +:+ x)).
    cbn [GoStrings.replaceFrom GoStrings.HasPrefix].
    replace (Ascii.eqb "{" c) with false
      by (symmetry; apply Ascii.eqb_neq; congruence).
    f_equal. apply IH. intros c' Hc'. apply Hno. simpl. auto.
Qed.

(** The token itself becomes the digit, and the scan goes on after it. *)
Lemma replace_DELAY_token (rest : string) :
  GoStrings.replaceFrom "{DELAY}" "5" 0 ("{DELAY}" +:+ rest) =
  "5" +:+ GoStrings.replaceFrom "{DELAY}" "5" 0 rest.
Proof. destruct rest; reflexivity. Qed.

Lemma measureRequestDuration_nil req originalParams w :
  getOriginalParams req = Ok originalParams ->
  measureRequestDuration req None w =
  measureRequestDuration req (Some originalParams) w.
Proof. intros E. unfold measureRequestDuration. rewrite E. reflexivity. Qed.

(** One pass of the payload loop, once the injected request has been
    timed. *)
Lemma timeAttempt_timed req paramName originalParams baselineDuration test
    w1 w2 testDuration :
  getOriginalParams req = Ok originalParams ->
  measureRequestDuration req
    (Some (withPayload originalParams paramName
             (GoStrings.ReplaceAll (payloads.PayloadTemplate test) "{DELAY}" "5")))
    w1 = (Ok testDuration, w2) ->
  exists vuln,
    scanner.Payload vuln =
      GoStrings.ReplaceAll (payloads.PayloadTemplate test) "{DELAY}" "5" /\
    scanner.VulnerabilityType vuln = "SQL Injection (Time-Based)" /\
    timeAttempt req paramName baselineDuration test w1 =
    (if duration_add baselineDuration (4 * Second) <? testDuration
     then Some vuln else None, w2).
Proof.
  intros Hparams Hm. unfold timeAttempt, bind, ret, withPayload in *.
  rewrite Hparams, Hm.
  destruct (_ <? _).
  - eexists. split; [|split]. 3: reflexivity. all: reflexivity.
  - exists {| scanner.VulnerabilityType := "SQL Injection (Time-Based)";
              scanner.URL := ""; scanner.Param := paramName;
              scanner.Payload :=
                GoStrings.ReplaceAll (payloads.PayloadTemplate test) "{DELAY}" "5";
              scanner.Details := ""; scanner.Severity := "";
              scanner.Evidence := ""; scanner.Location := "";
              scanner.Remediation := ""; scanner.ScannerName := "" |}.
    repeat split.
Qed.

(** C5: the baseline is the duration of the request with its original
    parameters (the nil-params call falls back to [getOriginalParams]);
    each template has its [{DELAY}] token replaced by [5] and is appended
    to the original value of the parameter; with both requests timed, the
    payload is a hit exactly when the injected duration exceeds the
    baseline by more than four seconds (the sum taken in [int64], here
    within its range); and a failed baseline ends the probe with no hit. *)
Theorem testTimeBased_decision
    req paramName originalParams baselineDuration pre test post
    w0 w w1 w2 testDuration :
  TimeBasedSQLiTests = pre ++ test :: post ->
  getOriginalParams req = Ok originalParams ->
  measureRequestDuration req (Some originalParams) w0 = (Ok baselineDuration, w) ->
  baselineDuration + 4 * Second <= max_int64 ->
  firstHit (timeAttempt req paramName baselineDuration) pre w = (None, w1) ->
  measureRequestDuration req
    (Some (withPayload originalParams paramName
             (GoStrings.ReplaceAll (payloads.PayloadTemplate test) "{DELAY}" "5")))
    w1 = (Ok testDuration, w2) ->
  measureRequestDuration req None w0 = (Ok baselineDuration, w) /\
  (baselineDuration + 4 * Second < testDuration ->
   exists vuln,
     testTimeBased req paramName w0 = (Some vuln, w2) /\
     scanner.Payload vuln =
       GoStrings.ReplaceAll (payloads.PayloadTemplate test) "{DELAY}" "5" /\
     scanner.VulnerabilityType vuln = "SQL Injection (Time-Based)") /\
  (testDuration <= baselineDuration + 4 * Second ->
   testTimeBased req paramName w0 =
   firstHit (timeAttempt req paramName baselineDuration) post w2) /\
  (forall wb e wb',
      measureRequestDuration req None wb = (Err e, wb') ->
      testTimeBased req paramName wb = (None, wb')) /\
  (forall a rest,
      (forall c, In c (list_ascii_of_string a) -> c <> "{"%char) ->
      GoStrings.ReplaceAll (a +:+ "{DELAY}" +:+ rest) "{DELAY}" "5" =
      a +:+ "5" +:+ GoStrings.ReplaceAll rest "{DELAY}" "5").
Proof.
  intros Htests Hparams Hbase Hfit Hpre Hm.
  pose proof (measureRequestDuration_nil req originalParams w0 Hparams) as Hnil.
  rewrite Hbase in Hnil.
  pose proof (measureRequestDuration_range _ _ _ _ _ Hbase) as Hrange.
  destruct (timeAttempt_timed req paramName originalParams baselineDuration
              test w1 w2 testDuration Hparams Hm) as (vuln & Hpay & Hty & Hstep).
  assert (Hadd : duration_add baselineDuration (4 * Second) =
                 baselineDuration + 4 * Second).
  { unfold duration_add. apply wrap64_id.
    unfold Second, min_int64, max_int64 in *. lia. }
  rewrite Hadd in Hstep.
  assert (Hprobe : testTimeBased req paramName w0 =
            match timeAttempt req paramName baselineDuration test w1 with
            | (Some r, w') => (Some r, w')
            | (None, w') =>
                firstHit (timeAttempt req paramName baselineDuration) post w'
            end).
  { unfold testTimeBased, bind. rewrite Hnil, Htests, firstHit_app, Hpre.
    reflexivity. }
  rewrite Hstep in Hprobe.
  split; [exact Hnil|]. split; [|split; [|split]].
  - intros Hlt. apply Z.ltb_lt in Hlt. rewrite Hlt in Hprobe. eauto.
  - intros Hle. apply Z.ltb_ge in Hle. rewrite Hle in Hprobe. exact Hprobe.
  - intros wb e wb' Herr. unfold testTimeBased, bind, ret. rewrite Herr.
    reflexivity.
  - intros a rest Hno. unfold GoStrings.ReplaceAll.
    rewrite replaceFrom_no_brace by exact Hno.
    rewrite replace_DELAY_token. reflexivity.
Qed.

End TimeProbe.

(** ** The response comparator *)

Lemma Q_similarity (d m : Z) :
  0 < m -> ((1 - inject_Z d / inject_Z m < 95 # 100)%Q <-> m < 20 * d).
Proof.
  intros Hm. destruct m as [|p|p]; try lia.
  unfold Qlt, Qminus, Qplus, Qopp, Qdiv, Qmult, Qinv, inject_Z. cbn [Qnum Qden].
  rewrite ?Pos2Z.inj_mul. lia.
Qed.

Lemma Q_growth (o m : Z) :
  ((inject_Z o * (11 # 10) < inject_Z m)%Q <-> 11 * o < 10 * m).
Proof.
  unfold Qlt, Qmult, inject_Z. cbn [Qnum Qden]. lia.
Qed.

Lemma len_nonneg (s : string) : 0 <= len s.
Proof. unfold len. lia. Qed.

Lemma len_zero (s : string) : len s = 0 <-> s = "".
Proof.
  unfold len. destruct s; simpl; split; intros H; try reflexivity;
    try discriminate; lia.
Qed.

Section Comparator.
Context `{P : Platform}.

(** The [maxLen] of [isDifferentResponse] is the larger length. *)
Lemma isDifferentResponse_unfold (original modified : string) :
  isDifferentResponse original modified =
  if Z.max (len original) (len modified) =? 0 then false
  else
    f64_lt
      (f64_sub f64_1_0
         (f64_div (float64_of_int (levenshtein_Distance original modified))
                  (float64_of_int (Z.max (len original) (len modified)))))
      f64_0_95.
Proof.
  unfold isDifferentResponse.
  destruct (Z.ltb_spec (len original) (len modified)).
  - rewrite Z.max_r by lia. reflexivity.
  - rewrite Z.max_l by lia. reflexivity.
Qed.

(** C4: [isDifferentResponse] is false on two empty strings; on any other
    pair it is the binary64 test [1 - distance/maxLen < 0.95], where
    [maxLen] is the larger byte length; and for bodies shorter than [2^48]
    bytes and an edit distance between 0 and [maxLen] that binary64 test
    is the same comparison over the rationals. *)
Theorem isDifferentResponse_similarity (original modified : string) :
  (original = "" -> modified = "" ->
   isDifferentResponse original modified = false) /\
  (Z.max (len original) (len modified) <> 0 ->
   isDifferentResponse original modified =
     f64_lt
       (f64_sub f64_1_0
          (f64_div (float64_of_int (levenshtein_Distance original modified))
                   (float64_of_int (Z.max (len original) (len modified)))))
       f64_0_95) /\
  (0 <= levenshtein_Distance original modified
     <= Z.max (len original) (len modified) ->
   0 < Z.max (len original) (len modified) < 2 ^ 48 ->
   (isDifferentResponse original modified = true <->
    (1 - inject_Z (levenshtein_Distance original modified)
         / inject_Z (Z.max (len original) (len modified)) < 95 # 100)%Q)).
Proof.
  rewrite isDifferentResponse_unfold. split; [|split].
  - intros -> ->. reflexivity.
  - intros Hne.
    destruct (Z.eqb_spec (Z.max (len original) (len modified)) 0) as [E|_];
      [contradiction | reflexivity].
  - intros Hd Hm.
    destruct (Z.eqb_spec (Z.max (len original) (len modified)) 0) as [E|_];
      [lia|].
    rewrite f64_similarity_exact by lia.
    rewrite Q_similarity by lia. apply Z.ltb_lt.
Qed.
End Comparator.

(** ** The content-length probe *)

(** The length test on lengths below [2^48]: growth in exact arithmetic. *)
Lemma lengthIncreased_exact (originalLength modifiedLength : Z) :
  0 <= originalLength < 2 ^ 48 -> 0 <= modifiedLength < 2 ^ 48 ->
  lengthIncreased originalLength modifiedLength =
  (originalLength <? modifiedLength) && (11 * originalLength <? 10 * modifiedLength).
Proof.
  intros Ho Hm.
  destruct (Z.eq_dec originalLength 0) as [->|Hnz].
  - rewrite lengthIncreased_zero.
    destruct (Z.ltb_spec 0 modifiedLength); simpl; [|reflexivity].
    symmetry. apply Z.ltb_lt. lia.
  - unfold lengthIncreased.
    destruct (Z.ltb_spec originalLength modifiedLength); [|reflexivity].
    simpl. apply f64_growth_exact; lia.
Qed.

Section ContentProbe.
Context `{P : Platform}.
Import crawler.

(** One pass of the payload loop, once the injected request has
    succeeded. *)
Lemma contentAttempt_sent req paramName originalParams originalLength payload
    w1 w2 st1 modifiedBody :
  sendRequest req (withPayload originalParams paramName payload) w1
    = (Ok (st1, modifiedBody), w2) ->
  exists vuln,
    scanner.Payload vuln = payload /\
    scanner.VulnerabilityType vuln = "SQL Injection (Content-Based)" /\
    contentAttempt req paramName originalParams originalLength payload w1 =
    (if lengthIncreased originalLength (len modifiedBody)
     then Some vuln else None, w2).
Proof.
  intros Es. unfold contentAttempt, bind, ret, withPayload in *.
  rewrite copyParams_id, Es.
  destruct (lengthIncreased _ _).
  - eexists. split; [|split]. 3: reflexivity. all: reflexivity.
  - exists {| scanner.VulnerabilityType := "SQL Injection (Content-Based)";
              scanner.URL := ""; scanner.Param := paramName;
              scanner.Payload := payload;
              scanner.Details := ""; scanner.Severity := "";
              scanner.Evidence := ""; scanner.Location := "";
              scanner.Remediation := ""; scanner.ScannerName := "" |}.
    repeat split.
Qed.

Lemma testContentBased_step req paramName originalParams st0 originalBody
    pre payload post wi w w1 :
  bypassPayloads = pre ++ payload :: post ->
  getOriginalParams req = Ok originalParams ->
  sendRequest req originalParams wi = (Ok (st0, originalBody), w) ->
  firstHit (contentAttempt req paramName originalParams (len originalBody)) pre w
    = (None, w1) ->
  testContentBased req paramName wi =
  match contentAttempt req paramName originalParams (len originalBody) payload w1 with
  | (Some r, w') => (Some r, w')
  | (None, w') =>
      firstHit (contentAttempt req paramName originalParams (len originalBody))
        post w'
  end.
Proof.
  intros Hlist Hparams Hbase Hpre.
  unfold testContentBased, bind. rewrite Hparams, Hbase, Hlist.
  rewrite firstHit_app, Hpre. reflexivity.
Qed.

(** C6: the probe tries the six fixed payloads in their order, each
    appended to the original value; a payload whose injected request
    succeeds is a hit exactly when the injected body is longer than the
    baseline body and its length, as a binary64 number, exceeds the
    binary64 product of the baseline length and 1.1 (for bodies shorter
    than [2^48] bytes: exactly when it exceeds 1.1 times the baseline
    length); lengths are counted in bytes; a hit ends the probe with that
    payload, and otherwise the payloads that follow are tried. *)
Theorem testContentBased_decision
    req paramName originalParams st0 originalBody pre payload post
    wi w w1 w2 st1 modifiedBody :
  bypassPayloads = pre ++ payload :: post ->
  getOriginalParams req = Ok originalParams ->
  sendRequest req originalParams wi = (Ok (st0, originalBody), w) ->
  firstHit (contentAttempt req paramName originalParams (len originalBody)) pre w
    = (None, w1) ->
  sendRequest req (withPayload originalParams paramName payload) w1
    = (Ok (st1, modifiedBody), w2) ->
  bypassPayloads =
    [ "' OR 1=1--"; "' OR '1'='1'--"; " OR 1=1--"; "') OR 1=1--";
      " OR 1=1#"; "' OR 1=1#" ] /\
  lengthIncreased (len originalBody) (len modifiedBody) =
    (len originalBody <? len modifiedBody)
    && f64_lt (f64_mul (float64_of_int (len originalBody)) f64_1_1)
              (float64_of_int (len modifiedBody)) /\
  (len originalBody < 2 ^ 48 -> len modifiedBody < 2 ^ 48 ->
   (lengthIncreased (len originalBody) (len modifiedBody) = true <->
    (inject_Z (len originalBody) * (11 # 10) < inject_Z (len modifiedBody))%Q /\
    len originalBody < len modifiedBody)) /\
  (lengthIncreased (len originalBody) (len modifiedBody) = true ->
   exists vuln,
     testContentBased req paramName wi = (Some vuln, w2) /\
     scanner.Payload vuln = payload /\
     scanner.VulnerabilityType vuln = "SQL Injection (Content-Based)") /\
  (lengthIncreased (len originalBody) (len modifiedBody) = false ->
   testContentBased req paramName wi =
   firstHit (contentAttempt req paramName originalParams (len originalBody))
     post w2).
Proof.
  intros Hlist Hparams Hbase Hpre Es.
  pose proof (len_nonneg originalBody). pose proof (len_nonneg modifiedBody).
  destruct (contentAttempt_sent req paramName originalParams (len originalBody)
              payload w1 w2 st1 modifiedBody Es) as (vuln & Hpay & Hty & Hstep).
  pose proof (testContentBased_step req paramName originalParams st0 originalBody
                pre payload post wi w w1 Hlist Hparams Hbase Hpre) as Hprobe.
  rewrite Hstep in Hprobe.
  split; [reflexivity|]. split; [reflexivity|]. split; [|split].
  - intros Ho Hm. rewrite lengthIncreased_exact by lia. rewrite Q_growth.
    rewrite andb_true_iff, !Z.ltb_lt. tauto.
  - intros Hc. rewrite Hc in Hprobe. eauto.
  - intros Hc. rewrite Hc in Hprobe. exact Hprobe.
Qed.

(** C10: when the baseline body is empty the length test is just
    [modifiedLength > 0]: a payload misses only if its request fails or
    its body is empty too, and the first payload answered with a
    non-empty body gives a Content-Based finding. *)
Theorem testContentBased_empty_baseline
    req paramName originalParams st0 pre payload post
    wi w w1 w2 st1 modifiedBody :
  bypassPayloads = pre ++ payload :: post ->
  getOriginalParams req = Ok originalParams ->
  sendRequest req originalParams wi = (Ok (st0, ""), w) ->
  firstHit (contentAttempt req paramName originalParams 0) pre w = (None, w1) ->
  sendRequest req (withPayload originalParams paramName payload) w1
    = (Ok (st1, modifiedBody), w2) ->
  modifiedBody <> "" ->
  (forall modifiedLength,
      lengthIncreased 0 modifiedLength = (0 <? modifiedLength)) /\
  (forall earlier w',
      fst (contentAttempt req paramName originalParams 0 earlier w') = None <->
      (exists e,
          fst (sendRequest req (withPayload originalParams paramName earlier) w')
          = Err e) \/
      (exists st,
          fst (sendRequest req (withPayload originalParams paramName earlier) w')
          = Ok (st, ""))) /\
  exists vuln,
    testContentBased req paramName wi = (Some vuln, w2) /\
    scanner.Payload vuln = payload /\
    scanner.VulnerabilityType vuln = "SQL Injection (Content-Based)".
Proof.
  intros Hlist Hparams Hbase Hpre Es Hne.
  split; [exact lengthIncreased_zero|]. split.
  - intros earlier w'.
    destruct (sendRequest req (withPayload originalParams paramName earlier) w')
      as [[[st body]|e] w''] eqn:E.
    + destruct (contentAttempt_sent req paramName originalParams 0 earlier
                  w' w'' st body E) as (v & _ & _ & ->).
      rewrite lengthIncreased_zero. simpl.
      destruct (Z.ltb_spec 0 (len body)) as [Hpos|Hz]; simpl.
      * split; [discriminate|].
        intros [[e He]|[st' He]]; [discriminate|].
        inversion He; subst. simpl in Hpos. unfold len in Hpos. simpl in Hpos. lia.
      * split; [|reflexivity]. intros _. right. exists st.
        pose proof (len_nonneg body).
        assert (Hb : body = "") by (apply len_zero; lia).
        rewrite Hb. reflexivity.
    + unfold contentAttempt, bind, ret, withPayload in *.
      rewrite copyParams_id, E. simpl. split; [|reflexivity].
      intros _. left. eauto.
  - destruct (contentAttempt_sent req paramName originalParams 0
                payload w1 w2 st1 modifiedBody Es) as (vuln & Hpay & Hty & Hstep).
    pose proof (testContentBased_step req paramName originalParams st0 ""
                  pre payload post wi w w1 Hlist Hparams Hbase Hpre) as Hprobe.
    change (len "") with 0 in Hprobe. rewrite Hstep in Hprobe.
    rewrite lengthIncreased_zero in Hprobe.
    assert (Hpos : 0 < len modifiedBody).
    { pose proof (len_nonneg modifiedBody).
      destruct (Z.eq_dec (len modifiedBody) 0) as [Hz|Hz]; [|lia].
      apply len_zero in Hz. contradiction. }
    apply Z.ltb_lt in Hpos. rewrite Hpos in Hprobe. eauto.
Qed.

End ContentProbe.

(** * Further properties of the scanner *)

(** ** Where a finding comes from *)

Section Origins.
Context `{P : Platform}.
Import crawler.

Ltac crunch_hit :=
  unfold ret, bind in *;
  repeat (case_match; simplify_eq; try discriminate);
  simplify_eq.

(** A finding of a loop was returned by one pass of its body. *)
Lemma firstHit_origin {A R : Type} (body : A -> IO (option R)) xs w r w' :
  firstHit body xs w = (Some r, w') ->
  exists x w0, In x xs /\ body x w0 = (Some r, w').
Proof.
  revert w. induction xs as [|x xs IH]; intros w E; simpl in E.
  - discriminate.
  - destruct (body x w) as [[r0|] w0] eqn:Ex.
    + inversion E; subst. exists x, w. split; [left; reflexivity | exact Ex].
    + destruct (IH _ E) as (y & w1 & Hin & Hy). exists y, w1. split; [right|]; done.
Qed.

(** [find] returns the first element that passes the test. *)
Lemma find_first_split {A : Type} (f : A -> bool) (l : list A) (x : A) :
  List.find f l = Some x ->
  exists skipped later,
    l = skipped ++ x :: later /\
    Forall (fun y => f y = false) skipped /\
    f x = true.
Proof.
  induction l as [|a l IH]; simpl; [discriminate|].
  destruct (f a) eqn:Ea.
  - intros [= <-]. exists [], l. repeat split; [constructor | exact Ea].
  - intros E. destruct (IH E) as (skipped & later & -> & Hall & Hx).
    exists (a :: skipped), later. repeat split; [constructor; assumption | exact Hx].
Qed.

Lemma errorAttempt_hit req paramName payload w v w' :
  errorAttempt req paramName payload w = (Some v, w') ->
  exists originalParams st body pattern,
    getOriginalParams req = Ok originalParams /\
    sendRequest req (withPayload originalParams paramName payload) w
      = (Ok (st, body), w') /\
    List.find (fun pattern => regexp_MatchString pattern body) SQLiErrorPatterns
      = Some pattern /\
    v = {|
      scanner.VulnerabilityType := "SQL Injection (Error-Based)";
      scanner.URL := testURLOf req (withPayload originalParams paramName payload);
      scanner.Param := paramName;
      scanner.Payload := payload;
      scanner.Details := "A database error message was detected in the response, indicating a potential SQL injection vulnerability.";
      scanner.Severity := "High";
      scanner.Evidence := regexp_FindString pattern body;
      scanner.Location := getParamLocation req;
      scanner.Remediation := "Use parameterized queries (prepared statements).";
      scanner.ScannerName := Name
    |}.
Proof.
  unfold errorAttempt, withPayload, bind, ret. intros E.
  destruct (getOriginalParams req) as [params|e]; [|discriminate].
  destruct (sendRequest req _ w) as [[[st body]|e] w0] eqn:Es; [|discriminate].
  destruct (List.find _ SQLiErrorPatterns) as [pattern|] eqn:Ef; [|discriminate].
  inversion E; subst. exists params, st, body, pattern. repeat split; try done.
Qed.

Lemma timeAttempt_hit req paramName baselineDuration test w v w' :
  timeAttempt req paramName baselineDuration test w = (Some v, w') ->
  exists originalParams testDuration,
    getOriginalParams req = Ok originalParams /\
    measureRequestDuration req
      (Some (withPayload originalParams paramName
               (GoStrings.ReplaceAll (payloads.PayloadTemplate test) "{DELAY}" "5"))) w
      = (Ok testDuration, w') /\
    duration_add baselineDuration (4 * Second) < testDuration /\
    v = {|
      scanner.VulnerabilityType := "SQL Injection (Time-Based)";
      scanner.URL :=
        testURLOf req
          (withPayload originalParams paramName
             (GoStrings.ReplaceAll (payloads.PayloadTemplate test) "{DELAY}" "5"));
      scanner.Param := paramName;
      scanner.Payload :=
        GoStrings.ReplaceAll (payloads.PayloadTemplate test) "{DELAY}" "5";
      scanner.Details :=
        fmt_Sprintf "A time delay of %.2f seconds was detected (baseline: %.2f seconds)."
          [ ArgFloat (Duration_Seconds testDuration);
            ArgFloat (Duration_Seconds baselineDuration) ];
      scanner.Severity := "High";
      scanner.Evidence :=
        fmt_Sprintf "Response time: %s" [ ArgDuration testDuration ];
      scanner.Location := getParamLocation req;
      scanner.Remediation := "Use parameterized queries (prepared statements).";
      scanner.ScannerName := Name
    |}.
Proof.
  unfold timeAttempt, withPayload, bind, ret. intros E.
  destruct (getOriginalParams req) as [params|e]; [|discriminate].
  destruct (measureRequestDuration req _ w) as [[d|e] w0] eqn:Em; [|discriminate].
  destruct (Z.ltb_spec (duration_add baselineDuration (4 * Second)) d);
    [|discriminate].
  inversion E; subst. exists params, d. repeat split; try done.
Qed.

Lemma booleanAttempt_hit req paramName originalParams originalBody test w v w' :
  booleanAttempt req paramName originalParams originalBody test w = (Some v, w') ->
  exists st1 trueBody w1 st2 falseBody,
    sendRequest req (withPayload originalParams paramName (payloads.TruePayload test)) w
      = (Ok (st1, trueBody), w1) /\
    sendRequest req (withPayload originalParams paramName (payloads.FalsePayload test)) w1
      = (Ok (st2, falseBody), w') /\
    isDifferentResponse originalBody trueBody = false /\
    isDifferentResponse originalBody falseBody = true /\
    v = {|
      scanner.VulnerabilityType := "SQL Injection (Boolean-Based)";
      scanner.URL :=
        testURLOf req
          (withPayload originalParams paramName (payloads.TruePayload test));
      scanner.Param := paramName;
      scanner.Payload := payloads.TruePayload test;
      scanner.Details := "The application's response was different when a logically false SQL condition was injected compared to a true one.";
      scanner.Severity := "High";
      scanner.Evidence := "Response for TRUE condition was similar to original, while response for FALSE was different.";
      scanner.Location := getParamLocation req;
      scanner.Remediation := "Use parameterized queries (prepared statements).";
      scanner.ScannerName := Name
    |}.
Proof.
  unfold booleanAttempt, withPayload, bind, ret. rewrite !copyParams_id. intros E.
  destruct (sendRequest req _ w) as [[[st1 trueBody]|e] w1] eqn:Et; [|discriminate].
  destruct (sendRequest req _ w1) as [[[st2 falseBody]|e] w2] eqn:Ef; [|discriminate].
  destruct (isDifferentResponse originalBody trueBody) eqn:Dt; [discriminate|].
  destruct (isDifferentResponse originalBody falseBody) eqn:Df; [|discriminate].
  simpl in E. inversion E; subst.
  exists st1, trueBody, w1, st2, falseBody. repeat split; try done.
Qed.

Lemma contentAttempt_hit req paramName originalParams originalLength payload w v w' :
  contentAttempt req paramName originalParams originalLength payload w = (Some v, w') ->
  exists st modifiedBody,
    sendRequest req (withPayload originalParams paramName payload) w
      = (Ok (st, modifiedBody), w') /\
    lengthIncreased originalLength (len modifiedBody) = true /\
    v = {|
      scanner.VulnerabilityType := "SQL Injection (Content-Based)";
      scanner.URL := testURLOf req (withPayload originalParams paramName payload);
      scanner.Param := paramName;
      scanner.Payload := payload;
      scanner.Details :=
        fmt_Sprintf "The response length increased significantly (from %d to %d bytes) after injecting a bypass payload, suggesting the query returned additional data."
          [ ArgInt originalLength; ArgInt (len modifiedBody) ];
      scanner.Severity := "High";
      scanner.Evidence :=
        fmt_Sprintf "Original Length: %d, Injected Length: %d"
          [ ArgInt originalLength; ArgInt (len modifiedBody) ];
      scanner.Location := getParamLocation req;
      scanner.Remediation := "Use parameterized queries (prepared statements).";
      scanner.ScannerName := Name
    |}.
Proof.
  unfold contentAttempt, withPayload, bind, ret. rewrite !copyParams_id. intros E.
  destruct (sendRequest req _ w) as [[[st body]|e] w1] eqn:Es; [|discriminate].
  destruct (lengthIncreased originalLength (len body)) eqn:Dl; [|discriminate].
  inversion E; subst. exists st, body. repeat split; try done.
Qed.

(** What every finding of the authentication probe has in common. *)
Lemma contentChangeCheck_hit req paramName baseline payload resp v :
  contentChangeCheck req paramName baseline payload resp = Some v ->
  http.BodyErr resp = None /\
  isDifferentResponse baseline (http.Body resp) = true /\
  scanner.VulnerabilityType v = "SQL Injection (Auth Bypass)" /\
  scanner.URL v = URL req /\
  scanner.Param v = paramName /\
  scanner.Payload v = payload /\
  scanner.Severity v = "High" /\
  scanner.Location v = getParamLocation req /\
  scanner.Remediation v = "Use parameterized queries for all database interactions." /\
  scanner.ScannerName v = Name.
Proof.
  unfold contentChangeCheck. intros E.
  destruct (http.BodyErr resp); [discriminate|].
  destruct (isDifferentResponse baseline (http.Body resp)); [|discriminate].
  destruct (List.find _ bodySuccessKeywords); [|discriminate].
  inversion E; subst. repeat split.
Qed.

Lemma authAttempt_hit req paramName baseline payload w v w' :
  authAttempt req paramName baseline payload w = (Some v, w') ->
  scanner.VulnerabilityType v = "SQL Injection (Auth Bypass)" /\
  scanner.URL v = URL req /\
  scanner.Param v = paramName /\
  scanner.Payload v = payload /\
  scanner.Severity v = "High" /\
  scanner.Location v = getParamLocation req /\
  scanner.Remediation v = "Use parameterized queries for all database interactions." /\
  scanner.ScannerName v = Name.
Proof.
  unfold authAttempt. intros E. crunch_hit;
    try (match goal with
         | H : contentChangeCheck _ _ _ _ _ = Some _ |- _ =>
             apply contentChangeCheck_hit in H; tauto
         end);
    repeat split.
Qed.


Lemma testErrorBased_origin req paramName w v w' :
  testErrorBased req paramName w = (Some v, w') ->
  exists payload w0,
    In payload SQLiPayloads /\
    errorAttempt req paramName payload w0 = (Some v, w').
Proof. unfold testErrorBased. apply firstHit_origin. Qed.

Lemma testTimeBased_origin req paramName w v w' :
  testTimeBased req paramName w = (Some v, w') ->
  exists baselineDuration test w0,
    In test TimeBasedSQLiTests /\
    timeAttempt req paramName baselineDuration test w0 = (Some v, w').
Proof.
  unfold testTimeBased, bind, ret. intros E.
  destruct (measureRequestDuration req None w) as [[b|e] w0]; [|discriminate].
  apply firstHit_origin in E as (test & w1 & Hin & Ht). eauto.
Qed.

Lemma testBooleanBased_origin req paramName w v w' :
  testBooleanBased req paramName w = (Some v, w') ->
  exists originalParams originalBody test w0,
    getOriginalParams req = Ok originalParams /\
    In test BooleanSQLiTests /\
    booleanAttempt req paramName originalParams originalBody test w0 = (Some v, w').
Proof.
  unfold testBooleanBased, bind, ret. intros E.
  destruct (getOriginalParams req) as [params|e]; [|discriminate].
  destruct (sendRequest req params w) as [[[st body]|e] w0]; [|discriminate].
  apply firstHit_origin in E as (test & w1 & Hin & Ht).
  exists params, body, test, w1. done.
Qed.

Lemma testContentBased_origin req paramName w v w' :
  testContentBased req paramName w = (Some v, w') ->
  exists originalParams originalLength payload w0,
    getOriginalParams req = Ok originalParams /\
    In payload bypassPayloads /\
    contentAttempt req paramName originalParams originalLength payload w0
      = (Some v, w').
Proof.
  unfold testContentBased, bind, ret. intros E.
  destruct (getOriginalParams req) as [params|e]; [|discriminate].
  destruct (sendRequest req params w) as [[[st body]|e] w0]; [|discriminate].
  apply firstHit_origin in E as (payload & w1 & Hin & Ht).
  exists params, (len body), payload, w1. done.
Qed.

Lemma testAuthBypass_origin req paramName w v w' :
  testAuthBypass req paramName w = (Some v, w') ->
  loginUserParams !! strings_ToLower paramName = Some true /\
  exists failureBaselineBody payload w0,
    In payload authBypassPayloads /\
    authAttempt req paramName failureBaselineBody payload w0 = (Some v, w').
Proof.
  unfold testAuthBypass, bind, ret. intros E.
  destruct (negb (default false (loginUserParams !! strings_ToLower paramName)))
    eqn:Hn; [discriminate|].
  destruct (getOriginalParams req) as [params|e]; [|discriminate].
  destruct (sendRequest req _ w) as [[[st body]|e] w0]; [|discriminate].
  apply firstHit_origin in E as (payload & w1 & Hin & Ht).
  split; [|eauto].
  destruct (loginUserParams !! strings_ToLower paramName) as [[|]|];
    simpl in Hn; try discriminate. reflexivity.
Qed.

(** The probe that gave the finding of a parameter, with the probes that
    ran before it and found nothing. *)
Lemma probeParam_cases req paramName w v w' :
  probeParam req paramName w = (Some v, w') ->
  testErrorBased req paramName w = (Some v, w') \/
  (exists w1,
      testErrorBased req paramName w = (None, w1) /\
      (testTimeBased req paramName w1 = (Some v, w') \/
       exists w2,
         testTimeBased req paramName w1 = (None, w2) /\
         (testBooleanBased req paramName w2 = (Some v, w') \/
          exists w3,
            testBooleanBased req paramName w2 = (None, w3) /\
            (testContentBased req paramName w3 = (Some v, w') \/
             exists w4,
               testContentBased req paramName w3 = (None, w4) /\
               testAuthBypass req paramName w4 = (Some v, w'))))).
Proof.
  unfold probeParam, bind, ret. intros E.
  destruct (testErrorBased req paramName w) as [[v1|] w1] eqn:E1.
  { inversion E; subst. left. reflexivity. }
  right. exists w1. split; [reflexivity|].
  destruct (testTimeBased req paramName w1) as [[v2|] w2] eqn:E2.
  { inversion E; subst. left. reflexivity. }
  right. exists w2. split; [reflexivity|].
  destruct (testBooleanBased req paramName w2) as [[v3|] w3] eqn:E3.
  { inversion E; subst. left. reflexivity. }
  right. exists w3. split; [reflexivity|].
  destruct (testContentBased req paramName w3) as [[v4|] w4] eqn:E4.
  { inversion E; subst. left. reflexivity. }
  right. exists w4. split; [reflexivity | exact E].
Qed.

(** The type each probe gives its findings. *)
Lemma testErrorBased_type req paramName w v w' :
  testErrorBased req paramName w = (Some v, w') ->
  scanner.VulnerabilityType v = "SQL Injection (Error-Based)".
Proof.
  intros E. apply testErrorBased_origin in E as (payload & w0 & _ & E).
  apply errorAttempt_hit in E as (? & ? & ? & ? & _ & _ & _ & ->). reflexivity.
Qed.

Lemma testTimeBased_type req paramName w v w' :
  testTimeBased req paramName w = (Some v, w') ->
  scanner.VulnerabilityType v = "SQL Injection (Time-Based)".
Proof.
  intros E. apply testTimeBased_origin in E as (b & test & w0 & _ & E).
  apply timeAttempt_hit in E as (? & ? & _ & _ & _ & ->). reflexivity.
Qed.

Lemma testBooleanBased_type req paramName w v w' :
  testBooleanBased req paramName w = (Some v, w') ->
  scanner.VulnerabilityType v = "SQL Injection (Boolean-Based)".
Proof.
  intros E. apply testBooleanBased_origin in E as (? & ? & ? & ? & _ & _ & E).
  apply booleanAttempt_hit in E as (? & ? & ? & ? & ? & _ & _ & _ & _ & ->).
  reflexivity.
Qed.

Lemma testContentBased_type req paramName w v w' :
  testContentBased req paramName w = (Some v, w') ->
  scanner.VulnerabilityType v = "SQL Injection (Content-Based)".
Proof.
  intros E. apply testContentBased_origin in E as (? & ? & ? & ? & _ & _ & E).
  apply contentAttempt_hit in E as (? & ? & _ & _ & ->). reflexivity.
Qed.

Lemma testAuthBypass_type req paramName w v w' :
  testAuthBypass req paramName w = (Some v, w') ->
  scanner.VulnerabilityType v = "SQL Injection (Auth Bypass)".
Proof.
  intros E. apply testAuthBypass_origin in E as (_ & ? & ? & ? & _ & E).
  apply authAttempt_hit in E. tauto.
Qed.

(** Every finding of the loop is one it started with or the finding of a
    probed parameter. *)
Lemma ParamLoop_origin req paramNames :
  forall findings w out w',
    ParamLoop req paramNames findings w = (out, w') ->
    forall v, In v out ->
      In v findings \/
      exists paramName w0 w1,
        In paramName (probedNames paramNames) /\
        probeParam req paramName w0 = (Some v, w1).
Proof.
  induction paramNames as [|paramName rest IH]; intros findings w out w' E v Hv;
    simpl in E.
  - inversion E; subst. left. exact Hv.
  - unfold probedNames in *. simpl.
    destruct (ignoredParams !! strings_ToLower paramName) as [b|] eqn:Ei.
    + eauto.
    + unfold bind in E.
      destruct (probeParam req paramName w) as [[vuln|] w0] eqn:Ep.
      * destruct (IH _ _ _ _ E v Hv) as [Hin | (p & wa & wb & Hp & Hrun)].
        -- apply in_app_or in Hin as [Hin | [<- | []]]; [left; exact Hin|].
           right. exists paramName, w, w0. split; [left; reflexivity | exact Ep].
        -- right. exists p, wa, wb. split; [right; exact Hp | exact Hrun].
      * destruct (IH _ _ _ _ E v Hv) as [Hin | (p & wa & wb & Hp & Hrun)].
        -- left. exact Hin.
        -- right. exists p, wa, wb. split; [right; exact Hp | exact Hrun].
Qed.

Lemma Scan_origin req w v :
  In v (fst (fst (Scan req w))) ->
  exists paramName w0 w1,
    In paramName (probedNames (ParamNames req)) /\
    probeParam req paramName w0 = (Some v, w1).
Proof.
  unfold Scan, ret, bind.
  destruct (negb _ && negb _); [intros []|].
  destruct (existsb _ specialPaths); [intros []|].
  destruct (ParamLoop req (ParamNames req) [] w) as [out w'] eqn:E.
  simpl. intros Hv.
  destruct (ParamLoop_origin _ _ _ _ _ _ E v Hv) as [[] | H]. exact H.
Qed.

(** [Scan] only probes GET and POST requests. *)
Lemma Scan_method req w v :
  In v (fst (fst (Scan req w))) -> Method req = "GET" \/ Method req = "POST".
Proof.
  unfold Scan, ret, bind.
  destruct (String.eqb_spec (Method req) "GET") as [Hg|Hg]; [left; exact Hg|].
  destruct (String.eqb_spec (Method req) "POST") as [Hp|Hp]; [right; exact Hp|].
  simpl. intros [].
Qed.

(** The URL of a test request, by method. *)
Lemma testURLOf_GET req originalParams :
  Method req = "GET" ->
  getOriginalParams req = Ok originalParams ->
  exists u,
    url_Parse (URL req) = Ok u /\
    originalParams = URL_Query u /\
    forall params,
      testURLOf req params = URL_String (URL_setRawQuery u (Values_Encode params)).
Proof.
  unfold getOriginalParams, testURLOf, buildRequestComponents. intros -> E.
  simpl in *. destruct (url_Parse (URL req)) as [u|e]; [|discriminate].
  inversion E; subst. exists u. repeat split.
Qed.

Lemma testURLOf_other req params :
  Method req <> "GET" -> testURLOf req params = URL req.
Proof.
  unfold testURLOf, buildRequestComponents. intros Hm.
  apply String.eqb_neq in Hm. rewrite Hm. reflexivity.
Qed.

End Origins.

(** ** What every finding carries *)

Section Findings.
Context `{P : Platform}.
Import crawler.

Lemma loginUserParams_names (name : string) (b : bool) :
  loginUserParams !! name = Some b ->
  In name [ "username"; "user"; "email"; "login" ].
Proof.
  unfold loginUserParams. simpl.
  rewrite !lookup_insert_Some, lookup_empty. simpl. intuition congruence.
Qed.

(** What the finding of a parameter looks like, probe by probe. *)
Lemma probeParam_finding req paramName w v w' :
  probeParam req paramName w = (Some v, w') ->
  scanner.Param v = paramName /\
  scanner.Severity v = "High" /\
  scanner.ScannerName v = Name /\
  scanner.Location v = getParamLocation req /\
  ((scanner.VulnerabilityType v = "SQL Injection (Error-Based)" /\
    In (scanner.Payload v) SQLiPayloads /\
    scanner.Remediation v = "Use parameterized queries (prepared statements)." /\
    exists originalParams,
      getOriginalParams req = Ok originalParams /\
      scanner.URL v =
        testURLOf req (withPayload originalParams paramName (scanner.Payload v))) \/
   (scanner.VulnerabilityType v = "SQL Injection (Time-Based)" /\
    In (scanner.Payload v)
       (map (fun test =>
               GoStrings.ReplaceAll (payloads.PayloadTemplate test) "{DELAY}" "5")
          TimeBasedSQLiTests) /\
    scanner.Remediation v = "Use parameterized queries (prepared statements)." /\
    exists originalParams,
      getOriginalParams req = Ok originalParams /\
      scanner.URL v =
        testURLOf req (withPayload originalParams paramName (scanner.Payload v))) \/
   (scanner.VulnerabilityType v = "SQL Injection (Boolean-Based)" /\
    In (scanner.Payload v) (map payloads.TruePayload BooleanSQLiTests) /\
    scanner.Remediation v = "Use parameterized queries (prepared statements)." /\
    exists originalParams,
      getOriginalParams req = Ok originalParams /\
      scanner.URL v =
        testURLOf req (withPayload originalParams paramName (scanner.Payload v))) \/
   (scanner.VulnerabilityType v = "SQL Injection (Content-Based)" /\
    In (scanner.Payload v) bypassPayloads /\
    scanner.Remediation v = "Use parameterized queries (prepared statements)." /\
    exists originalParams,
      getOriginalParams req = Ok originalParams /\
      scanner.URL v =
        testURLOf req (withPayload originalParams paramName (scanner.Payload v))) \/
   (scanner.VulnerabilityType v = "SQL Injection (Auth Bypass)" /\
    In (scanner.Payload v) authBypassPayloads /\
    scanner.Remediation v = "Use parameterized queries for all database interactions." /\
    scanner.URL v = URL req /\
    In (strings_ToLower paramName) [ "username"; "user"; "email"; "login" ])).
Proof.
  intros E.
  destruct (probeParam_cases _ _ _ _ _ E)
    as [E1 | (w1 & _ & [E2 | (w2 & _ & [E3 | (w3 & _ & [E4 | (w4 & _ & E5)])])])].
  - apply testErrorBased_origin in E1 as (payload & w0 & Hin & E1).
    apply errorAttempt_hit in E1 as (params & st & body & pat & Hp & _ & _ & ->).
    simpl. repeat split. left. repeat split; try done. eauto.
  - apply testTimeBased_origin in E2 as (b & test & w0 & Hin & E2).
    apply timeAttempt_hit in E2 as (params & d & Hp & _ & _ & ->).
    simpl. repeat split. right; left. repeat split; try done; [|eauto].
    apply in_map_iff. eauto.
  - apply testBooleanBased_origin in E3 as (params & body & test & w0 & Hp & Hin & E3).
    apply booleanAttempt_hit in E3 as (? & ? & ? & ? & ? & _ & _ & _ & _ & ->).
    simpl. repeat split. right; right; left. repeat split; try done; [|eauto].
    apply in_map_iff. eauto.
  - apply testContentBased_origin in E4 as (params & n & payload & w0 & Hp & Hin & E4).
    apply contentAttempt_hit in E4 as (? & ? & _ & _ & ->).
    simpl. repeat split. right; right; right; left. repeat split; try done. eauto.
  - apply testAuthBypass_origin in E5 as (Hl & b & payload & w0 & Hin & E5).
    apply authAttempt_hit in E5 as (Hty & Hu & Hpa & Hpl & Hs & Hlo & Hr & Hn).
    subst. repeat split; try done. right; right; right; right.
    repeat split; try done. eapply loginUserParams_names; eauto.
Qed.

Lemma Scan_Forall req w (Q : scanner.VulnerabilityResult -> Prop) :
  (forall paramName w0 v w1,
      probeParam req paramName w0 = (Some v, w1) -> Q v) ->
  Forall Q (fst (fst (Scan req w))).
Proof.
  intros H. apply List.Forall_forall. intros v Hv.
  apply Scan_origin in Hv as (p & w0 & w1 & _ & E). eauto.
Qed.

(** X4: every finding of [Scan] has severity High, carries the scanner's
    name, and locates the parameter by the request's method: in the query
    of a GET request, in the body of a POST request; its remediation is one
    of the two fixed texts. *)
Theorem Scan_findings_fixed_fields req w :
  Forall
    (fun v =>
       scanner.Severity v = "High" /\
       scanner.ScannerName v = "Advanced SQL Injection Scanner" /\
       (Method req = "GET" -> scanner.Location v = "query") /\
       (Method req = "POST" -> scanner.Location v = "body") /\
       (scanner.Remediation v = "Use parameterized queries (prepared statements)." \/
        scanner.Remediation v = "Use parameterized queries for all database interactions."))
    (fst (fst (Scan req w))).
Proof.
  apply Scan_Forall. intros paramName w0 v w1 E.
  apply probeParam_finding in E as (_ & Hs & Hn & Hl & Hcases).
  split; [exact Hs|]. split; [exact Hn|].
  rewrite Hl. unfold getParamLocation.
  split; [intros ->; reflexivity|]. split; [intros ->; reflexivity|].
  destruct Hcases as [H|[H|[H|[H|H]]]]; tauto.
Qed.

(** X2: the type of a finding tells where its payload comes from: the
    error-based catalog, a time-based template with its delay token
    replaced by 5, the TRUE side of a boolean pair, the six content
    payloads, or the three login payloads; and an authentication bypass is
    only ever reported for a parameter whose lowercased name is username,
    user, email or login. *)
Theorem Scan_findings_payload_provenance req w :
  Forall
    (fun v =>
       (scanner.VulnerabilityType v = "SQL Injection (Error-Based)" /\
        In (scanner.Payload v) SQLiPayloads) \/
       (scanner.VulnerabilityType v = "SQL Injection (Time-Based)" /\
        In (scanner.Payload v)
           (map (fun test =>
                   GoStrings.ReplaceAll (payloads.PayloadTemplate test) "{DELAY}" "5")
              TimeBasedSQLiTests)) \/
       (scanner.VulnerabilityType v = "SQL Injection (Boolean-Based)" /\
        In (scanner.Payload v) (map payloads.TruePayload BooleanSQLiTests)) \/
       (scanner.VulnerabilityType v = "SQL Injection (Content-Based)" /\
        In (scanner.Payload v)
           [ "' OR 1=1--"; "' OR '1'='1'--"; " OR 1=1--"; "') OR 1=1--";
             " OR 1=1#"; "' OR 1=1#" ]) \/
       (scanner.VulnerabilityType v = "SQL Injection (Auth Bypass)" /\
        In (scanner.Payload v) [ "admin'--"; "administrator'--"; "' OR 1=1--" ] /\
        In (strings_ToLower (scanner.Param v))
           [ "username"; "user"; "email"; "login" ]))
    (fst (fst (Scan req w))).
Proof.
  apply Scan_Forall. intros paramName w0 v w1 E.
  apply probeParam_finding in E as (Hp & _ & _ & _ & Hcases). rewrite Hp.
  destruct Hcases as [H|[H|[H|[H|H]]]]; tauto.
Qed.

(** X3: the URL of a finding.  For a POST request, and for every
    authentication bypass, it is the URL of the request as given.  For any
    other finding of a GET request it is the request's URL with its query
    replaced by the encoding of the original query parameters in which the
    finding's payload is appended to the value of the finding's parameter:
    the URL that was sent for the hit. *)
Theorem Scan_findings_url req w :
  Forall
    (fun v =>
       (Method req = "POST" -> scanner.URL v = URL req) /\
       (scanner.VulnerabilityType v = "SQL Injection (Auth Bypass)" ->
        scanner.URL v = URL req) /\
       (Method req = "GET" ->
        scanner.VulnerabilityType v <> "SQL Injection (Auth Bypass)" ->
        exists u,
          url_Parse (URL req) = Ok u /\
          scanner.URL v =
            URL_String
              (URL_setRawQuery u
                 (Values_Encode
                    (withPayload (URL_Query u) (scanner.Param v)
                       (scanner.Payload v))))))
    (fst (fst (Scan req w))).
Proof.
  apply Scan_Forall. intros paramName w0 v w1 E.
  apply probeParam_finding in E as (Hp & _ & _ & _ & Hcases). rewrite Hp.
  assert (Hother : forall originalParams,
             getOriginalParams req = Ok originalParams ->
             scanner.URL v =
               testURLOf req (withPayload originalParams paramName (scanner.Payload v)) ->
             (Method req = "POST" -> scanner.URL v = URL req) /\
             (Method req = "GET" ->
              exists u,
                url_Parse (URL req) = Ok u /\
                scanner.URL v =
                  URL_String
                    (URL_setRawQuery u
                       (Values_Encode
                          (withPayload (URL_Query u) paramName (scanner.Payload v)))))).
  { intros params Hparams ->. split.
    - intros Hm. apply testURLOf_other. rewrite Hm. discriminate.
    - intros Hm.
      destruct (testURLOf_GET req params Hm Hparams) as (u & Hu & -> & Hurl).
      exists u. split; [exact Hu | apply Hurl]. }
  destruct Hcases as
    [(Hty & _ & _ & params & Hparams & Hu)
    |[(Hty & _ & _ & params & Hparams & Hu)
    |[(Hty & _ & _ & params & Hparams & Hu)
    |[(Hty & _ & _ & params & Hparams & Hu)
    |(Hty & _ & _ & Hu & _)]]]].
  1-4: destruct (Hother params Hparams Hu) as [Hpost Hget];
       (split; [exact Hpost|]); (split; [rewrite Hty; discriminate|]);
       intros Hm _; exact (Hget Hm).
  split; [intros _; exact Hu|]. split; [intros _; exact Hu|].
  intros _ Hne. contradiction.
Qed.

(** X5: the type of the finding of a parameter tells which probes ran
    for it: an error-based finding comes from the first probe; any other
    type means that every probe before it ran and found nothing, each from
    the world the one before left. *)
Theorem probeParam_type_tells_order req paramName w v w' :
  probeParam req paramName w = (Some v, w') ->
  (scanner.VulnerabilityType v = "SQL Injection (Error-Based)" ->
   testErrorBased req paramName w = (Some v, w')) /\
  (scanner.VulnerabilityType v = "SQL Injection (Time-Based)" ->
   exists w1,
     testErrorBased req paramName w = (None, w1) /\
     testTimeBased req paramName w1 = (Some v, w')) /\
  (scanner.VulnerabilityType v = "SQL Injection (Boolean-Based)" ->
   exists w1 w2,
     testErrorBased req paramName w = (None, w1) /\
     testTimeBased req paramName w1 = (None, w2) /\
     testBooleanBased req paramName w2 = (Some v, w')) /\
  (scanner.VulnerabilityType v = "SQL Injection (Content-Based)" ->
   exists w1 w2 w3,
     testErrorBased req paramName w = (None, w1) /\
     testTimeBased req paramName w1 = (None, w2) /\
     testBooleanBased req paramName w2 = (None, w3) /\
     testContentBased req paramName w3 = (Some v, w')) /\
  (scanner.VulnerabilityType v = "SQL Injection (Auth Bypass)" ->
   exists w1 w2 w3 w4,
     testErrorBased req paramName w = (None, w1) /\
     testTimeBased req paramName w1 = (None, w2) /\
     testBooleanBased req paramName w2 = (None, w3) /\
     testContentBased req paramName w3 = (None, w4) /\
     testAuthBypass req paramName w4 = (Some v, w')).
Proof.
  intros E.
  destruct (probeParam_cases _ _ _ _ _ E)
    as [E1 | (w1 & N1 & [E2 | (w2 & N2 & [E3 | (w3 & N3 & [E4 | (w4 & N4 & E5)])])])].
  - pose proof (testErrorBased_type _ _ _ _ _ E1) as Hty. rewrite Hty.
    repeat split; try discriminate. intros _. exact E1.
  - pose proof (testTimeBased_type _ _ _ _ _ E2) as Hty. rewrite Hty.
    repeat split; try discriminate. intros _. exists w1. done.
  - pose proof (testBooleanBased_type _ _ _ _ _ E3) as Hty. rewrite Hty.
    repeat split; try discriminate. intros _. exists w1, w2. done.
  - pose proof (testContentBased_type _ _ _ _ _ E4) as Hty. rewrite Hty.
    repeat split; try discriminate. intros _. exists w1, w2, w3. done.
  - pose proof (testAuthBypass_type _ _ _ _ _ E5) as Hty. rewrite Hty.
    repeat split; try discriminate. intros _. exists w1, w2, w3, w4. done.
Qed.

(** X1: the error-based probe.  Each catalog payload is appended to the
    original value of the parameter; an answered payload is a hit exactly
    when some catalog pattern matches the body, the evidence being what the
    first such pattern (in catalog order) matched, and the probe ends there;
    a payload whose request fails, or whose body no pattern matches, is
    passed over and the payloads after it are tried. *)
Theorem testErrorBased_decision
    req paramName originalParams pre payload post w0 w1 :
  SQLiPayloads = pre ++ payload :: post ->
  getOriginalParams req = Ok originalParams ->
  firstHit (errorAttempt req paramName) pre w0 = (None, w1) ->
  (forall st body w2,
      sendRequest req (withPayload originalParams paramName payload) w1
        = (Ok (st, body), w2) ->
      (existsb (fun pattern => regexp_MatchString pattern body) SQLiErrorPatterns
         = true ->
       exists vuln pattern skipped later,
         testErrorBased req paramName w0 = (Some vuln, w2) /\
         SQLiErrorPatterns = skipped ++ pattern :: later /\
         Forall (fun p => regexp_MatchString p body = false) skipped /\
         regexp_MatchString pattern body = true /\
         scanner.Evidence vuln = regexp_FindString pattern body /\
         scanner.Payload vuln = payload /\
         scanner.Param vuln = paramName /\
         scanner.VulnerabilityType vuln = "SQL Injection (Error-Based)") /\
      (existsb (fun pattern => regexp_MatchString pattern body) SQLiErrorPatterns
         = false ->
       testErrorBased req paramName w0 =
       firstHit (errorAttempt req paramName) post w2)) /\
  (forall e w2,
      sendRequest req (withPayload originalParams paramName payload) w1
        = (Err e, w2) ->
      testErrorBased req paramName w0 =
      firstHit (errorAttempt req paramName) post w2).
Proof.
  intros Hlist Hparams Hpre.
  assert (Hprobe : testErrorBased req paramName w0 =
            match errorAttempt req paramName payload w1 with
            | (Some r, w') => (Some r, w')
            | (None, w') => firstHit (errorAttempt req paramName) post w'
            end).
  { unfold testErrorBased. rewrite Hlist, firstHit_app, Hpre. reflexivity. }
  split.
  - intros st body w2 Es. rewrite Hprobe.
    unfold errorAttempt, bind, ret. rewrite Hparams.
    unfold withPayload in Es. rewrite Es.
    split.
    + intros Hex.
      destruct (List.find _ SQLiErrorPatterns) as [pattern|] eqn:Ef.
      * destruct (find_first_split _ _ _ Ef) as (skipped & later & Hs & Hall & Hm).
        eexists. exists pattern, skipped, later.
        split; [reflexivity|]. repeat split; done.
      * exfalso. apply existsb_exists in Hex as (p & Hin & Hm).
        pose proof (find_none _ _ Ef p Hin) as Hn. simpl in Hn. congruence.
    + intros Hex.
      destruct (List.find _ SQLiErrorPatterns) as [pattern|] eqn:Ef; [|reflexivity].
      exfalso. apply find_some in Ef as [Hin Hm].
      assert (existsb (fun pattern => regexp_MatchString pattern body)
                SQLiErrorPatterns = true) by (apply existsb_exists; eauto).
      congruence.
  - intros e w2 Es. rewrite Hprobe.
    unfold errorAttempt, bind, ret. rewrite Hparams.
    unfold withPayload in Es. rewrite Es. reflexivity.
Qed.

End Findings.

(** ** Request parameters *)

(** X9: injecting a payload.  After [Set(name, Get(name)+payload)] the
    parameter has exactly one value, its original first value followed by
    the payload; a parameter the request does not have is added with the
    payload alone as its value; every other parameter keeps its values. *)
Theorem withPayload_injects (params : Values) (paramName payload : string) :
  withPayload params paramName payload !! paramName
    = Some [ Values_Get params paramName +:+ payload ] /\
  Values_Get (withPayload params paramName payload) paramName
    = Values_Get params paramName +:+ payload /\
  (forall first others,
      params !! paramName = Some (first :: others) ->
      Values_Get (withPayload params paramName payload) paramName
        = first +:+ payload) /\
  (params !! paramName = None ->
   Values_Get (withPayload params paramName payload) paramName = payload) /\
  (forall other,
      other <> paramName ->
      withPayload params paramName payload !! other = params !! other).
Proof.
  unfold withPayload, Values_Set.
  assert (Hl : (<[paramName := [Values_Get params paramName +:+ payload]]> params
                  : Values) !! paramName
               = Some [Values_Get params paramName +:+ payload])
    by apply lookup_insert_eq.
  split; [exact Hl|].
  assert (Hg : Values_Get
                 (<[paramName := [Values_Get params paramName +:+ payload]]> params)
                 paramName
               = Values_Get params paramName +:+ payload).
  { unfold Values_Get at 1. rewrite Hl. reflexivity. }
  split; [exact Hg|]. split; [|split].
  - intros first others Hp. rewrite Hg. unfold Values_Get. rewrite Hp. reflexivity.
  - intros Hp. rewrite Hg. unfold Values_Get. rewrite Hp. reflexivity.
  - intros other Hne. apply lookup_insert_ne. congruence.
Qed.

(** X10: [copyParams] gives a map with the entries of the original, no
    more and no fewer: every key has the value list it had. *)
Theorem copyParams_entries (original : Values) (key : string) :
  copyParams original !! key = original !! key /\
  Values_Get (copyParams original) key = Values_Get original key.
Proof.
  assert (H : copyParams original !! key = original !! key).
  { unfold copyParams.
    apply (map_fold_weak_ind
             (fun (r m : Values) => r !! key = m !! key)).
    - reflexivity.
    - intros i x m r _ IH.
      destruct (decide (i = key)) as [->|Hne].
      + rewrite !lookup_insert_eq. reflexivity.
      + rewrite !lookup_insert_ne by exact Hne. exact IH. }
  split; [exact H|]. unfold Values_Get. rewrite H. reflexivity.
Qed.

Section Passwords.
Context `{P : Platform}.
Import crawler.

Lemma setPasswords_lookup (params : Values) (value key : string) :
  setPasswords params value !! key =
  match params !! key with
  | Some vs =>
      Some (if GoStrings.Contains (strings_ToLower key) "password"
            then [value] else vs)
  | None => None
  end.
Proof.
  unfold setPasswords. rewrite map_lookup_imap.
  destruct (params !! key); reflexivity.
Qed.

(** X11: the password loop.  It keeps the set of parameters as it is,
    gives every parameter whose lowercased name contains [password] the one
    given value, and leaves the values of all other parameters alone. *)
Theorem setPasswords_overwrites (params : Values) (value key : string) :
  (setPasswords params value !! key = None <-> params !! key = None) /\
  (forall vs,
      params !! key = Some vs ->
      GoStrings.Contains (strings_ToLower key) "password" = true ->
      setPasswords params value !! key = Some [value] /\
      Values_Get (setPasswords params value) key = value) /\
  (GoStrings.Contains (strings_ToLower key) "password" = false ->
   setPasswords params value !! key = params !! key).
Proof.
  split; [|split].
  - rewrite setPasswords_lookup. destruct (params !! key); split; congruence.
  - intros vs Hp Hc.
    assert (H : setPasswords params value !! key = Some [value])
      by (rewrite setPasswords_lookup, Hp, Hc; reflexivity).
    split; [exact H|]. unfold Values_Get. rewrite H. reflexivity.
  - intros Hc. rewrite setPasswords_lookup, Hc.
    destruct (params !! key); reflexivity.
Qed.

Lemma login_name_not_password (lowered : string) :
  In lowered [ "username"; "user"; "email"; "login" ] ->
  GoStrings.Contains lowered "password" = false.
Proof.
  simpl. intros [<-|[<-|[<-|[<-|[]]]]]; reflexivity.
Qed.

(** X12: the requests of the authentication probe, for a parameter that
    passes its gate (lowercased name username, user, email or login).  The
    baseline carries [dursgo-test-user] and each attempt carries the bypass
    payload itself in that parameter: the password loop never overwrites
    it; and every parameter of the request whose lowercased name contains
    [password] is sent as [dursgo-test-pass] in the baseline and as
    [password] in the attempts. *)
Theorem authParams_keeps_payload (originalParams : Values)
    (paramName payload : string) :
  In (strings_ToLower paramName) [ "username"; "user"; "email"; "login" ] ->
  Values_Get (authParams originalParams paramName payload) paramName = payload /\
  Values_Get
    (setPasswords (Values_Set originalParams paramName "dursgo-test-user")
       "dursgo-test-pass") paramName = "dursgo-test-user" /\
  (forall key vs,
      originalParams !! key = Some vs ->
      GoStrings.Contains (strings_ToLower key) "password" = true ->
      Values_Get (authParams originalParams paramName payload) key = "password" /\
      Values_Get
        (setPasswords (Values_Set originalParams paramName "dursgo-test-user")
           "dursgo-test-pass") key = "dursgo-test-pass").
Proof.
  intros Hlogin. apply login_name_not_password in Hlogin.
  assert (Hset : forall value dummy,
             Values_Get (setPasswords (Values_Set originalParams paramName value) dummy)
               paramName = value).
  { intros value dummy. unfold Values_Get, Values_Set.
    rewrite setPasswords_lookup, lookup_insert_eq, Hlogin. reflexivity. }
  assert (Hpw : forall value dummy key vs,
             originalParams !! key = Some vs ->
             GoStrings.Contains (strings_ToLower key) "password" = true ->
             Values_Get (setPasswords (Values_Set originalParams paramName value) dummy)
               key = dummy).
  { intros value dummy key vs Hk Hc.
    assert (Hne : paramName <> key) by (intros ->; congruence).
    unfold Values_Get, Values_Set.
    rewrite setPasswords_lookup, lookup_insert_ne, Hk, Hc by exact Hne.
    reflexivity. }
  unfold authParams. split; [apply Hset|]. split; [apply Hset|].
  intros key vs Hk Hc. split; eapply Hpw; eauto.
Qed.

End Passwords.

(** ** Sending and timing *)

Section Exchanges.
Context `{P : Platform}.
Import crawler.


(** X14: a measured duration is an [int64]: the difference of the two
    clock readings when that fits, the largest duration when the difference
    is above the range and the smallest when it is below; with a clock that
    does not run backwards it is never negative. *)
Theorem measureRequestDuration_saturates req params w d w' :
  measureRequestDuration req params w = (Ok d, w') ->
  min_int64 <= d <= max_int64 /\
  (min_int64 <= time_Now w' - time_Now w <= max_int64 ->
   d = time_Now w' - time_Now w) /\
  (max_int64 < time_Now w' - time_Now w -> d = max_int64) /\
  (time_Now w' - time_Now w < min_int64 -> d = min_int64) /\
  (time_Now w <= time_Now w' -> 0 <= d).
Proof.
  intros E.
  assert (Hd : d = saturate64 (time_Now w' - time_Now w)).
  { unfold measureRequestDuration, ret, time_Since in E.
    repeat (case_match; simplify_eq; try discriminate); reflexivity. }
  rewrite Hd. unfold saturate64, min_int64, max_int64.
  destruct (Z.ltb_spec (time_Now w' - time_Now w) (- 2 ^ 63));
    [|destruct (Z.ltb_spec (2 ^ 63 - 1) (time_Now w' - time_Now w))];
    repeat split; intros; lia.
Qed.

(** X15: the sum [baseline + 4s] is an [int64] sum.  With a baseline
    within four seconds of the largest duration it wraps around to a
    negative number, and then every payload that is timed at all (its
    duration not negative) is reported as a hit. *)
Theorem timeAttempt_baseline_overflow
    req paramName originalParams baselineDuration test w testDuration w' :
  getOriginalParams req = Ok originalParams ->
  measureRequestDuration req
    (Some (withPayload originalParams paramName
             (GoStrings.ReplaceAll (payloads.PayloadTemplate test) "{DELAY}" "5")))
    w = (Ok testDuration, w') ->
  max_int64 - 4 * Second < baselineDuration <= max_int64 ->
  0 <= testDuration ->
  duration_add baselineDuration (4 * Second) = baselineDuration + 4 * Second - 2 ^ 64 /\
  exists vuln,
    timeAttempt req paramName baselineDuration test w = (Some vuln, w') /\
    scanner.VulnerabilityType vuln = "SQL Injection (Time-Based)".
Proof.
  intros Hparams Hm Hb Ht.
  assert (Hadd : duration_add baselineDuration (4 * Second) =
                 baselineDuration + 4 * Second - 2 ^ 64).
  { unfold duration_add, wrap64, max_int64, Second in *.
    rewrite <- (Z.mod_unique_pos (baselineDuration + 4 * 1000000000 + 2 ^ 63)
               (2 ^ 64) 1 (baselineDuration + 4 * 1000000000 + 2 ^ 63 - 2 ^ 64));
      lia. }
  split; [exact Hadd|].
  destruct (timeAttempt_timed req paramName originalParams baselineDuration
              test w w' testDuration Hparams Hm) as (vuln & _ & Hty & Hstep).
  exists vuln. split; [|exact Hty]. rewrite Hstep.
  replace (duration_add baselineDuration (4 * Second) <? testDuration) with true;
    [reflexivity|].
  symmetry. apply Z.ltb_lt. rewrite Hadd.
  unfold max_int64, Second in *. lia.
Qed.

End Exchanges.

(** ** Unchanged responses *)

(** With no edit at all the similarity is 1, whatever the lengths. *)
Lemma f64_similarity_zero (m : Z) :
  0 < m ->
  f64_lt (f64_sub f64_1_0 (f64_div (float64_of_int 0) (float64_of_int m)))
         f64_0_95 = false.
Proof.
  intros Hm. pose proof (float64_of_int_positive m Hm) as Hp.
  change (float64_of_int 0) with (S754_zero false).
  destruct (float64_of_int m) as [s|[|]| |[|] mm e]; simpl in Hp;
    try contradiction; reflexivity.
Qed.

Section Unchanged.
Context `{P : Platform}.
Import crawler.

Lemma isDifferentResponse_zero (original modified : string) :
  levenshtein_Distance original modified = 0 ->
  isDifferentResponse original modified = false.
Proof.
  intros Hd. rewrite isDifferentResponse_unfold, Hd.
  destruct (Z.eqb_spec (Z.max (len original) (len modified)) 0) as [|Hne];
    [reflexivity|].
  apply f64_similarity_zero.
  pose proof (len_nonneg original). pose proof (len_nonneg modified). lia.
Qed.

(** X16: a response at edit distance 0 from the one it is compared with
    is never different, whatever its length; so a login answer that is not
    a redirect and repeats the failed-login page passes the differential
    check of the authentication probe with no finding, whatever keywords
    the page holds. *)
Theorem unchanged_response_never_flags (original modified : string) :
  levenshtein_Distance original modified = 0 ->
  isDifferentResponse original modified = false /\
  (forall req paramName payload resp,
      http.Body resp = modified ->
      contentChangeCheck req paramName original payload resp = None).
Proof.
  intros Hd. pose proof (isDifferentResponse_zero _ _ Hd) as Hsame.
  split; [exact Hsame|].
  intros req paramName payload resp Hb. unfold contentChangeCheck.
  destruct (http.BodyErr resp); [reflexivity|]. rewrite Hb, Hsame. reflexivity.
Qed.

End Unchanged.

(** ** A steady server *)

Section QuietLoops.
Context `{P : Platform}.

(** A loop whose passes all miss, each keeping an invariant of the world,
    misses and keeps the invariant. *)
Lemma firstHit_miss {A R : Type} (body : A -> IO (option R))
    (inv : World -> Prop) (xs : list A) :
  (forall x w, In x xs -> inv w ->
     fst (body x w) = None /\ inv (snd (body x w))) ->
  forall w, inv w ->
    fst (firstHit body xs w) = None /\ inv (snd (firstHit body xs w)).
Proof.
  induction xs as [|x xs IH]; intros Hbody w Hw; simpl.
  - split; [reflexivity | exact Hw].
  - destruct (Hbody x w (or_introl eq_refl) Hw) as [Hn Hi].
    destruct (body x w) as [[r|] w0]; simpl in *; [discriminate|].
    apply IH; [|exact Hi]. intros y w1 Hy. apply Hbody. right. exact Hy.
Qed.
End QuietLoops.

Section StaticServer.
Context `{P : Platform}.
Import crawler.

(** The worlds from which the server is steady, and the page it serves. *)
Variable steady : World -> Prop.
Variable page : string.

(** Every exchange from a steady world leaves a steady world, takes no
    more than four seconds, and, when it is answered, is answered with the
    page. *)
Hypothesis Client_Do_steady : forall httpReq w,
  steady w ->
  steady (snd (Client_Do httpReq w)) /\
  0 <= time_Now (snd (Client_Do httpReq w)) - time_Now w <= 4 * Second /\
  (forall resp, fst (Client_Do httpReq w) = Ok resp -> http.Body resp = page).

(** The same without following redirects, and the answer is no redirect. *)
Hypothesis NoRedirects_Do_steady : forall httpReq w,
  steady w ->
  steady (snd (NoRedirects_Do httpReq w)) /\
  (forall resp,
      fst (NoRedirects_Do httpReq w) = Ok resp ->
      http.Body resp = page /\ isRedirect resp = false).

(** No error pattern matches the page, and the page is at distance 0 from
    itself. *)
Hypothesis page_clean : forall pattern,
  In pattern SQLiErrorPatterns -> regexp_MatchString pattern page = false.
Hypothesis page_same : levenshtein_Distance page page = 0.

Lemma sendRequest_steady req params w :
  steady w ->
  steady (snd (sendRequest req params w)) /\
  (forall st body, fst (sendRequest req params w) = Ok (st, body) -> body = page).
Proof.
  intros Hw. unfold sendRequest, bind, ret.
  destruct (buildRequestComponents req params) as [[testURL reqBody]|e];
    [|split; [exact Hw | discriminate]].
  destruct (http_NewRequest (Method req) testURL reqBody) as [httpReq|e];
    [|split; [exact Hw | discriminate]].
  match goal with |- context [Client_Do ?r w] =>
    destruct (Client_Do_steady r w Hw) as (Hs & _ & Hb);
    destruct (Client_Do r w) as [[resp|e] w0] end; simpl in *.
  - destruct (http.BodyErr resp); simpl; (split; [exact Hs|]); [discriminate|].
    intros st body [= _ <-]. apply Hb. reflexivity.
  - split; [exact Hs | discriminate].
Qed.

Lemma measureRequestDuration_steady req params w :
  steady w ->
  steady (snd (measureRequestDuration req params w)) /\
  (forall d, fst (measureRequestDuration req params w) = Ok d ->
     0 <= d <= 4 * Second).
Proof.
  intros Hw. unfold measureRequestDuration, ret.
  destruct (match params with None => getOriginalParams req | Some p => Ok p end)
    as [params'|e]; [|split; [exact Hw | discriminate]].
  destruct (buildRequestComponents req params') as [[testURL reqBody]|e];
    [|split; [exact Hw | discriminate]].
  destruct (http_NewRequest (Method req) testURL reqBody) as [httpReq|e];
    [|split; [exact Hw | discriminate]].
  match goal with |- context [Client_Do ?r w] =>
    destruct (Client_Do_steady r w Hw) as (Hs & Ht & _);
    destruct (Client_Do r w) as [[resp|e] w0] end; simpl in *.
  - split; [exact Hs|]. intros d [= <-].
    unfold time_Since, saturate64, min_int64, max_int64, Second in *.
    destruct (Z.ltb_spec (time_Now w0 - time_Now w) (- 2 ^ 63)); [lia|].
    destruct (Z.ltb_spec (2 ^ 63 - 1) (time_Now w0 - time_Now w)); lia.
  - split; [exact Hs | discriminate].
Qed.

Lemma errorAttempt_steady req paramName payload w :
  steady w ->
  fst (errorAttempt req paramName payload w) = None /\
  steady (snd (errorAttempt req paramName payload w)).
Proof.
  intros Hw. unfold errorAttempt, bind, ret.
  destruct (getOriginalParams req) as [params|e]; [|split; [reflexivity | exact Hw]].
  match goal with |- context [sendRequest req ?p w] =>
    destruct (sendRequest_steady req p w Hw) as (Hs & Hb);
    destruct (sendRequest req p w) as [[[st body]|e] w0] end; simpl in *;
    [|split; [reflexivity | exact Hs]].
  rewrite (Hb st body eq_refl).
  destruct (List.find _ SQLiErrorPatterns) as [pattern|] eqn:Ef;
    [|split; [reflexivity | exact Hs]].
  apply find_some in Ef as [Hin Hm]. rewrite (page_clean _ Hin) in Hm. discriminate.
Qed.

Lemma timeAttempt_steady req paramName baselineDuration test w :
  0 <= baselineDuration <= 4 * Second ->
  steady w ->
  fst (timeAttempt req paramName baselineDuration test w) = None /\
  steady (snd (timeAttempt req paramName baselineDuration test w)).
Proof.
  intros Hb Hw. unfold timeAttempt, bind, ret.
  destruct (getOriginalParams req) as [params|e]; [|split; [reflexivity | exact Hw]].
  match goal with |- context [measureRequestDuration req ?p w] =>
    destruct (measureRequestDuration_steady req p w Hw) as (Hs & Hd);
    destruct (measureRequestDuration req p w) as [[d|e] w0] end; simpl in *;
    [|split; [reflexivity | exact Hs]].
  specialize (Hd d eq_refl).
  assert (Hadd : duration_add baselineDuration (4 * Second)
                 = baselineDuration + 4 * Second).
  { unfold duration_add. apply wrap64_id.
    unfold min_int64, max_int64, Second in *. lia. }
  rewrite Hadd.
  destruct (Z.ltb_spec (baselineDuration + 4 * Second) d); [lia|].
  split; [reflexivity | exact Hs].
Qed.

Lemma booleanAttempt_steady req paramName originalParams test w :
  steady w ->
  fst (booleanAttempt req paramName originalParams page test w) = None /\
  steady (snd (booleanAttempt req paramName originalParams page test w)).
Proof.
  intros Hw. unfold booleanAttempt, bind, ret.
  match goal with |- context [sendRequest req ?p w] =>
    destruct (sendRequest_steady req p w Hw) as (Hs & Hb);
    destruct (sendRequest req p w) as [[[st body]|e] w0] end; simpl in *;
    [|split; [reflexivity | exact Hs]].
  match goal with |- context [sendRequest req ?p w0] =>
    destruct (sendRequest_steady req p w0 Hs) as (Hs' & Hb');
    destruct (sendRequest req p w0) as [[[st' body']|e] w1] end; simpl in *;
    [|split; [reflexivity | exact Hs']].
  rewrite (Hb' st' body' eq_refl), (isDifferentResponse_zero _ _ page_same).
  rewrite andb_false_r. split; [reflexivity | exact Hs'].
Qed.

Lemma contentAttempt_steady req paramName originalParams payload w :
  steady w ->
  fst (contentAttempt req paramName originalParams (len page) payload w) = None /\
  steady (snd (contentAttempt req paramName originalParams (len page) payload w)).
Proof.
  intros Hw. unfold contentAttempt, bind, ret.
  match goal with |- context [sendRequest req ?p w] =>
    destruct (sendRequest_steady req p w Hw) as (Hs & Hb);
    destruct (sendRequest req p w) as [[[st body]|e] w0] end; simpl in *;
    [|split; [reflexivity | exact Hs]].
  rewrite (Hb st body eq_refl). unfold lengthIncreased.
  rewrite Z.ltb_irrefl. simpl. split; [reflexivity | exact Hs].
Qed.

Lemma authAttempt_steady req paramName payload w :
  steady w ->
  fst (authAttempt req paramName page payload w) = None /\
  steady (snd (authAttempt req paramName page payload w)).
Proof.
  intros Hw. unfold authAttempt, bind, ret.
  destruct (getOriginalParams req) as [params|e]; [|split; [reflexivity | exact Hw]].
  destruct (buildRequestComponents req _) as [[testURL reqBody]|e];
    [|split; [reflexivity | exact Hw]].
  destruct (http_NewRequest (Method req) testURL reqBody) as [httpReq|e];
    [|split; [reflexivity | exact Hw]].
  match goal with |- context [NoRedirects_Do ?r w] =>
    destruct (NoRedirects_Do_steady r w Hw) as (Hs & Hb);
    destruct (NoRedirects_Do r w) as [[resp|e] w0] end; simpl in *;
    [|split; [reflexivity | exact Hs]].
  destruct (Hb resp eq_refl) as [Hbody Hred]. unfold isRedirect in Hred.
  rewrite Hred. simpl. split; [|exact Hs].
  unfold contentChangeCheck. destruct (http.BodyErr resp); [reflexivity|].
  rewrite Hbody, (isDifferentResponse_zero _ _ page_same). reflexivity.
Qed.

Lemma probeParam_steady req paramName w :
  steady w ->
  fst (probeParam req paramName w) = None /\
  steady (snd (probeParam req paramName w)).
Proof.
  intros Hw. unfold probeParam, bind, ret.
  (* 1. error-based *)
  assert (H1 : fst (testErrorBased req paramName w) = None /\
               steady (snd (testErrorBased req paramName w))).
  { unfold testErrorBased. apply (firstHit_miss _ steady); [|exact Hw].
    intros; by apply errorAttempt_steady. }
  destruct (testErrorBased req paramName w) as [[v|] w1]; cbn [fst snd] in H1;
    destruct H1 as [H1 Hw1]; [discriminate|].
  (* 2. time-based *)
  assert (H2 : fst (testTimeBased req paramName w1) = None /\
               steady (snd (testTimeBased req paramName w1))).
  { unfold testTimeBased, bind, ret.
    destruct (measureRequestDuration_steady req None w1 Hw1) as (Hs & Hd).
    destruct (measureRequestDuration req None w1) as [[b|e] w0]; cbn [fst snd] in *;
      [|split; [reflexivity | exact Hs]].
    apply (firstHit_miss _ steady); [|exact Hs].
    intros; apply timeAttempt_steady; [apply Hd; reflexivity | assumption]. }
  destruct (testTimeBased req paramName w1) as [[v|] w2]; cbn [fst snd] in H2;
    destruct H2 as [H2 Hw2]; [discriminate|].
  (* 3. boolean-based *)
  assert (H3 : fst (testBooleanBased req paramName w2) = None /\
               steady (snd (testBooleanBased req paramName w2))).
  { unfold testBooleanBased, bind, ret.
    destruct (getOriginalParams req) as [params|e];
      [|split; [reflexivity | exact Hw2]].
    destruct (sendRequest_steady req params w2 Hw2) as (Hs & Hb).
    destruct (sendRequest req params w2) as [[[st body]|e] w0]; cbn [fst snd] in *;
      [|split; [reflexivity | exact Hs]].
    rewrite (Hb st body eq_refl).
    apply (firstHit_miss _ steady); [|exact Hs].
    intros; by apply booleanAttempt_steady. }
  destruct (testBooleanBased req paramName w2) as [[v|] w3]; cbn [fst snd] in H3;
    destruct H3 as [H3 Hw3]; [discriminate|].
  (* 4. content-based *)
  assert (H4 : fst (testContentBased req paramName w3) = None /\
               steady (snd (testContentBased req paramName w3))).
  { unfold testContentBased, bind, ret.
    destruct (getOriginalParams req) as [params|e];
      [|split; [reflexivity | exact Hw3]].
    destruct (sendRequest_steady req params w3 Hw3) as (Hs & Hb).
    destruct (sendRequest req params w3) as [[[st body]|e] w0]; cbn [fst snd] in *;
      [|split; [reflexivity | exact Hs]].
    rewrite (Hb st body eq_refl).
    apply (firstHit_miss _ steady); [|exact Hs].
    intros; by apply contentAttempt_steady. }
  destruct (testContentBased req paramName w3) as [[v|] w4]; cbn [fst snd] in H4;
    destruct H4 as [H4 Hw4]; [discriminate|].
  (* 5. authentication bypass *)
  unfold testAuthBypass, bind, ret.
  destruct (negb _); [split; [reflexivity | exact Hw4]|].
  destruct (getOriginalParams req) as [params|e];
    [|split; [reflexivity | exact Hw4]].
  match goal with |- context [sendRequest req ?p w4] =>
    destruct (sendRequest_steady req p w4 Hw4) as (Hs & Hb);
    destruct (sendRequest req p w4) as [[[st body]|e] w0] end; cbn [fst snd] in *;
    [|split; [reflexivity | exact Hs]].
  rewrite (Hb st body eq_refl).
  apply (firstHit_miss _ steady); [|exact Hs].
  intros; by apply authAttempt_steady.
Qed.

Lemma ParamLoop_steady req paramNames :
  forall findings w,
    steady w ->
    fst (ParamLoop req paramNames findings w) = findings /\
    steady (snd (ParamLoop req paramNames findings w)).
Proof.
  induction paramNames as [|paramName rest IH]; intros findings w Hw; simpl.
  - split; [reflexivity | exact Hw].
  - destruct (ignoredParams !! strings_ToLower paramName); [by apply IH|].
    unfold bind.
    destruct (probeParam_steady req paramName w Hw) as [Hn Hs].
    destruct (probeParam req paramName w) as [[vuln|] w0]; simpl in *;
      [discriminate|].
    by apply IH.
Qed.

(** X7: no false positive on a steady server.  When every request is
    answered (if at all) with the same page within four seconds and never
    with a redirect, no error pattern matches that page, and the page is at
    edit distance 0 from itself, [Scan] reports nothing, for any request
    and any list of parameters, and the server is still steady after the
    scan. *)
Theorem Scan_steady_server_no_findings req w :
  steady w ->
  fst (Scan req w) = ([], None) /\ steady (snd (Scan req w)).
Proof.
  intros Hw. unfold Scan, ret, bind.
  destruct (negb _ && negb _); [split; [reflexivity | exact Hw]|].
  destruct (existsb _ specialPaths); [split; [reflexivity | exact Hw]|].
  destruct (ParamLoop_steady req (ParamNames req) [] w Hw) as [Hf Hs].
  destruct (ParamLoop req (ParamNames req) [] w) as [out w']; simpl in *.
  subst out. split; [reflexivity | exact Hs].
Qed.

End StaticServer.

(** ** Lists of parameters, and requests that cannot be read *)

Section Composition.
Context `{P : Platform}.
Import crawler.

(** The loop appends to the findings it is given. *)
Lemma ParamLoop_accumulates req paramNames :
  forall findings w,
    ParamLoop req paramNames findings w =
    (findings ++ fst (ParamLoop req paramNames [] w),
     snd (ParamLoop req paramNames [] w)).
Proof.
  induction paramNames as [|paramName rest IH]; intros findings w; simpl.
  - unfold ret. simpl. by rewrite app_nil_r.
  - destruct (ignoredParams !! strings_ToLower paramName); [apply IH|].
    unfold bind. destruct (probeParam req paramName w) as [[vuln|] w0].
    + rewrite (IH (findings ++ [vuln])), (IH ([] ++ [vuln])). simpl.
      by rewrite <- app_assoc.
    + apply IH.
Qed.

Lemma ParamLoop_app req names1 names2 :
  forall findings w,
    ParamLoop req (names1 ++ names2) findings w =
    ParamLoop req names2 (fst (ParamLoop req names1 findings w))
      (snd (ParamLoop req names1 findings w)).
Proof.
  induction names1 as [|paramName rest IH]; intros findings w; simpl.
  - reflexivity.
  - destruct (ignoredParams !! strings_ToLower paramName); [apply IH|].
    unfold bind. destruct (probeParam req paramName w) as [[vuln|] w0]; apply IH.
Qed.

(** The probes read the method, the URL and the form data of the request,
    never its list of parameter names. *)
Lemma probeParam_withParamNames req names paramName w :
  probeParam (withParamNames req names) paramName w = probeParam req paramName w.
Proof. reflexivity. Qed.

Lemma ParamLoop_withParamNames req names paramNames :
  forall findings w,
    ParamLoop (withParamNames req names) paramNames findings w =
    ParamLoop req paramNames findings w.
Proof.
  induction paramNames as [|paramName rest IH]; intros findings w; simpl.
  - reflexivity.
  - destruct (ignoredParams !! strings_ToLower paramName); [apply IH|].
    unfold bind. rewrite probeParam_withParamNames.
    destruct (probeParam req paramName w) as [[vuln|] w0]; apply IH.
Qed.

(** X8: parameters are scanned one after the other, each from the
    world the one before left, and the list of names plays no other part:
    scanning a request whose names are [names1 ++ names2] gives the
    findings of the scan with [names1] followed by the findings of the scan
    with [names2] run from the world the first scan left. *)
Theorem Scan_appended_names req names1 names2 w :
  Scan (withParamNames req (names1 ++ names2)) w =
  (fst (fst (Scan (withParamNames req names1) w))
     ++ fst (fst (Scan (withParamNames req names2)
                    (snd (Scan (withParamNames req names1) w)))),
   None,
   snd (Scan (withParamNames req names2)
          (snd (Scan (withParamNames req names1) w)))).
Proof.
  unfold Scan, ret, bind. cbn [Method URL ParamNames withParamNames].
  destruct (negb _ && negb _); [reflexivity|].
  destruct (existsb _ specialPaths); [reflexivity|].
  rewrite !ParamLoop_withParamNames, ParamLoop_app.
  destruct (ParamLoop req names1 [] w) as [found1 w1]. cbn [fst snd].
  rewrite (ParamLoop_accumulates req names2 found1 w1).
  destruct (ParamLoop req names2 [] w1) as [found2 w2]. reflexivity.
Qed.

(** A loop whose passes all miss without touching the world. *)
Lemma firstHit_idle {A R : Type} (body : A -> IO (option R)) (xs : list A) w :
  (forall x, body x w = (None, w)) -> firstHit body xs w = (None, w).
Proof.
  intros H. induction xs as [|x xs IH]; simpl; [reflexivity|].
  rewrite H. exact IH.
Qed.

Lemma probeParam_unparseable req e paramName w :
  getOriginalParams req = Err e -> probeParam req paramName w = (None, w).
Proof.
  intros Hp. unfold probeParam, bind, ret.
  assert (H1 : testErrorBased req paramName w = (None, w)).
  { unfold testErrorBased. apply firstHit_idle. intros payload.
    unfold errorAttempt. rewrite Hp. reflexivity. }
  assert (H2 : testTimeBased req paramName w = (None, w)).
  { unfold testTimeBased, measureRequestDuration, bind, ret. rewrite Hp.
    reflexivity. }
  assert (H3 : testBooleanBased req paramName w = (None, w)).
  { unfold testBooleanBased. rewrite Hp. reflexivity. }
  assert (H4 : testContentBased req paramName w = (None, w)).
  { unfold testContentBased. rewrite Hp. reflexivity. }
  assert (H5 : testAuthBypass req paramName w = (None, w)).
  { unfold testAuthBypass. rewrite Hp. destruct (negb _); reflexivity. }
  rewrite H1, H2, H3, H4. exact H5.
Qed.

(** X6: a request whose parameters cannot be read (a GET URL that does
    not parse, POST form data that does not parse) gets no finding and no
    request is sent for it: every probe of every parameter gives up before
    its first request. *)
Theorem Scan_unparseable_request req e w :
  getOriginalParams req = Err e -> Scan req w = ([], None, w).
Proof.
  intros Hp. unfold Scan, ret, bind.
  destruct (negb _ && negb _); [reflexivity|].
  destruct (existsb _ specialPaths); [reflexivity|].
  assert (H : forall paramNames findings,
             ParamLoop req paramNames findings w = (findings, w)).
  { induction paramNames as [|paramName rest IH]; intros findings; simpl.
    - reflexivity.
    - destruct (ignoredParams !! strings_ToLower paramName); [apply IH|].
      unfold bind. rewrite (probeParam_unparseable req e paramName w Hp).
      apply IH. }
  rewrite H. reflexivity.
Qed.

End Composition.

(** ** The edges of the length test *)

(** X17: the edges of the length test, on lengths below [2^48].  A
    baseline of fewer than ten bytes is outgrown by any longer body; from
    ten bytes up one more byte is not enough; and a body exactly one tenth
    longer than the baseline is not a hit (the test is strict). *)
Theorem lengthIncreased_threshold_edges (originalLength : Z) :
  (forall modifiedLength,
      0 <= originalLength < 10 ->
      originalLength < modifiedLength < 2 ^ 48 ->
      lengthIncreased originalLength modifiedLength = true) /\
  (10 <= originalLength < 2 ^ 48 - 1 ->
   lengthIncreased originalLength (originalLength + 1) = false) /\
  (forall k,
      0 <= k -> originalLength = 10 * k -> 11 * k < 2 ^ 48 ->
      lengthIncreased originalLength (11 * k) = false).
Proof.
  split; [|split].
  - intros modifiedLength Ho Hm. rewrite lengthIncreased_exact by lia.
    apply andb_true_iff. split; apply Z.ltb_lt; lia.
  - intros Ho. rewrite lengthIncreased_exact by lia.
    apply andb_false_iff. right. apply Z.ltb_ge. lia.
  - intros k Hk -> Hb. rewrite lengthIncreased_exact by lia.
    apply andb_false_iff. right. apply Z.ltb_ge. lia.
Qed.

(** * The scanner on the scripted platform *)

Module Examples.
Import Scripted.

(** The scenarios of the specification, by evaluation. *)

Example error_based_hit :
  map scanner.VulnerabilityType
    (fst (fst (Scan (getRequest "http://h/item?id=1" ["id"]) (start [errorPage]))))
  = [ "SQL Injection (Error-Based)" ].
Proof. vm_compute. reflexivity. Qed.

Example boolean_based_hit :
  option_map scanner.Payload
    (fst (testBooleanBased (getRequest "http://h/profile?uid=7" ["uid"]) "uid"
            (start profileScript)))
  = Some " AND 1=1".
Proof. vm_compute. reflexivity. Qed.

Example time_based_hit :
  option_map scanner.Payload
    (fst (testTimeBased (getRequest "http://h/search?q=abc" ["q"]) "q"
            (start searchScript)))
  = Some "' AND SLEEP(5)--".
Proof. vm_compute. reflexivity. Qed.

Example auth_bypass_via_redirect :
  option_map scanner.Payload
    (fst (testAuthBypass loginRequest "username"
            (start (page "Invalid username or password" :: sessionScript))))
  = Some "admin'--".
Proof. vm_compute. reflexivity. Qed.

Example ignored_path :
  Scan {| crawler.Method := "POST"; crawler.URL := "http://h/register";
          crawler.FormPostData := "name=x"; crawler.ParamNames := ["name"] |}
       (start [errorPage])
  = ([], None, start [errorPage]).
Proof. vm_compute. reflexivity. Qed.

Example similarity_at_the_threshold :
  isDifferentResponse "aaaaaaaaaaaaaaaaaaaa" "aaaaaaaaaaaaaaaaaaab" = false /\
  isDifferentResponse "aaaaaaaaaaaaaaaaaaa" "aaaaaaaaaaaaaaaaaab" = true.
Proof. split; vm_compute; reflexivity. Qed.

(** *** The properties at concrete inputs *)

Lemma testBooleanBased_pair_decision_witness :
  exists vuln,
    testBooleanBased profileRequest "uid" (start profileScript)
      = (Some vuln, after 3 (start profileScript)) /\
    scanner.Payload vuln = " AND 1=1".
Proof.
  destruct (testBooleanBased_pair_decision (P := platform)
              profileRequest "uid" (parseQuery "uid=7") 200 "<h1>Alice</h1>"
              []
              {| payloads.TruePayload := " AND 1=1";
                 payloads.FalsePayload := " AND 1=2" |}
              []
              (start profileScript)
              (after 1 (start profileScript)) (after 1 (start profileScript))
              (after 2 (start profileScript)) (after 3 (start profileScript))
              200 "<h1>Alice</h1>" 200 "<h1>Not Found</h1>")
    as (_ & Hhit & _); try (vm_compute; reflexivity).
  destruct Hhit as (vuln & Hrun & Hpay & _);
    [split; vm_compute; reflexivity|].
  exists vuln. split; assumption.
Defined.

(** A login answered by a redirect without a session cookie: the body
    differs from the failure baseline and greets the user, yet the
    attempt, and the whole probe, end without a finding. *)
Lemma authAttempt_unverified_redirect_counterexample :
  fst (NoRedirects_Do bypassRequest (after 1 (start bareRedirectScript)))
    = Ok bareRedirect /\
  contentChangeCheck loginRequest "username" "Invalid username or password"
    "admin'--" bareRedirect <> None /\
  fst (authAttempt loginRequest "username" "Invalid username or password"
         "admin'--" (after 1 (start bareRedirectScript))) = None /\
  fst (testAuthBypass loginRequest "username" (start bareRedirectScript)) = None.
Proof.
  split; [vm_compute; reflexivity|].
  split; [vm_compute; discriminate|].
  split; vm_compute; reflexivity.
Qed.

Lemma authAttempt_acceptance_paths_witness :
  exists vuln,
    authAttempt loginRequest "username" "Invalid username or password"
      "admin'--" (start sessionScript)
      = (Some vuln, after 2 (start sessionScript)) /\
    scanner.Payload vuln = "admin'--".
Proof.
  destruct (authAttempt_acceptance_paths (P := platform)
              loginRequest "username" "Invalid username or password" "admin'--"
              (parseQuery "username=x&password=y")
              "http://h/login"
              (Some (encode (authParams (parseQuery "username=x&password=y")
                               "username" "admin'--")))
              {| reqMethod := "POST"; reqURL := "http://h/login";
                 reqBody :=
                   Some (encode (authParams (parseQuery "username=x&password=y")
                                   "username" "admin'--"));
                 reqContentType := None |}
              (start sessionScript) sessionRedirect (after 1 (start sessionScript)))
    as (_ & Hredirect & _); try (vm_compute; reflexivity).
  destruct (Hredirect eq_refl "http://h/dashboard"
              {| http.StatusCode := 200; http.Location := Err "no Location header";
                 http.Cookies := []; http.Body := "Dashboard - Logout";
                 http.BodyErr := None |}
              (after 2 (start sessionScript)))
    as (_ & Hhit); try (vm_compute; reflexivity).
  { vm_compute. discriminate. }
  destruct Hhit as (vuln & Hrun & Hpay & _); [vm_compute; discriminate|].
  exists vuln. split; assumption.
Defined.

(** A request that lists the same name twice gets two findings for it. *)
Lemma Scan_repeated_name_counterexample :
  map scanner.Param
    (fst (fst (Scan (getRequest "http://h/item?id=1" ["id"; "id"])
                 (start [errorPage; errorPage]))))
  = [ "id"; "id" ] /\
  ~ NoDup
      (map scanner.Param
         (fst (fst (Scan (getRequest "http://h/item?id=1" ["id"; "id"])
                      (start [errorPage; errorPage]))))).
Proof.
  assert (E : map scanner.Param
                (fst (fst (Scan (getRequest "http://h/item?id=1" ["id"; "id"])
                             (start [errorPage; errorPage]))))
              = [ "id"; "id" ]) by (vm_compute; reflexivity).
  split; [exact E|]. rewrite E. intros Hnd.
  apply NoDup_cons in Hnd as [Hnotin _]. apply Hnotin. left.
Qed.

Lemma Scan_one_finding_per_listed_name_witness :
  NoDup ["id"; "q"] /\
  NoDup
    (map scanner.Param
       (fst (fst (Scan (getRequest "http://h/item?id=1&q=a" ["id"; "q"])
                    (start [errorPage; errorPage]))))).
Proof.
  assert (Hnd : NoDup ["id"; "q"]).
  { apply NoDup_cons. split.
    - intros Hin. apply list_elem_of_In in Hin. simpl in Hin.
      destruct Hin as [Hin|[]]. discriminate.
    - apply NoDup_cons. split; [|constructor].
      intros Hin. apply list_elem_of_In in Hin. destruct Hin. }
  split; [exact Hnd|].
  apply (proj2 (Scan_one_finding_per_listed_name (P := platform)
                  (getRequest "http://h/item?id=1&q=a" ["id"; "q"])
                  (start [errorPage; errorPage]))).
  exact Hnd.
Defined.

Lemma isDifferentResponse_similarity_witness :
  (1 - inject_Z (levenshtein_Distance "<h1>Alice</h1>" "<h1>Not Found</h1>")
       / inject_Z (Z.max (len "<h1>Alice</h1>") (len "<h1>Not Found</h1>"))
   < 95 # 100)%Q.
Proof.
  destruct (isDifferentResponse_similarity (P := platform)
              "<h1>Alice</h1>" "<h1>Not Found</h1>") as (_ & _ & H).
  apply H.
  - vm_compute. split; discriminate.
  - vm_compute. split; reflexivity.
  - vm_compute. reflexivity.
Defined.

Lemma testTimeBased_decision_witness :
  exists vuln,
    testTimeBased searchRequest "q" (start searchScript)
      = (Some vuln, after 2 (start searchScript)) /\
    scanner.Payload vuln = "' AND SLEEP(5)--".
Proof.
  destruct (testTimeBased_decision (P := platform)
              searchRequest "q" (parseQuery "q=abc") 1000000
              [] {| payloads.PayloadTemplate := "' AND SLEEP({DELAY})--" |} []
              (start searchScript) (after 1 (start searchScript))
              (after 1 (start searchScript)) (after 2 (start searchScript))
              5500000000)
    as (_ & Hhit & _); try (vm_compute; reflexivity).
  { vm_compute. discriminate. }
  destruct Hhit as (vuln & Hrun & Hpay & _); [vm_compute; reflexivity|].
  exists vuln. split; [exact Hrun|]. rewrite Hpay. vm_compute. reflexivity.
Defined.

Lemma testContentBased_decision_witness :
  exists vuln,
    testContentBased listingRequest "cat" (start listingScript)
      = (Some vuln, after 2 (start listingScript)) /\
    scanner.Payload vuln = "' OR 1=1--".
Proof.
  destruct (testContentBased_decision (P := platform)
              listingRequest "cat" (parseQuery "cat=1") 200 "<li>one</li>"
              [] "' OR 1=1--"
              [ "' OR '1'='1'--"; " OR 1=1--"; "') OR 1=1--"; " OR 1=1#";
                "' OR 1=1#" ]
              (start listingScript) (after 1 (start listingScript))
              (after 1 (start listingScript)) (after 2 (start listingScript))
              200 "<li>one</li><li>two</li><li>three</li>")
    as (_ & _ & _ & Hhit & _); try (vm_compute; reflexivity).
  destruct Hhit as (vuln & Hrun & Hpay & _); [vm_compute; reflexivity|].
  exists vuln. split; assumption.
Defined.

Lemma Scan_unsupported_input_witness :
  Scan {| crawler.Method := "PUT"; crawler.URL := "http://h/item?id=1";
          crawler.FormPostData := ""; crawler.ParamNames := ["id"] |}
       (start [errorPage])
  = ([], None, start [errorPage]).
Proof.
  apply (Scan_unsupported_input (P := platform)).
  left. split; discriminate.
Defined.

Lemma Scan_skips_ignored_parameters_witness :
  ParamLoop (getRequest "http://h/item?id=1" ["CSRF_Token"; "id"])
    ["CSRF_Token"; "id"] [] (start [errorPage])
  = ParamLoop (getRequest "http://h/item?id=1" ["CSRF_Token"; "id"])
      ["id"] [] (start [errorPage]).
Proof.
  apply (proj1 (Scan_skips_ignored_parameters (P := platform) "CSRF_Token"
                  ltac:(vm_compute; tauto))).
Defined.

Lemma testContentBased_empty_baseline_witness :
  exists vuln,
    testContentBased listingRequest "cat" (start emptyListingScript)
      = (Some vuln, after 3 (start emptyListingScript)) /\
    scanner.Payload vuln = "' OR '1'='1'--".
Proof.
  destruct (testContentBased_empty_baseline (P := platform)
              listingRequest "cat" (parseQuery "cat=1") 200
              [ "' OR 1=1--" ] "' OR '1'='1'--"
              [ " OR 1=1--"; "') OR 1=1--"; " OR 1=1#"; "' OR 1=1#" ]
              (start emptyListingScript) (after 1 (start emptyListingScript))
              (after 2 (start emptyListingScript))
              (after 3 (start emptyListingScript))
              200 "<li>one</li>")
    as (_ & _ & vuln & Hrun & Hpay & _); try (vm_compute; reflexivity).
  { discriminate. }
  exists vuln. split; assumption.
Defined.

End Examples.

(** * Further scenarios *)

Module Scenarios.
Import Scripted Fixtures.

Lemma testErrorBased_decision_witness :
  exists vuln,
    testErrorBased (getRequest "http://h/item?id=1" ["id"]) "id" (start [errorPage])
      = (Some vuln, after 1 (start [errorPage])) /\
    scanner.Evidence vuln = "error in your SQL syntax" /\
    scanner.Payload vuln = "'".
Proof.
  destruct (testErrorBased_decision (P := platform)
              (getRequest "http://h/item?id=1" ["id"]) "id" (parseQuery "id=1")
              [] "'" [] (start [errorPage]) (start [errorPage]))
    as (Hanswered & _); try (vm_compute; reflexivity).
  destruct (Hanswered 200 "You have an error in your SQL syntax; check the manual"
              (after 1 (start [errorPage])))
    as (Hhit & _); [vm_compute; reflexivity|].
  destruct Hhit as (vuln & pattern & skipped & later & Hrun & _ & _ & _ & Hev & Hpay & _);
    [vm_compute; reflexivity|].
  exists vuln. split; [exact Hrun|]. split; [|exact Hpay].
  clear -Hrun. vm_compute in Hrun. injection Hrun as <-. reflexivity.
Defined.


Lemma probeParam_type_tells_order_witness :
  exists w1 w2,
    testErrorBased profileRequest "uid" (start blindProfileScript) = (None, w1) /\
    testTimeBased profileRequest "uid" w1 = (None, w2) /\
    option_map scanner.Payload (fst (testBooleanBased profileRequest "uid" w2))
      = Some " AND 1=1".
Proof.
  destruct (probeParam (P := platform) profileRequest "uid"
              (start blindProfileScript)) as [[v|] w'] eqn:E;
    [|vm_compute in E; discriminate].
  assert (Hv : scanner.VulnerabilityType v = "SQL Injection (Boolean-Based)" /\
               scanner.Payload v = " AND 1=1").
  { clear -E. vm_compute in E. injection E as <- _. split; reflexivity. }
  destruct Hv as [Hty Hpay].
  destruct (probeParam_type_tells_order (P := platform) profileRequest "uid"
              (start blindProfileScript) v w' E) as (_ & _ & Hboolean & _).
  destruct (Hboolean Hty) as (w1 & w2 & H1 & H2 & H3).
  exists w1, w2. split; [exact H1|]. split; [exact H2|].
  rewrite H3. simpl. rewrite Hpay. reflexivity.
Defined.

Lemma Scan_unparseable_request_witness :
  Scan (P := strictPlatform) semicolonForm (start [errorPage])
  = ([], None, start [errorPage]).
Proof.
  apply (Scan_unparseable_request (P := strictPlatform) semicolonForm
           "invalid semicolon separator in query").
  vm_compute. reflexivity.
Defined.

Lemma Scan_steady_server_no_findings_witness :
  fst (Scan (getRequest "http://h/item?id=1&user=bob" ["id"; "user"])
         (start (repeat (page "<h1>Welcome</h1>") 20)))
  = ([], None).
Proof.
  apply (Scan_steady_server_no_findings (P := platform)
           (steadyWorld "<h1>Welcome</h1>") "<h1>Welcome</h1>").
  - (* every exchange keeps the world steady *)
    intros httpReq w Hw. unfold steadyWorld in *. simpl. unfold exchange.
    destruct (pending w) as [|x rest] eqn:Ep; simpl.
    + rewrite Ep. split; [constructor|]. split; [unfold Second; lia | discriminate].
    + inversion Hw as [|? ? [Hout Htook] Hrest]; subst.
      split; [exact Hrest|]. split; [lia|].
      intros resp Hr. rewrite Hout in Hr. injection Hr as <-. reflexivity.
  - (* also without following redirects, and no answer is a redirect *)
    intros httpReq w Hw. unfold steadyWorld in *. simpl. unfold exchange.
    destruct (pending w) as [|x rest] eqn:Ep; simpl.
    + rewrite Ep. split; [constructor | discriminate].
    + inversion Hw as [|? ? [Hout Htook] Hrest]; subst.
      split; [exact Hrest|].
      intros resp Hr. rewrite Hout in Hr. injection Hr as <-.
      split; reflexivity.
  - (* the page leaks no error *)
    intros pattern [<-|[]]. vm_compute. reflexivity.
  - vm_compute. reflexivity.
  - (* the script is steady *)
    unfold steadyWorld, start. cbn [pending].
    apply List.Forall_forall. intros x Hx. apply repeat_spec in Hx. subst x.
    split; [reflexivity | vm_compute; split; discriminate].
Defined.

Lemma authParams_keeps_payload_witness :
  Values_Get (authParams (parseQuery "username=x&password=y") "username" "admin'--")
    "username" = "admin'--" /\
  Values_Get (authParams (parseQuery "username=x&password=y") "username" "admin'--")
    "password" = "password".
Proof.
  destruct (authParams_keeps_payload (P := platform)
              (parseQuery "username=x&password=y") "username" "admin'--")
    as (Hpayload & _ & Hpassword); [vm_compute; tauto|].
  split; [exact Hpayload|].
  apply (Hpassword "password" ["y"]); vm_compute; reflexivity.
Defined.

Lemma measureRequestDuration_saturates_witness :
  1000000 = time_Now (after 1 (start searchScript)) - time_Now (start searchScript) /\
  0 <= 1000000.
Proof.
  destruct (measureRequestDuration_saturates (P := platform)
              searchRequest None (start searchScript) 1000000
              (after 1 (start searchScript)))
    as (_ & Hfits & _ & _ & Hpos); [vm_compute; reflexivity|].
  split.
  - apply Hfits. vm_compute. split; discriminate.
  - apply Hpos. vm_compute. discriminate.
Defined.

Lemma timeAttempt_baseline_overflow_witness :
  exists vuln,
    timeAttempt searchRequest "q" max_int64
      {| payloads.PayloadTemplate := "' AND SLEEP({DELAY})--" |}
      (start searchScript)
    = (Some vuln, after 1 (start searchScript)).
Proof.
  destruct (timeAttempt_baseline_overflow (P := platform)
              searchRequest "q" (parseQuery "q=abc") max_int64
              {| payloads.PayloadTemplate := "' AND SLEEP({DELAY})--" |}
              (start searchScript) 1000000 (after 1 (start searchScript)))
    as (_ & vuln & Hrun & _); try (vm_compute; reflexivity).
  - vm_compute. split; [reflexivity | discriminate].
  - vm_compute. discriminate.
  - exists vuln. exact Hrun.
Defined.

Lemma unchanged_response_never_flags_witness :
  isDifferentResponse "Invalid login. Welcome, guest" "Invalid login. Welcome, guest"
    = false /\
  contentChangeCheck loginRequest "username" "Invalid login. Welcome, guest"
    "admin'--"
    {| http.StatusCode := 200; http.Location := Err "no Location header";
       http.Cookies := []; http.Body := "Invalid login. Welcome, guest";
       http.BodyErr := None |}
    = None.
Proof.
  destruct (unchanged_response_never_flags (P := platform)
              "Invalid login. Welcome, guest" "Invalid login. Welcome, guest")
    as [Hsame Hcheck]; [vm_compute; reflexivity|].
  split; [exact Hsame|]. apply Hcheck. reflexivity.
Defined.

End Scenarios.
